(** * Ride wait times: the dataset unifier and the aggregation view of [app.py]

    The program loads five per-ride tables, merges them on their timestamp,
    derives calendar columns, sorts, back-fills the posted wait times inside
    each day and erases the closed-ride sentinel; a callback then computes an
    hourly and a yearly series for a selected ride and date.

    The data-frame operations are those of the library the program calls;
    they are written out here on lists of rows:
    - a frame is the list of its rows, in frame order;
    - a cell of a wait-time column is [option Z], [None] being the missing
      value ([NaN]);
    - a mean is an exact rational ([Q], reduced), not a rounded float;
    - a timestamp is the record of its calendar fields, ordered
      lexicographically; a row always has one (a missing or unparseable
      timestamp aborts the program before any of the code below runs);
    - the callback is given twice: on values, with the table as all it
      reads, and on a store of objects, in which the figures and the list
      it sorts are built and updated in place beside the table. *)

From Stdlib Require Import List ZArith NArith QArith Qreduction Bool String Lia.
From Stdlib Require Import Permutation Sorted.
Import ListNotations.

Set Implicit Arguments.

Close Scope Q_scope.

(* ------------------------------------------------------------------ *)
(** ** Timestamps *)

Record Timestamp := mkTimestamp {
  ts_year : N; ts_month : N; ts_day : N;
  ts_hour : N; ts_minute : N; ts_second : N }.

Definition ts_fields (t : Timestamp) : list N :=
  [ts_year t; ts_month t; ts_day t; ts_hour t; ts_minute t; ts_second t].

Fixpoint lex_leb (a b : list N) : bool :=
  match a, b with
  | [], _ => true
  | _ :: _, [] => false
  | x :: a', y :: b' =>
      if (x <? y)%N then true
      else if (x =? y)%N then lex_leb a' b' else false
  end.

Fixpoint lex_eqb (a b : list N) : bool :=
  match a, b with
  | [], [] => true
  | x :: a', y :: b' => (x =? y)%N && lex_eqb a' b'
  | _, _ => false
  end.

(** [t1 <= t2] on timestamps *)
Definition ts_leb (t1 t2 : Timestamp) : bool := lex_leb (ts_fields t1) (ts_fields t2).

Definition ts_eqb (t1 t2 : Timestamp) : bool := lex_eqb (ts_fields t1) (ts_fields t2).

Definition ts_lt (t1 t2 : Timestamp) : Prop := ts_leb t1 t2 = true /\ t1 <> t2.

(* ------------------------------------------------------------------ *)
(** ** Generic list operations used by the frame operations *)

(** The distinct elements of a list, in order of first appearance. *)
Fixpoint unique (A : Type) (eqb : A -> A -> bool) (l : list A) : list A :=
  match l with
  | [] => []
  | x :: xs => x :: filter (fun y => negb (eqb x y)) (unique eqb xs)
  end.

Fixpoint insert_by (A : Type) (leb : A -> A -> bool) (x : A) (l : list A) : list A :=
  match l with
  | [] => [x]
  | y :: l' => if leb x y then x :: l else y :: insert_by leb x l'
  end.

(** A stable sort: an element stays in front of the later elements it is
    not greater than. *)
Definition sort_by (A : Type) (leb : A -> A -> bool) (l : list A) : list A :=
  fold_right (insert_by leb) [] l.

(** Lookup of a label in a labelled series. *)
Fixpoint lookup (A : Type) (i : nat) (s : list (nat * A)) : option A :=
  match s with
  | [] => None
  | (j, v) :: s' => if Nat.eqb i j then Some v else lookup i s'
  end.

(** A frame's rows with their index labels.  Every frame below that is
    aligned on its index has pairwise distinct labels (the merge gives a
    fresh range, the sort permutes it), so a label is modelled by the row's
    position. *)
Definition indexed_from (A : Type) (start : nat) (l : list A) : list (nat * A) :=
  combine (seq start (List.length l)) l.

Definition indexed (A : Type) (l : list A) : list (nat * A) := indexed_from 0 l.

(* ------------------------------------------------------------------ *)
(** ** The input tables (lines 15-30) *)

Module Csv.

(** One line of a ride's file, [datetime] already converted (line 30). *)
Record Row := mkRow {
  date : string;
  datetime : Timestamp;
  SACTMIN : option Z;
  SPOSTMIN : option Z }.

End Csv.

(** A ride's frame after the loop of lines 26-30: the key and the renamed
    posted-time column. *)
Definition RideFrame := list (Timestamp * option Z).

Definition is_some (A : Type) (o : option A) : bool :=
  match o with Some _ => true | None => false end.

(** Lines 27-29: drop [SACTMIN] and [date], drop the lines without a posted
    time, rename the posted-time column. *)
Definition clean (df : list Csv.Row) : RideFrame :=
  map (fun r => (Csv.datetime r, Csv.SPOSTMIN r))
      (filter (fun r => is_some (Csv.SPOSTMIN r)) df).

(* ------------------------------------------------------------------ *)
(** ** [pd.merge(left, right, how = "outer")] (lines 33, 37)

    The frames share the column [datetime] only, which is the join key.
    The keys of the result are those of the left frame in order of first
    appearance, then the new ones of the right frame; a key on both sides
    gives the product of its rows, left row by left row; a key on one side
    gives that side's rows with the other side's columns missing. *)

Definition merge_key (A B : Type) (nullA : A) (nullB : B)
    (left : list (Timestamp * A)) (right : list (Timestamp * B))
    (k : Timestamp) : list (Timestamp * (A * B)) :=
  let ls := filter (fun l => ts_eqb (fst l) k) left in
  let rs := filter (fun r => ts_eqb (fst r) k) right in
  match ls, rs with
  | _, [] => map (fun l => (k, (snd l, nullB))) ls
  | [], _ => map (fun r => (k, (nullA, snd r))) rs
  | _, _ => flat_map (fun l => map (fun r => (k, (snd l, snd r))) rs) ls
  end.

Definition merge_outer (A B : Type) (nullA : A) (nullB : B)
    (left : list (Timestamp * A)) (right : list (Timestamp * B))
    : list (Timestamp * (A * B)) :=
  flat_map (merge_key nullA nullB left right)
           (unique ts_eqb (map fst left ++ map fst right)).

(* ------------------------------------------------------------------ *)
(** ** The unified table *)

Inductive Ride := Dino | Everest | Passage | Safari | Navi.

Record Row := mkRow {
  datetime : Timestamp;
  SPOSTMIN_dino : option Z;
  SPOSTMIN_everest : option Z;
  SPOSTMIN_passage : option Z;
  SPOSTMIN_safari : option Z;
  SPOSTMIN_navi : option Z;
  Year : N; Month : N; Day : N; Hour : N }.

Definition DataFrame := list Row.

(** [row[col]] for a wait-time column *)
Definition get (c : Ride) (r : Row) : option Z :=
  match c with
  | Dino => SPOSTMIN_dino r
  | Everest => SPOSTMIN_everest r
  | Passage => SPOSTMIN_passage r
  | Safari => SPOSTMIN_safari r
  | Navi => SPOSTMIN_navi r
  end.

(** the row with one wait-time cell replaced *)
Definition set (c : Ride) (v : option Z) (r : Row) : Row :=
  match c with
  | Dino => mkRow (datetime r) v (SPOSTMIN_everest r) (SPOSTMIN_passage r)
              (SPOSTMIN_safari r) (SPOSTMIN_navi r) (Year r) (Month r) (Day r) (Hour r)
  | Everest => mkRow (datetime r) (SPOSTMIN_dino r) v (SPOSTMIN_passage r)
              (SPOSTMIN_safari r) (SPOSTMIN_navi r) (Year r) (Month r) (Day r) (Hour r)
  | Passage => mkRow (datetime r) (SPOSTMIN_dino r) (SPOSTMIN_everest r) v
              (SPOSTMIN_safari r) (SPOSTMIN_navi r) (Year r) (Month r) (Day r) (Hour r)
  | Safari => mkRow (datetime r) (SPOSTMIN_dino r) (SPOSTMIN_everest r) (SPOSTMIN_passage r)
              v (SPOSTMIN_navi r) (Year r) (Month r) (Day r) (Hour r)
  | Navi => mkRow (datetime r) (SPOSTMIN_dino r) (SPOSTMIN_everest r) (SPOSTMIN_passage r)
              (SPOSTMIN_safari r) v (Year r) (Month r) (Day r) (Hour r)
  end.

(** The five input files, in the order of [dfs] (line 22). *)
Record Datasets := mkDatasets {
  dino : list Csv.Row;
  everest : list Csv.Row;
  passage : list Csv.Row;
  safari : list Csv.Row;
  navi : list Csv.Row }.

Definition file_of (c : Ride) (d : Datasets) : list Csv.Row :=
  match c with
  | Dino => dino d | Everest => everest d | Passage => passage d
  | Safari => safari d | Navi => navi d
  end.

Definition wide_null2 : option Z * option Z := (None, None).
Definition wide_null3 : option Z * option Z * option Z := (wide_null2, None).
Definition wide_null4 : option Z * option Z * option Z * option Z := (wide_null3, None).

(** Lines 33-37: the priming merge and the loop over [range(2, len(dfs))],
    which merges the third, fourth and fifth frame into the growing one. *)
Definition merge_chain (d : Datasets)
    : list (Timestamp * (option Z * option Z * option Z * option Z * option Z)) :=
  let data_df := merge_outer None None (clean (dino d)) (clean (everest d)) in
  let data_df := merge_outer wide_null2 None data_df (clean (passage d)) in
  let data_df := merge_outer wide_null3 None data_df (clean (safari d)) in
  let data_df := merge_outer wide_null4 None data_df (clean (navi d)) in
  data_df.

(** Lines 40-43: the calendar columns, read off the timestamp. *)
Definition with_calendar
    (m : Timestamp * (option Z * option Z * option Z * option Z * option Z)) : Row :=
  let '(t, (d, e, p, s, n)) := m in
  mkRow t d e p s n (ts_year t) (ts_month t) (ts_day t) (ts_hour t).

Definition merged (d : Datasets) : DataFrame := map with_calendar (merge_chain d).

(** Line 50: [sort_values("datetime")].  The library's default sort is not
    stable; the order it gives to rows of one timestamp is not fixed by the
    program, and the stable order is taken here. *)
Definition sort_values (df : DataFrame) : DataFrame :=
  sort_by (fun r1 r2 => ts_leb (datetime r1) (datetime r2)) df.

(* ------------------------------------------------------------------ *)
(** ** The gap repair (lines 56-57) *)

Definition DayKey := (N * N * N)%type.

Definition day_key (r : Row) : DayKey := (Year r, Month r, Day r).

Definition day_eqb (a b : DayKey) : bool :=
  let '(y1, m1, d1) := a in
  let '(y2, m2, d2) := b in
  (y1 =? y2)%N && (m1 =? m2)%N && (d1 =? d2)%N.

(** [Series.bfill()]: from the last cell to the first, a missing cell takes
    the cell that follows it. *)
Definition bfill (s : list (option Z)) : list (option Z) :=
  fold_right (fun v acc => match v with
                           | Some _ => v
                           | None => hd None acc
                           end :: acc) [] s.

(** [groupby(["Year", "Month", "Day"])]: the labelled rows of each key, the
    keys in order of first appearance. *)
Definition groupby_day (df : DataFrame) : list (DayKey * list (nat * Row)) :=
  map (fun k => (k, filter (fun ir => day_eqb (day_key (snd ir)) k) (indexed df)))
      (unique day_eqb (map day_key df)).

(** [data_df.groupby([...])[col].bfill()]: each group's column back-filled,
    every value under the label of its row. *)
Definition groupby_bfill (c : Ride) (df : DataFrame) : list (nat * option Z) :=
  flat_map (fun g =>
              combine (map fst (snd g))
                      (bfill (map (fun ir => get c (snd ir)) (snd g))))
           (groupby_day df).

(** [data_df[col] = series]: the column is replaced by the series, aligned
    on the index labels; a label the series lacks gets a missing value. *)
Definition assign (c : Ride) (series : list (nat * option Z)) (df : DataFrame) : DataFrame :=
  map (fun ir => set c (match lookup (fst ir) series with
                        | Some v => v
                        | None => None
                        end) (snd ir))
      (indexed df).

Definition bfill_col (df : DataFrame) (c : Ride) : DataFrame :=
  assign c (groupby_bfill c df) df.

(** the column list of line 56 *)
Definition bfill_cols : list Ride := [Dino; Everest; Passage; Safari; Navi].

Definition backfill (df : DataFrame) : DataFrame := fold_left bfill_col bfill_cols df.

(* ------------------------------------------------------------------ *)
(** ** The sentinel (line 66)

    [data_df.replace(-999, np.nan)] goes over every column.  The calendar
    columns hold naturals and the key holds timestamps, which are never
    [-999]; the cells it can change are those of the wait-time columns. *)

Definition replace_cell (old : Z) (v : option Z) : option Z :=
  match v with
  | Some x => if (x =? old)%Z then None else Some x
  | None => None
  end.

Definition replace_row (old : Z) (r : Row) : Row :=
  mkRow (datetime r)
        (replace_cell old (SPOSTMIN_dino r)) (replace_cell old (SPOSTMIN_everest r))
        (replace_cell old (SPOSTMIN_passage r)) (replace_cell old (SPOSTMIN_safari r))
        (replace_cell old (SPOSTMIN_navi r))
        (Year r) (Month r) (Day r) (Hour r).

Definition replace (old : Z) (df : DataFrame) : DataFrame := map (replace_row old) df.

(** the table before the gap repair, and the table the dashboard reads *)
Definition sorted_df (d : Datasets) : DataFrame := sort_values (merged d).

Definition data_df (d : Datasets) : DataFrame := replace (-999) (backfill (sorted_df d)).

(* ------------------------------------------------------------------ *)
(** ** Python values of the callback *)

Inductive Exception := KeyError | ValueError | IndexError.

Inductive Result (A : Type) :=
| Ok (a : A)
| Raise (e : Exception).

Arguments Ok {A} a.
Arguments Raise {A} e.

(** A computation of the callback: it may read the module-level table and
    may raise. *)
Definition M (A : Type) : Type := DataFrame -> Result A * DataFrame.

Definition ret (A : Type) (a : A) : M A := fun st => (Ok a, st).

Definition bind (A B : Type) (m : M A) (k : A -> M B) : M B :=
  fun st => match m st with
            | (Ok a, st') => k a st'
            | (Raise e, st') => (Raise e, st')
            end.

Definition raise (A : Type) (e : Exception) : M A := fun st => (Raise e, st).

(** a read of the global [data_df] *)
Definition read_data_df : M DataFrame := fun st => (Ok st, st).

Notation "x <- m ;; k" := (bind m (fun x => k))
  (at level 61, m at next level, right associativity).

(** [for x in xs: s = body(x, s)] *)
Fixpoint for_each (A S : Type) (xs : list A) (body : A -> S -> M S) (s : S) : M S :=
  match xs with
  | [] => ret s
  | x :: xs' => s' <- body x s ;; for_each xs' body s'
  end.

(** [l[i]] *)
Definition getitem (A : Type) (l : list A) (i : nat) : M A :=
  match nth_error l i with
  | Some a => ret a
  | None => raise A IndexError
  end.

Fixpoint index_from (s : string) (l : list string) (i : nat) : option nat :=
  match l with
  | [] => None
  | x :: l' => if String.eqb x s then Some i else index_from s l' (S i)
  end.

(** [l.index(s)] *)
Definition index (l : list string) (s : string) : M nat :=
  match index_from s l 0 with
  | Some i => ret i
  | None => raise nat ValueError
  end.

(** [pd.to_datetime(date)] of the date picker's value *)
Record CalendarDate := mkDate { year : N; month : N; day : N }.

(** the figures of [plotly.graph_objects]; colours are left out *)
Module go.

Inductive TraceKind := Scatter | Bar.

Record Trace := mkTrace {
  kind : TraceKind;
  x : list N;
  y : list (option Q);
  mode : option string;
  name : option string }.

Record Figure := mkFigure {
  title : string;
  xaxis_title : string;
  yaxis_title : string;
  traces : list Trace }.

Definition add_trace (f : Figure) (t : Trace) : Figure :=
  mkFigure (title f) (xaxis_title f) (yaxis_title f) (traces f ++ [t]).

End go.

(** the points a trace draws: a position whose mean is missing draws none *)
Fixpoint points (xs : list N) (ys : list (option Q)) : list (N * Q) :=
  match xs, ys with
  | a :: xs', Some q :: ys' => (a, q) :: points xs' ys'
  | _ :: xs', None :: ys' => points xs' ys'
  | _, _ => []
  end.

(* ------------------------------------------------------------------ *)
(** ** Columns of [data_df] by name *)

Inductive Column :=
| ColDatetime
| ColWait (c : Ride)
| ColYear | ColMonth | ColDay | ColHour.

Definition columns : list (string * Column) :=
  [("datetime", ColDatetime);
   ("SPOSTMIN_dino", ColWait Dino); ("SPOSTMIN_everest", ColWait Everest);
   ("SPOSTMIN_passage", ColWait Passage); ("SPOSTMIN_safari", ColWait Safari);
   ("SPOSTMIN_navi", ColWait Navi);
   ("Year", ColYear); ("Month", ColMonth); ("Day", ColDay); ("Hour", ColHour)]%string.

Fixpoint assoc (A : Type) (s : string) (l : list (string * A)) : option A :=
  match l with
  | [] => None
  | (k, v) :: l' => if String.eqb k s then Some v else assoc s l'
  end.

(** the numeric cell of a row in a column; the timestamp column has none
    (what its mean would be is never observed, see [update_charts]) *)
Definition cell (c : Column) (r : Row) : option Z :=
  match c with
  | ColDatetime => None
  | ColWait w => get w r
  | ColYear => Some (Z.of_N (Year r))
  | ColMonth => Some (Z.of_N (Month r))
  | ColDay => Some (Z.of_N (Day r))
  | ColHour => Some (Z.of_N (Hour r))
  end.

(** the present values of a column *)
Fixpoint present (vs : list (option Z)) : list Z :=
  match vs with
  | [] => []
  | Some v :: vs' => v :: present vs'
  | None :: vs' => present vs'
  end.

Definition sum (zs : list Z) : Z := fold_right Z.add 0%Z zs.

(** [Series.mean()]: the mean of the present values, missing if there is
    none *)
Definition mean (vs : list (option Z)) : option Q :=
  match present vs with
  | [] => None
  | z :: zs => Some (Qred (sum (z :: zs) # Pos.of_nat (List.length (z :: zs))))
  end.

(** the sorted distinct values of a key column: the groups of [groupby] *)
Definition group_keys (key : Row -> N) (data : DataFrame) : list N :=
  sort_by N.leb (unique N.eqb (map key data)).

Definition group (key : Row -> N) (k : N) (data : DataFrame) : DataFrame :=
  filter (fun r => (key r =? k)%N) data.

(** [data.groupby([key])[c].mean()]: one entry per group, keys ascending *)
Definition groupby_mean (key : Row -> N) (c : Column) (data : DataFrame) : list (N * option Q) :=
  map (fun k => (k, mean (map (cell c) (group key k data)))) (group_keys key data).

(** [data_df.loc[(data_df["Day"] == date.day) & (data_df["Month"] == date.month)]] *)
Definition loc_day_month (df : DataFrame) (date : CalendarDate) : DataFrame :=
  filter (fun r => (Day r =? day date)%N && (Month r =? month date)%N) df.

(** lines 160-161 *)
Definition col : list string :=
  ["SPOSTMIN_dino"; "SPOSTMIN_everest"; "SPOSTMIN_passage"; "SPOSTMIN_safari";
   "SPOSTMIN_navi"]%string.

Definition name : list string :=
  ["Dinosaur"; "Expedition Everest"; "Flight of Passage"; "Kilimanjaro Safaris";
   "Navi River"]%string.

Definition line_layout : go.Figure :=
  go.mkFigure "Average Wait Time by Hour" "Hour" "Average Wait Time" [].

Definition bar_layout : go.Figure :=
  go.mkFigure "Park Busyness by Year" "Year" "Park Busyness" [].

(* ------------------------------------------------------------------ *)
(** ** [update_charts] (lines 158-209)

    Two behaviours of the language and of the library are parameters, as
    the program does not fix them:
    - [set_iter]: the order in which [list(set(values))] lists the distinct
      values;
    - [apply_raises_on_empty]: whether [data.apply(list)] on a frame
      without rows raises [ValueError] or returns the empty columns.  The
      library raises (it builds a series of an empty list over the frame's
      ten columns), so the program runs with [true]; what holds for either
      answer is stated for both. *)

Section Callback.

Variable set_iter : list N -> list N.
Variable apply_raises_on_empty : bool.

(** [data.apply(list)[key]] *)
Definition apply_list (key : Row -> N) (data : DataFrame) : M (list N) :=
  match data with
  | [] => if apply_raises_on_empty then raise (list N) ValueError else ret []
  | _ :: _ => ret (map key data)
  end.

(** [data.groupby([key])[c]] for a column name [c] *)
Definition groupby_select (c : string) : M Column :=
  match assoc c columns with
  | Some k => ret k
  | None => raise Column KeyError
  end.

(** lines 176-187, the body of the loop over the rides *)
Definition all_rides_body (date : CalendarDate) (r : nat) (figs : go.Figure * go.Figure)
    : M (go.Figure * go.Figure) :=
  let (line_chart_figure, bar_chart_figure) := figs in
  data_df <- read_data_df ;;
  let data := loc_day_month data_df date in
  c <- getitem col r ;;
  k <- groupby_select c ;;
  let means := groupby_mean Hour k data in
  hours <- apply_list Hour data ;;
  n <- getitem name r ;;
  let line_chart_figure :=
    go.add_trace line_chart_figure
      (go.mkTrace go.Scatter (set_iter hours) (map snd means) (Some "lines+markers"%string) (Some n)) in
  let means := groupby_mean Year k data in
  years <- apply_list Year data ;;
  let sorted := sort_by N.leb (set_iter years) in
  let bar_chart_figure :=
    go.add_trace bar_chart_figure (go.mkTrace go.Bar sorted (map snd means) None (Some n)) in
  ret (line_chart_figure, bar_chart_figure).

(** lines 190-206, a single ride *)
Definition single_ride (ride : string) (date : CalendarDate) : M (go.Figure * go.Figure) :=
  data_df <- read_data_df ;;
  let data := loc_day_month data_df date in
  k <- groupby_select ride ;;
  let means := groupby_mean Hour k data in
  hours <- apply_list Hour data ;;
  i <- index col ride ;;
  n <- getitem name i ;;
  let line_chart_figure :=
    go.add_trace line_layout
      (go.mkTrace go.Scatter (set_iter hours) (map snd means) (Some "lines+markers"%string) (Some n)) in
  let means := groupby_mean Year k data in
  years <- apply_list Year data ;;
  let sorted := sort_by N.leb (set_iter years) in
  let bar_chart_figure :=
    go.add_trace bar_layout (go.mkTrace go.Bar sorted (map snd means) None None) in
  ret (line_chart_figure, bar_chart_figure).

Definition update_charts (ride : string) (date : CalendarDate) : M (go.Figure * go.Figure) :=
  if String.eqb ride "All" then
    for_each (seq 0 (List.length col)) (all_rides_body date) (line_layout, bar_layout)
  else
    single_ride ride date.

End Callback.

(* ------------------------------------------------------------------ *)
(** ** The interpreter's sets of small integers

    The order of [list(set(values))] in the reference interpreter, for
    non-negative integers below the hash modulus (an integer is then its
    own hash): an open-addressing table of 8 slots that grows fourfold when
    three fifths full, listed slot by slot. *)

Module CPython.

Definition PySet_MINSIZE : N := 8.
Definition LINEAR_PROBES : N := 9.
Definition PERTURB_SHIFT : N := 5.

Record PySetObject := mkSet {
  fill : N;
  mask : N;
  table : list (option N) }.

Definition empty_table (size : N) : list (option N) := repeat None (N.to_nat size).

Definition new_set : PySetObject := mkSet 0 (PySet_MINSIZE - 1) (empty_table PySet_MINSIZE).

Fixpoint store (A : Type) (l : list A) (i : nat) (a : A) : list A :=
  match l, i with
  | [], _ => []
  | _ :: l', O => a :: l'
  | b :: l', S i' => b :: store l' i' a
  end.

Inductive Slot :=
| Unused (i : N)
| Active.

(** the entries [i], [i+1], ..., [i+probes] *)
Fixpoint scan (tbl : list (option N)) (key : N) (i : N) (probes : nat) : option Slot :=
  match nth_error tbl (N.to_nat i) with
  | None => None
  | Some None => Some (Unused i)
  | Some (Some k) =>
      if (k =? key)%N then Some Active
      else match probes with
           | O => None
           | S p => scan tbl key (i + 1)%N p
           end
  end.

(** the probe sequence of [set_add_entry] and [set_insert_clean] *)
Fixpoint find_slot (fuel : nat) (tbl : list (option N)) (msk key i perturb : N)
    : option Slot :=
  match fuel with
  | O => None
  | S fuel' =>
      let probes := if (i + LINEAR_PROBES <=? msk)%N then LINEAR_PROBES else 0%N in
      match scan tbl key i (N.to_nat probes) with
      | Some s => Some s
      | None =>
          let perturb := N.shiftr perturb PERTURB_SHIFT in
          find_slot fuel' tbl msk key (N.land (i * 5 + 1 + perturb) msk) perturb
      end
  end.

Definition probe_fuel (msk : N) : nat := N.to_nat (4 * (msk + 1) + 64).

Definition place (tbl : list (option N)) (msk key : N) : option (list (option N)) :=
  match find_slot (probe_fuel msk) tbl msk key (N.land key msk) key with
  | Some (Unused i) => Some (store tbl (N.to_nat i) (Some key))
  | _ => None
  end.

Fixpoint table_size_from (fuel : nat) (newsize minused : N) : N :=
  match fuel with
  | O => newsize
  | S fuel' => if (newsize <=? minused)%N
               then table_size_from fuel' (N.shiftl newsize 1) minused
               else newsize
  end.

Fixpoint keys_of (tbl : list (option N)) : list N :=
  match tbl with
  | [] => []
  | Some k :: tbl' => k :: keys_of tbl'
  | None :: tbl' => keys_of tbl'
  end.

(** [set_table_resize] *)
Definition set_table_resize (so : PySetObject) (minused : N) : PySetObject :=
  let newsize := table_size_from 64 PySet_MINSIZE minused in
  let newmask := (newsize - 1)%N in
  let newtable :=
    fold_left (fun tbl k => match place tbl newmask k with
                            | Some tbl' => tbl'
                            | None => tbl
                            end)
              (keys_of (table so)) (empty_table newsize) in
  mkSet (fill so) newmask newtable.

(** [set_add_entry] *)
Definition set_add_entry (so : PySetObject) (key : N) : PySetObject :=
  match find_slot (probe_fuel (mask so)) (table so) (mask so) key (N.land key (mask so)) key with
  | Some (Unused i) =>
      let so' := mkSet (fill so + 1) (mask so) (store (table so) (N.to_nat i) (Some key)) in
      if (fill so' * 5 <? mask so' * 3)%N then so'
      else set_table_resize so' (if (50000 <? fill so')%N then fill so' * 2 else fill so' * 4)%N
  | _ => so
  end.

(** [list(set(values))] *)
Definition list_set (values : list N) : list N :=
  keys_of (table (fold_left set_add_entry values new_set)).

End CPython.

(* ------------------------------------------------------------------ *)
(** ** Reading devices for the statements below *)

(** the first present value of column [c] among the rows of day [k] *)
Fixpoint next_valid (c : Ride) (k : DayKey) (rest : DataFrame) : option Z :=
  match rest with
  | [] => None
  | r :: rest' =>
      if day_eqb (day_key r) k
      then match get c r with
           | Some v => Some v
           | None => next_valid c k rest'
           end
      else next_valid c k rest'
  end.

(** the cell of column [c] of row [r] once filled from the rows after it *)
Definition filled (c : Ride) (r : Row) (rest : DataFrame) : option Z :=
  match get c r with
  | Some v => Some v
  | None => next_valid c (day_key r) rest
  end.

Fixpoint bfill_rows (c : Ride) (df : DataFrame) : DataFrame :=
  match df with
  | [] => []
  | r :: rest => set c (filled c r rest) r :: bfill_rows c rest
  end.

Definition filled_row (r : Row) (rest : DataFrame) : Row :=
  mkRow (datetime r)
        (filled Dino r rest) (filled Everest r rest) (filled Passage r rest)
        (filled Safari r rest) (filled Navi r rest)
        (Year r) (Month r) (Day r) (Hour r).

Fixpoint backfill_rows (df : DataFrame) : DataFrame :=
  match df with
  | [] => []
  | r :: rest => filled_row r rest :: backfill_rows rest
  end.

(** the back-filled series of one day's group *)
Definition group_series (c : Ride) (df : DataFrame) (k : DayKey) : list (nat * option Z) :=
  let g := filter (fun ir => day_eqb (day_key (snd ir)) k) (indexed df) in
  combine (map fst g) (bfill (map (fun ir => get c (snd ir)) g)).

(** ascending timestamps, in frame order *)
Definition ts_le (a b : Row) : Prop := ts_leb (datetime a) (datetime b) = true.

(** where a side of a merged row comes from: a row of that side's frame
    with the same key, or no such row and the side is missing *)
Definition from_side (C : Type) (null : C) (l : list (Timestamp * C)) (k : Timestamp) (c : C)
    : Prop :=
  In (k, c) l \/ (~ In k (map fst l) /\ c = null).

(** rows that differ in wait-time cells only *)
Definition same_frame (r r' : Row) : Prop :=
  datetime r' = datetime r /\ Year r' = Year r /\ Month r' = Month r /\
  Day r' = Day r /\ Hour r' = Hour r.

(* ------------------------------------------------------------------ *)
(** ** Sample inputs *)

Definition at_hour (y m d h : N) : Timestamp := mkTimestamp y m d h 0 0.

Definition line (t : Timestamp) (posted : option Z) : Csv.Row :=
  Csv.mkRow "" t None posted.

(** Ride A has 20 minutes at 10:00 and no posted time at 11:00 on
    2021-06-01; ride B has 5 minutes at 11:00; the other files are empty. *)
Definition scenario : Datasets :=
  mkDatasets
    [line (at_hour 2021 6 1 10) (Some 20%Z); line (at_hour 2021 6 1 11) None]
    [line (at_hour 2021 6 1 11) (Some 5%Z)]
    [] [] [].

(** A closed ride: the sentinel at 9:00, a posted time at 10:00. *)
Definition closed_morning : Datasets :=
  mkDatasets
    [line (at_hour 2021 6 1 9) (Some (-999)%Z); line (at_hour 2021 6 1 10) (Some 30%Z)]
    [line (at_hour 2021 6 1 8) (Some 15%Z)]
    [] [] [].

Definition scenario_row_10 : Row :=
  mkRow (at_hour 2021 6 1 10) (Some 20%Z) None None None None 2021 6 1 10.

Definition closed_row_9 : Row :=
  mkRow (at_hour 2021 6 1 9) (Some (-999)%Z) None None None None 2021 6 1 9.

Definition closed_row_8_filled : Row :=
  mkRow (at_hour 2021 6 1 8) (Some (-999)%Z) (Some 15%Z) None None None 2021 6 1 8.

(* ------------------------------------------------------------------ *)
(** ** Reading devices for the callback *)

(** the outcome of a computation *)
Definition outcome (A : Type) (m : M A) (st : DataFrame) : Result A := fst (m st).

(** what the language promises of [list(set(values))]: the distinct
    values, each once, in some order *)
Definition set_semantics (set_iter : list N -> list N) : Prop :=
  forall l, NoDup (set_iter l) /\ forall a, In a (set_iter l) <-> In a l.

Definition rides : list Ride := [Dino; Everest; Passage; Safari; Navi].

(** the column and the display name of a ride, as [col] and [name] list
    them *)
Definition col_name (c : Ride) : string :=
  match c with
  | Dino => "SPOSTMIN_dino"
  | Everest => "SPOSTMIN_everest"
  | Passage => "SPOSTMIN_passage"
  | Safari => "SPOSTMIN_safari"
  | Navi => "SPOSTMIN_navi"
  end.

Definition display_name (c : Ride) : string :=
  match c with
  | Dino => "Dinosaur"
  | Everest => "Expedition Everest"
  | Passage => "Flight of Passage"
  | Safari => "Kilimanjaro Safaris"
  | Navi => "Navi River"
  end.

(** the two traces the callback builds for a ride from the filtered rows *)
Definition hourly_trace (set_iter : list N -> list N) (c : Ride) (data : DataFrame) : go.Trace :=
  go.mkTrace go.Scatter (set_iter (map Hour data))
             (map snd (groupby_mean Hour (ColWait c) data))
             (Some "lines+markers"%string) (Some (display_name c)).

Definition yearly_trace (set_iter : list N -> list N) (c : Ride) (label : option string)
    (data : DataFrame) : go.Trace :=
  go.mkTrace go.Bar (sort_by N.leb (set_iter (map Year data)))
             (map snd (groupby_mean Year (ColWait c) data)) None label.

(** the date picker's range (lines 122-123) *)
Definition in_window (date : CalendarDate) : bool :=
  (2021 <=? year date)%N && (year date <=? 2022)%N.

(** Two early hours of one day, for two rides. *)
Definition early_hours : Datasets :=
  mkDatasets
    [line (at_hour 2021 6 1 7) (Some 10%Z); line (at_hour 2021 6 1 8) (Some 20%Z)]
    [line (at_hour 2021 6 1 7) (Some 5%Z); line (at_hour 2021 6 1 8) (Some 15%Z)]
    [] [] [].

(** The same day of two years; on 2021-07-04 ride A has 10 and 20 minutes
    and no value at 12:00. *)
Definition two_years : Datasets :=
  mkDatasets
    [line (at_hour 2021 7 4 10) (Some 10%Z); line (at_hour 2021 7 4 11) (Some 20%Z);
     line (at_hour 2022 7 4 10) (Some 40%Z)]
    [line (at_hour 2021 7 4 12) (Some 30%Z)]
    [] [] [].

(** a request answered by series without a point *)
Definition returns_empty_series (set_iter : list N -> list N) (apply_raises_on_empty : bool)
    (df : DataFrame) (ride : string) (date : CalendarDate) : Prop :=
  exists line bar,
    outcome (update_charts set_iter apply_raises_on_empty ride date) df = Ok (line, bar) /\
    forall t, In t (go.traces line ++ go.traces bar) -> points (go.x t) (go.y t) = [].

(** whether [data.apply(list)] raises on the filtered rows *)
Definition apply_raises (apply_raises_on_empty : bool) (data : DataFrame) : bool :=
  match data with
  | [] => apply_raises_on_empty
  | _ :: _ => false
  end.

(** the figures of a single ride and of all rides *)
Definition single_figures (set_iter : list N -> list N) (c : Ride) (data : DataFrame)
    : go.Figure * go.Figure :=
  (go.add_trace line_layout (hourly_trace set_iter c data),
   go.add_trace bar_layout (yearly_trace set_iter c None data)).

Definition all_figures (set_iter : list N -> list N) (data : DataFrame)
    : go.Figure * go.Figure :=
  (go.mkFigure (go.title line_layout) (go.xaxis_title line_layout) (go.yaxis_title line_layout)
               (map (fun c => hourly_trace set_iter c data) rides),
   go.mkFigure (go.title bar_layout) (go.xaxis_title bar_layout) (go.yaxis_title bar_layout)
               (map (fun c => yearly_trace set_iter c (Some (display_name c)) data) rides)).

(* ------------------------------------------------------------------ *)
(** ** Further reading devices and sample inputs *)

(** how many rows of a frame carry a key *)
Definition count_key (C : Type) (k : Timestamp) (l : list (Timestamp * C)) : nat :=
  List.length (filter (fun x => ts_eqb (fst x) k) l).

(** a side without the key counts for one row in the product *)
Definition side_factor (n : nat) : nat := Nat.max 1 n.

(** the rows of the table at a timestamp *)
Definition rows_at (t : Timestamp) (df : DataFrame) : DataFrame :=
  filter (fun r => ts_eqb (datetime r) t) df.

(** Ride A's file repeats 10:00, ride B's file repeats it three times. *)
Definition repeated_records : Datasets :=
  mkDatasets
    [line (at_hour 2021 6 1 10) (Some 20%Z); line (at_hour 2021 6 1 10) (Some 25%Z)]
    [line (at_hour 2021 6 1 10) (Some 5%Z); line (at_hour 2021 6 1 10) (Some 6%Z);
     line (at_hour 2021 6 1 10) (Some 7%Z)]
    [] [] [].

(** The ride filter of the layout (lines 100-113): label and value of each
    option, and the value selected at start. *)
Definition ride_filter_options : list (string * string) :=
  [("All", "All");
   ("Expedition Everest", "SPOSTMIN_everest");
   ("Dinosaur", "SPOSTMIN_dino");
   ("Flight of Passage", "SPOSTMIN_passage");
   ("Kilimanjaro Safaris", "SPOSTMIN_safari");
   ("Navi River", "SPOSTMIN_navi")]%string.

Definition ride_filter_value : string := "All".

(** A day that ends at 9:00 and the next day. *)
Definition first_day : DataFrame :=
  [mkRow (at_hour 2021 6 1 8) None (Some 15%Z) None None None 2021 6 1 8;
   mkRow (at_hour 2021 6 1 9) (Some 30%Z) None None None None 2021 6 1 9].

Definition second_day : DataFrame :=
  [mkRow (at_hour 2021 6 2 8) None (Some 40%Z) None None None 2021 6 2 8;
   mkRow (at_hour 2021 6 2 9) None None None None None 2021 6 2 9].

Definition closed_row_8 : Row :=
  mkRow (at_hour 2021 6 1 8) None (Some 15%Z) None None None 2021 6 1 8.

(** the place of a ride in [col] and [name] *)
Definition ride_index (c : Ride) : nat :=
  match c with
  | Dino => 0 | Everest => 1 | Passage => 2 | Safari => 3 | Navi => 4
  end.

(* ------------------------------------------------------------------ *)
(** ** Reading devices for the interpreter's set on clock hours *)

(** the next entry of the probe sequence in the table of 8 entries *)
Definition small_step (i : N) : N := N.land (i * 5 + 1 + 0) 7.

Fixpoint small_walk (n : nat) (i : N) : N :=
  match n with
  | O => i
  | S n' => small_walk n' (small_step i)
  end.

(** a table in which every key stands at its own place *)
Definition own_place (tbl : list (option N)) : Prop :=
  forall j y, nth_error tbl j = Some (Some y) -> y = N.of_nat j.

(** [set_insert_clean] of a list of keys into such a table *)
Definition place_or_keep (msk : N) (t : list (option N)) (x : N) : list (option N) :=
  match CPython.place t msk x with
  | Some t' => t'
  | None => t
  end.

(** the two phases of a set of clock hours: the table of 8 entries with at
    most four keys, each found by its probe, and the larger tables, in
    which every key stands at its own place *)
Definition small_phase (so : CPython.PySetObject) : Prop :=
  CPython.mask so = 7%N /\ List.length (CPython.table so) = 8 /\
  CPython.fill so = N.of_nat (List.length (CPython.keys_of (CPython.table so))) /\
  List.length (CPython.keys_of (CPython.table so)) <= 4 /\
  forall k, In k (CPython.keys_of (CPython.table so)) ->
            CPython.find_slot (CPython.probe_fuel 7) (CPython.table so) 7 k (N.land k 7) k
            = Some CPython.Active.

Definition direct_phase (so : CPython.PySetObject) : Prop :=
  exists k, (5 <= k)%N /\ CPython.mask so = N.ones k /\
            List.length (CPython.table so) = N.to_nat (2 ^ k) /\
            own_place (CPython.table so) /\ (5 <= CPython.fill so)%N.

Definition hours_inv (seen : list N) (so : CPython.PySetObject) : Prop :=
  (forall y, In y (CPython.keys_of (CPython.table so)) <-> In y seen) /\
  (small_phase so \/ direct_phase so).

(** Ride A posted at every hour from 8:00 to 12:00 of one day. *)
Definition five_hours : Datasets :=
  mkDatasets
    [line (at_hour 2021 6 1 8) (Some 10%Z); line (at_hour 2021 6 1 9) (Some 20%Z);
     line (at_hour 2021 6 1 10) (Some 30%Z); line (at_hour 2021 6 1 11) (Some 40%Z);
     line (at_hour 2021 6 1 12) (Some 50%Z)]
    [] [] [] [].

(* ------------------------------------------------------------------ *)
(** ** [update_charts] on a store of objects

    The callback once more, line by line, with the objects it updates in
    place kept in a store: the two figures ([go.Figure()], [update_layout],
    [add_trace]) and the list [sorted] ([sorted.sort()]).  The store also
    holds the table, as the object the global name [data_df] is bound to,
    and whatever else the process has built before the call.  The frames
    and series the callback builds and only reads stay values. *)

Module Objects.

Inductive Object :=
| Frame (df : DataFrame)
| Figure (f : go.Figure)
| PyList (l : list N).

(** the objects by address, and the address the global name [data_df] is
    bound to *)
Record Store := mkStore {
  global_data_df : nat;
  heap : list Object }.

(** A computation on the store: it may read, create and update objects and
    may raise; [None] when it reaches for an object that is not there. *)
Definition H (A : Type) : Type := Store -> option (Result A * Store).

Definition ret (A : Type) (a : A) : H A := fun s => Some (Ok a, s).

Definition bind (A B : Type) (m : H A) (k : A -> H B) : H B :=
  fun s => match m s with
           | Some (Ok a, s') => k a s'
           | Some (Raise e, s') => Some (Raise e, s')
           | None => None
           end.

Definition raise (A : Type) (e : Exception) : H A := fun s => Some (Raise e, s).

Notation "x <~ m ;; k" := (bind m (fun x => k))
  (at level 61, m at next level, right associativity).

Notation "m ;;; k" := (bind m (fun _ => k))
  (at level 61, right associativity).

Fixpoint update (l : list Object) (a : nat) (o : Object) : list Object :=
  match l, a with
  | [], _ => []
  | _ :: l', O => o :: l'
  | b :: l', S a' => b :: update l' a' o
  end.

(** a new object, at the next free address *)
Definition new (o : Object) : H nat :=
  fun s => Some (Ok (List.length (heap s)), mkStore (global_data_df s) (heap s ++ [o])).

(** an update in place of the object at an address *)
Definition put (a : nat) (o : Object) : H unit :=
  fun s => if a <? List.length (heap s)
           then Some (Ok tt, mkStore (global_data_df s) (update (heap s) a o))
           else None.

Definition figure (a : nat) : H go.Figure :=
  fun s => match nth_error (heap s) a with
           | Some (Figure f) => Some (Ok f, s)
           | _ => None
           end.

Definition pylist (a : nat) : H (list N) :=
  fun s => match nth_error (heap s) a with
           | Some (PyList l) => Some (Ok l, s)
           | _ => None
           end.

(** a read of the global [data_df] *)
Definition read_data_df : H DataFrame :=
  fun s => match nth_error (heap s) (global_data_df s) with
           | Some (Frame df) => Some (Ok df, s)
           | _ => None
           end.

(** [go.Figure()] *)
Definition Figure_new : H nat := new (Figure (go.mkFigure "" "" "" [])).

(** [fig.update_layout(title = ..., xaxis_title = ..., yaxis_title = ...)] *)
Definition update_layout (fig : nat) (title xaxis_title yaxis_title : string) : H unit :=
  f <~ figure fig ;;
  put fig (Figure (go.mkFigure title xaxis_title yaxis_title (go.traces f))).

(** [fig.add_trace(t)] *)
Definition add_trace (fig : nat) (t : go.Trace) : H unit :=
  f <~ figure fig ;;
  put fig (Figure (go.add_trace f t)).

(** [l.sort()] *)
Definition sort (l : nat) : H unit :=
  values <~ pylist l ;;
  put l (PyList (sort_by N.leb values)).

(** [for x in xs: body(x)] *)
Fixpoint for_each (A : Type) (xs : list A) (body : A -> H unit) : H unit :=
  match xs with
  | [] => ret tt
  | x :: xs' => body x ;;; for_each xs' body
  end.

Definition getitem (A : Type) (l : list A) (i : nat) : H A :=
  match nth_error l i with
  | Some a => ret a
  | None => raise A IndexError
  end.

Definition index (l : list string) (s : string) : H nat :=
  match index_from s l 0 with
  | Some i => ret i
  | None => raise nat ValueError
  end.

Definition groupby_select (c : string) : H Column :=
  match assoc c columns with
  | Some k => ret k
  | None => raise Column KeyError
  end.

Section OnStore.

Variable set_iter : list N -> list N.
Variable apply_raises_on_empty : bool.

Definition apply_list (key : Row -> N) (data : DataFrame) : H (list N) :=
  match data with
  | [] => if apply_raises_on_empty then raise (list N) ValueError else ret []
  | _ :: _ => ret (map key data)
  end.

(** lines 176-187, the body of the loop over the rides *)
Definition all_rides_body (date : CalendarDate) (line_chart_figure bar_chart_figure : nat)
    (r : nat) : H unit :=
  data_df <~ read_data_df ;;
  let data := loc_day_month data_df date in
  c <~ getitem col r ;;
  k <~ groupby_select c ;;
  let means := groupby_mean Hour k data in
  hours <~ apply_list Hour data ;;
  n <~ getitem name r ;;
  add_trace line_chart_figure
    (go.mkTrace go.Scatter (set_iter hours) (map snd means)
                (Some "lines+markers"%string) (Some n)) ;;;
  let means := groupby_mean Year k data in
  years <~ apply_list Year data ;;
  sorted <~ new (PyList (set_iter years)) ;;
  sort sorted ;;;
  x <~ pylist sorted ;;
  add_trace bar_chart_figure (go.mkTrace go.Bar x (map snd means) None (Some n)).

(** lines 165-171 and the loop *)
Definition all_rides (date : CalendarDate) : H (nat * nat) :=
  line_chart_figure <~ Figure_new ;;
  update_layout line_chart_figure "Average Wait Time by Hour" "Hour" "Average Wait Time" ;;;
  bar_chart_figure <~ Figure_new ;;
  update_layout bar_chart_figure "Park Busyness by Year" "Year" "Park Busyness" ;;;
  for_each (seq 0 (List.length col))
    (all_rides_body date line_chart_figure bar_chart_figure) ;;;
  ret (line_chart_figure, bar_chart_figure).

(** lines 190-206, a single ride *)
Definition single_ride (ride : string) (date : CalendarDate) : H (nat * nat) :=
  data_df <~ read_data_df ;;
  let data := loc_day_month data_df date in
  k <~ groupby_select ride ;;
  let means := groupby_mean Hour k data in
  line_chart_figure <~ Figure_new ;;
  update_layout line_chart_figure "Average Wait Time by Hour" "Hour" "Average Wait Time" ;;;
  hours <~ apply_list Hour data ;;
  i <~ index col ride ;;
  n <~ getitem name i ;;
  add_trace line_chart_figure
    (go.mkTrace go.Scatter (set_iter hours) (map snd means)
                (Some "lines+markers"%string) (Some n)) ;;;
  let means := groupby_mean Year k data in
  years <~ apply_list Year data ;;
  sorted <~ new (PyList (set_iter years)) ;;
  sort sorted ;;;
  bar_chart_figure <~ Figure_new ;;
  update_layout bar_chart_figure "Park Busyness by Year" "Year" "Park Busyness" ;;;
  x <~ pylist sorted ;;
  add_trace bar_chart_figure (go.mkTrace go.Bar x (map snd means) None None) ;;;
  ret (line_chart_figure, bar_chart_figure).

Definition update_charts (ride : string) (date : CalendarDate) : H (nat * nat) :=
  if String.eqb ride "All" then all_rides date else single_ride ride date.

End OnStore.

(** the table the global name is bound to *)
Definition table (s : Store) : option DataFrame :=
  match nth_error (heap s) (global_data_df s) with
  | Some (Frame df) => Some df
  | _ => None
  end.

(** the figures a call has returned, read in a store *)
Definition returned (s : Store) (r : Result (nat * nat)) : option (Result (go.Figure * go.Figure)) :=
  match r with
  | Ok (line, bar) =>
      match nth_error (heap s) line, nth_error (heap s) bar with
      | Some (Figure l), Some (Figure b) => Some (Ok (l, b))
      | _, _ => None
      end
  | Raise e => Some (Raise e)
  end.

(** every object of [s] is in [s'] as it was, and the global name is bound
    as it was *)
Definition kept (s s' : Store) : Prop :=
  global_data_df s' = global_data_df s /\
  forall a o, nth_error (heap s) a = Some o -> nth_error (heap s') a = Some o.

(** the store of a call under way: the objects [h] of before the call,
    then the objects [g] built since *)
Definition since (gl : nat) (h g : list Object) : Store := mkStore gl (h ++ g).

End Objects.

(** A store with the table of [scenario] and a figure built before the
    call. *)
Definition scenario_store : Objects.Store :=
  Objects.mkStore 1 [Objects.Figure bar_layout; Objects.Frame (data_df scenario)].

(* ================================================================== *)
(** * Facts about the list operations *)

Arguments day_eqb : simpl never.
Arguments day_key : simpl never.

Lemma lex_eqb_eq (a b : list N) : lex_eqb a b = true <-> a = b.
Proof.
  revert b; induction a as [|x a IH]; intros [|y b]; simpl; split; intro H;
    try reflexivity; try discriminate.
  - apply andb_true_iff in H as [H1 H2].
    apply N.eqb_eq in H1; apply IH in H2; now subst.
  - injection H as -> ->. rewrite N.eqb_refl. now apply IH.
Qed.

Lemma ts_eqb_eq (t1 t2 : Timestamp) : ts_eqb t1 t2 = true <-> t1 = t2.
Proof.
  unfold ts_eqb; rewrite lex_eqb_eq; split; [|now intros ->].
  destruct t1, t2; unfold ts_fields; simpl; intro H; now inversion H.
Qed.

Lemma ts_eqb_refl (t : Timestamp) : ts_eqb t t = true.
Proof. now apply ts_eqb_eq. Qed.

Lemma ts_eqb_neq (t1 t2 : Timestamp) : ts_eqb t1 t2 = false <-> t1 <> t2.
Proof.
  rewrite <- ts_eqb_eq. destruct (ts_eqb t1 t2); split; congruence.
Qed.

Lemma ts_eq_dec (t1 t2 : Timestamp) : {t1 = t2} + {t1 <> t2}.
Proof.
  destruct (ts_eqb t1 t2) eqn:E; [left; now apply ts_eqb_eq | right; now apply ts_eqb_neq].
Qed.

Lemma lex_leb_total (a b : list N) : lex_leb a b = false -> lex_leb b a = true.
Proof.
  revert b; induction a as [|x a IH]; intros [|y b]; simpl; try congruence.
  destruct (N.ltb_spec x y); [discriminate|].
  destruct (N.eqb_spec x y) as [->|Hne].
  - rewrite N.ltb_irrefl, N.eqb_refl. apply IH.
  - intros _. destruct (N.ltb_spec y x); [reflexivity | lia].
Qed.

Lemma lex_leb_trans (a b c : list N) :
  lex_leb a b = true -> lex_leb b c = true -> lex_leb a c = true.
Proof.
  revert b c; induction a as [|x a IH]; intros [|y b] [|z c]; simpl; try congruence.
  destruct (N.ltb_spec x y), (N.ltb_spec y z), (N.ltb_spec x z); try reflexivity;
    try lia;
    destruct (N.eqb_spec x y), (N.eqb_spec y z), (N.eqb_spec x z);
    try discriminate; try lia; eauto.
Qed.

Lemma ts_leb_total (t1 t2 : Timestamp) : ts_leb t1 t2 = false -> ts_leb t2 t1 = true.
Proof. apply lex_leb_total. Qed.

Lemma ts_leb_trans (t1 t2 t3 : Timestamp) :
  ts_leb t1 t2 = true -> ts_leb t2 t3 = true -> ts_leb t1 t3 = true.
Proof. apply lex_leb_trans. Qed.

Lemma day_eqb_eq (a b : DayKey) : day_eqb a b = true <-> a = b.
Proof.
  destruct a as [[y1 m1] d1], b as [[y2 m2] d2]; unfold day_eqb.
  rewrite !andb_true_iff, !N.eqb_eq. split.
  - intros [[-> ->] ->]; reflexivity.
  - intros H; inversion H; auto.
Qed.

Lemma day_eqb_refl (a : DayKey) : day_eqb a a = true.
Proof. now apply day_eqb_eq. Qed.

Section Unique.

Variable A : Type.
Variable eqb : A -> A -> bool.
Hypothesis eqb_eq : forall a b, eqb a b = true <-> a = b.

Lemma unique_In (l : list A) (a : A) : In a (unique eqb l) <-> In a l.
Proof.
  induction l as [|b l IH]; simpl; [tauto|].
  rewrite filter_In, IH. split.
  - intros [H|[H _]]; auto.
  - intros [H|H]; auto.
    destruct (eqb b a) eqn:E.
    + left; now apply eqb_eq.
    + right; split; auto.
Qed.

Lemma unique_NoDup (l : list A) : NoDup (unique eqb l).
Proof.
  induction l as [|b l IH]; simpl; constructor.
  - rewrite filter_In. intros [_ H].
    assert (eqb b b = true) as E by now apply eqb_eq.
    now rewrite E in H.
  - now apply NoDup_filter.
Qed.

End Unique.

Section Sorting.

Variable A : Type.
Variable leb : A -> A -> bool.

Lemma insert_by_perm (a : A) (l : list A) : Permutation (a :: l) (insert_by leb a l).
Proof.
  induction l as [|b l IH]; simpl; [reflexivity|].
  destruct (leb a b); [reflexivity|].
  rewrite perm_swap. now constructor.
Qed.

Lemma sort_by_perm (l : list A) : Permutation l (sort_by leb l).
Proof.
  induction l as [|a l IH]; simpl; [constructor|].
  rewrite <- insert_by_perm. now constructor.
Qed.

Hypothesis leb_total : forall a b, leb a b = false -> leb b a = true.
Hypothesis leb_trans : forall a b c, leb a b = true -> leb b c = true -> leb a c = true.

Lemma insert_by_sorted (a : A) (l : list A) :
  StronglySorted (fun u v => leb u v = true) l ->
  StronglySorted (fun u v => leb u v = true) (insert_by leb a l).
Proof.
  induction 1 as [|b l Hs IH Hb]; simpl.
  - repeat constructor.
  - destruct (leb a b) eqn:E.
    + constructor; [now constructor|].
      constructor; [exact E|].
      rewrite Forall_forall in *. eauto.
    + constructor; [exact IH|].
      rewrite Forall_forall in *. intros u Hu.
      apply (Permutation_in _ (Permutation_sym (insert_by_perm a l))) in Hu.
      destruct Hu as [<-|Hu]; auto.
Qed.

Lemma sort_by_sorted (l : list A) : StronglySorted (fun u v => leb u v = true) (sort_by leb l).
Proof.
  induction l as [|a l IH]; simpl; [constructor|].
  now apply insert_by_sorted.
Qed.

End Sorting.

(* ================================================================== *)
(** * The gap repair *)

Lemma get_set_same (c : Ride) (v : option Z) (r : Row) : get c (set c v r) = v.
Proof. destruct c; reflexivity. Qed.

Lemma get_set_other (c c' : Ride) (v : option Z) (r : Row) :
  c <> c' -> get c (set c' v r) = get c r.
Proof. destruct c, c'; intro H; try reflexivity; contradiction. Qed.

Lemma day_key_set (c : Ride) (v : option Z) (r : Row) : day_key (set c v r) = day_key r.
Proof. destruct c; reflexivity. Qed.

Lemma datetime_set (c : Ride) (v : option Z) (r : Row) : datetime (set c v r) = datetime r.
Proof. destruct c; reflexivity. Qed.

Lemma lookup_app (A : Type) (i : nat) (a b : list (nat * A)) :
  lookup i (a ++ b) = match lookup i a with Some v => Some v | None => lookup i b end.
Proof.
  induction a as [|[j v] a IH]; simpl; [reflexivity|].
  destruct (Nat.eqb i j); auto.
Qed.

Lemma lookup_notin (A : Type) (i : nat) (a : list (nat * A)) :
  ~ In i (map fst a) -> lookup i a = None.
Proof.
  induction a as [|[j v] a IH]; simpl; [reflexivity|].
  intro H. destruct (Nat.eqb_spec i j) as [->|Hne]; [exfalso; auto|].
  apply IH; tauto.
Qed.

Lemma indexed_from_cons (A : Type) (s : nat) (a : A) (l : list A) :
  indexed_from s (a :: l) = (s, a) :: indexed_from (S s) l.
Proof. reflexivity. Qed.

Lemma indexed_from_app (A : Type) (s : nat) (l1 l2 : list A) :
  indexed_from s (l1 ++ l2) = indexed_from s l1 ++ indexed_from (s + List.length l1) l2.
Proof.
  revert s; induction l1 as [|a l1 IH]; intro s.
  - simpl. now rewrite Nat.add_0_r.
  - rewrite <- app_comm_cons, !indexed_from_cons, IH. simpl.
    now rewrite Nat.add_succ_r.
Qed.

Lemma indexed_from_labels (A : Type) (s : nat) (l : list A) (i : nat) (a : A) :
  In (i, a) (indexed_from s l) -> s <= i < s + List.length l.
Proof.
  revert s; induction l as [|b l IH]; intro s; [intros []|].
  rewrite indexed_from_cons. intros [H|H].
  - inversion H; subst; simpl; lia.
  - apply IH in H. simpl; lia.
Qed.

Lemma indexed_from_snd (A : Type) (s : nat) (l : list A) :
  map snd (indexed_from s l) = l.
Proof.
  revert s; induction l as [|b l IH]; intro s; [reflexivity|].
  rewrite indexed_from_cons; simpl. now rewrite IH.
Qed.

Lemma indexed_from_length (A : Type) (s : nat) (l : list A) :
  List.length (indexed_from s l) = List.length l.
Proof. rewrite <- (indexed_from_snd s l) at 2. now rewrite length_map. Qed.

Lemma combine_app (A B : Type) (a1 a2 : list A) (b1 b2 : list B) :
  List.length a1 = List.length b1 ->
  combine (a1 ++ a2) (b1 ++ b2) = combine a1 b1 ++ combine a2 b2.
Proof.
  revert b1; induction a1 as [|x a1 IH]; intros [|y b1]; simpl; intro H;
    try discriminate; [reflexivity|].
  f_equal. apply IH. now injection H.
Qed.

Lemma flat_map_map_comp (A B C : Type) (g : A -> B) (f : B -> list C) (l : list A) :
  flat_map f (map g l) = flat_map (fun a => f (g a)) l.
Proof. induction l as [|a l IH]; simpl; [reflexivity | now rewrite IH]. Qed.

Lemma bfill_length (s : list (option Z)) : List.length (bfill s) = List.length s.
Proof. induction s as [|v s IH]; simpl; [reflexivity | now rewrite <- IH]. Qed.

Lemma bfill_cons (v : option Z) (s : list (option Z)) :
  bfill (v :: s) = match v with Some _ => v | None => hd None (bfill s) end :: bfill s.
Proof. reflexivity. Qed.

Lemma bfill_app (s1 s2 : list (option Z)) :
  exists p, bfill (s1 ++ s2) = p ++ bfill s2 /\ List.length p = List.length s1.
Proof.
  induction s1 as [|v s1 (p & Hp & Hl)].
  - exists []; split; reflexivity.
  - rewrite <- app_comm_cons, bfill_cons, Hp.
    eexists (_ :: p); split; [reflexivity | simpl; now rewrite Hl].
Qed.

(** the day's rows after a position, as the group holds them *)
Lemma bfill_group_tail (c : Ride) (k : DayKey) (s : nat) (rest : DataFrame) :
  hd None (bfill (map (fun ir => get c (snd ir))
                      (filter (fun ir => day_eqb (day_key (snd ir)) k) (indexed_from s rest))))
  = next_valid c k rest.
Proof.
  revert s; induction rest as [|r rest IH]; intro s; [reflexivity|].
  rewrite indexed_from_cons. simpl.
  destruct (day_eqb (day_key r) k); [|apply IH].
  simpl. destruct (get c r); [reflexivity | apply IH].
Qed.

Section GroupSeries.

Variable c : Ride.
Variable df : DataFrame.

Lemma groupby_bfill_series :
  groupby_bfill c df = flat_map (group_series c df) (unique day_eqb (map day_key df)).
Proof. unfold groupby_bfill, groupby_day. now rewrite flat_map_map_comp. Qed.

Variables (d1 d2 : DataFrame) (r : Row).
Hypothesis split : df = d1 ++ r :: d2.

Lemma indexed_split :
  indexed df = indexed d1 ++ (List.length d1, r) :: indexed_from (S (List.length d1)) d2.
Proof. unfold indexed. now rewrite split, indexed_from_app, indexed_from_cons. Qed.

Lemma label_row (r' : Row) : In (List.length d1, r') (indexed df) -> r' = r.
Proof.
  rewrite indexed_split, in_app_iff. intros [H|[H|H]].
  - apply indexed_from_labels in H. lia.
  - now inversion H.
  - apply indexed_from_labels in H. lia.
Qed.

Lemma group_series_other (k : DayKey) :
  day_eqb (day_key r) k = false -> lookup (List.length d1) (group_series c df k) = None.
Proof.
  intro Hk. apply lookup_notin. intro Hin.
  unfold group_series in Hin.
  assert (In (List.length d1)
             (map fst (filter (fun ir => day_eqb (day_key (snd ir)) k) (indexed df)))) as H.
  { revert Hin. generalize (filter (fun ir => day_eqb (day_key (snd ir)) k) (indexed df)).
    intros g Hg. apply in_map_iff in Hg as ([i v] & Hi & Hg). simpl in Hi; subst i.
    now apply in_combine_l in Hg. }
  apply in_map_iff in H as ([i r'] & Hi & H). simpl in Hi; subst i.
  apply filter_In in H as [H Hd]. apply label_row in H. subst r'. simpl in Hd. congruence.
Qed.

Lemma group_series_own :
  lookup (List.length d1) (group_series c df (day_key r)) = Some (filled c r d2).
Proof.
  unfold group_series. rewrite indexed_split, filter_app. simpl.
  rewrite day_eqb_refl, !map_app. simpl.
  destruct (bfill_app
              (map (fun ir => get c (snd ir))
                   (filter (fun ir => day_eqb (day_key (snd ir)) (day_key r)) (indexed d1)))
              (get c r :: map (fun ir => get c (snd ir))
                   (filter (fun ir => day_eqb (day_key (snd ir)) (day_key r))
                           (indexed_from (S (List.length d1)) d2))))
    as (p & Hp & Hl).
  rewrite Hp, combine_app by (now rewrite Hl, !length_map).
  rewrite lookup_app, lookup_notin.
  - rewrite bfill_cons. simpl. rewrite Nat.eqb_refl.
    unfold filled. destruct (get c r); [reflexivity|].
    now rewrite bfill_group_tail.
  - intro Hin. apply in_map_iff in Hin as ([i v] & Hi & Hin). simpl in Hi; subst i.
    apply in_combine_l, in_map_iff in Hin as ([i r'] & Hi & Hin). simpl in Hi; subst i.
    apply filter_In in Hin as [Hin _]. apply indexed_from_labels in Hin. lia.
Qed.

Lemma groupby_bfill_lookup :
  lookup (List.length d1) (groupby_bfill c df) = Some (filled c r d2).
Proof.
  rewrite groupby_bfill_series.
  assert (In (day_key r) (unique day_eqb (map day_key df))) as Hin.
  { apply (unique_In day_eqb day_eqb_eq). rewrite split, map_app, in_app_iff. right. now left. }
  induction (unique day_eqb (map day_key df)) as [|k ks IH]; [destruct Hin|].
  simpl. rewrite lookup_app.
  destruct (day_eqb (day_key r) k) eqn:E.
  - apply day_eqb_eq in E. subst k. now rewrite group_series_own.
  - rewrite group_series_other by exact E. apply IH.
    destruct Hin as [->|Hin]; [|exact Hin]. now rewrite day_eqb_refl in E.
Qed.

End GroupSeries.

Lemma bfill_col_from (c : Ride) (df d1 d2 : DataFrame) :
  df = d1 ++ d2 ->
  map (fun ir => set c (match lookup (fst ir) (groupby_bfill c df) with
                        | Some v => v
                        | None => None
                        end) (snd ir))
      (indexed_from (List.length d1) d2)
  = bfill_rows c d2.
Proof.
  revert d1; induction d2 as [|r d2 IH]; intros d1 Hdf; [reflexivity|].
  rewrite indexed_from_cons. simpl. f_equal.
  - now rewrite (@groupby_bfill_lookup c df d1 d2 r Hdf).
  - specialize (IH (d1 ++ [r])). rewrite length_app, Nat.add_1_r in IH.
    apply IH. now rewrite <- app_assoc.
Qed.

(** one pass of the loop of lines 56-57 *)
Lemma bfill_col_rows (c : Ride) (df : DataFrame) : bfill_col df c = bfill_rows c df.
Proof. exact (@bfill_col_from c df [] df eq_refl). Qed.

Lemma next_valid_bfill_rows (c c' : Ride) (k : DayKey) (df : DataFrame) :
  c <> c' -> next_valid c k (bfill_rows c' df) = next_valid c k df.
Proof.
  intro Hc. induction df as [|r df IH]; [reflexivity|].
  simpl. now rewrite day_key_set, get_set_other, IH.
Qed.

Lemma filled_bfill_rows (c c' : Ride) (v : option Z) (r : Row) (df : DataFrame) :
  c <> c' -> filled c (set c' v r) (bfill_rows c' df) = filled c r df.
Proof.
  intro Hc. unfold filled.
  now rewrite get_set_other, day_key_set, next_valid_bfill_rows.
Qed.

Lemma backfill_rows_eq (df : DataFrame) : backfill df = backfill_rows df.
Proof.
  unfold backfill, bfill_cols. simpl. rewrite !bfill_col_rows.
  induction df as [|r df IH]; [reflexivity|].
  cbn [bfill_rows]. rewrite IH. f_equal.
  rewrite !filled_bfill_rows by discriminate.
  destruct r; reflexivity.
Qed.

Lemma backfill_rows_nth (df : DataFrame) (i : nat) :
  nth_error (backfill_rows df) i
  = option_map (fun r => filled_row r (skipn (S i) df)) (nth_error df i).
Proof.
  revert i; induction df as [|r df IH]; intros [|i]; try reflexivity.
  simpl. now rewrite IH.
Qed.

Lemma get_filled_row (c : Ride) (r : Row) (rest : DataFrame) :
  get c (filled_row r rest) = filled c r rest.
Proof. destruct c; reflexivity. Qed.

Lemma nth_error_skipn (A : Type) (n j : nat) (l : list A) :
  nth_error (skipn n l) j = nth_error l (n + j).
Proof.
  revert l; induction n as [|n IH]; intro l; [reflexivity|].
  destruct l as [|a l]; simpl; [now destruct j | apply IH].
Qed.

Lemma next_valid_some (c : Ride) (k : DayKey) (rest : DataFrame) (v : Z) :
  next_valid c k rest = Some v ->
  exists j rj, nth_error rest j = Some rj /\ day_key rj = k /\ get c rj = Some v /\
    forall j' rj', j' < j -> nth_error rest j' = Some rj' -> day_key rj' = k ->
                   get c rj' = None.
Proof.
  induction rest as [|r rest IH]; [discriminate|].
  simpl. destruct (day_eqb (day_key r) k) eqn:E.
  - apply day_eqb_eq in E. destruct (get c r) as [w|] eqn:G.
    + intros [= ->]. exists 0, r. repeat split; auto. intros j' rj' Hj. lia.
    + intro H. destruct (IH H) as (j & rj & Hn & Hk & Hv & Hmin).
      exists (S j), rj. repeat split; auto.
      intros [|j'] rj' Hj Hn' Hk'; simpl in Hn'.
      * injection Hn' as <-. exact G.
      * apply (Hmin j' rj'); auto. lia.
  - intro H. destruct (IH H) as (j & rj & Hn & Hk & Hv & Hmin).
    exists (S j), rj. repeat split; auto.
    intros [|j'] rj' Hj Hn' Hk'; simpl in Hn'.
    + injection Hn' as <-. apply day_eqb_eq in Hk'. congruence.
    + apply (Hmin j' rj'); auto. lia.
Qed.

Lemma next_valid_none (c : Ride) (k : DayKey) (rest : DataFrame) :
  next_valid c k rest = None ->
  forall j rj, nth_error rest j = Some rj -> day_key rj = k -> get c rj = None.
Proof.
  induction rest as [|r rest IH]; intros H j rj Hn Hk.
  - now destruct j.
  - simpl in H. destruct j as [|j]; simpl in Hn.
    + injection Hn as <-. apply day_eqb_eq in Hk. rewrite Hk in H.
      destruct (get c r); [discriminate | reflexivity].
    + destruct (day_eqb (day_key r) k); [destruct (get c r); [discriminate|]|];
        apply (IH H j rj); auto.
Qed.

Lemma sort_values_sorted (df : DataFrame) : StronglySorted ts_le (sort_values df).
Proof.
  apply (@sort_by_sorted Row (fun r1 r2 => ts_leb (datetime r1) (datetime r2))).
  - intros a b. apply ts_leb_total.
  - intros a b c. apply ts_leb_trans.
Qed.

Lemma sort_values_perm (df : DataFrame) : Permutation df (sort_values df).
Proof. apply sort_by_perm. Qed.

Lemma sorted_nth (A : Type) (R : A -> A -> Prop) (l : list A) :
  StronglySorted R l ->
  forall i j a b, i < j -> nth_error l i = Some a -> nth_error l j = Some b -> R a b.
Proof.
  induction 1 as [|x l Hs IH Hx]; intros i j a b Hij Ha Hb.
  - now destruct i.
  - destruct j as [|j]; [lia|]. simpl in Hb.
    destruct i as [|i]; simpl in Ha.
    + injection Ha as <-. rewrite Forall_forall in Hx. apply Hx.
      now apply nth_error_In in Hb.
    + apply (IH i j); auto. lia.
Qed.

(* ================================================================== *)
(** * The outer join *)

Section Merge.

Variables A B : Type.
Variable nullA : A.
Variable nullB : B.

Lemma key_filter_In (C : Type) (k : Timestamp) (l : list (Timestamp * C)) (x : Timestamp * C) :
  In x (filter (fun l => ts_eqb (fst l) k) l) <-> In x l /\ fst x = k.
Proof. now rewrite filter_In, ts_eqb_eq. Qed.

Lemma key_filter_nil (C : Type) (k : Timestamp) (l : list (Timestamp * C)) :
  filter (fun l => ts_eqb (fst l) k) l = [] <-> ~ In k (map fst l).
Proof.
  split.
  - intros H Hin. apply in_map_iff in Hin as (x & Hx & Hin).
    assert (In x (filter (fun l => ts_eqb (fst l) k) l)) as Hf by now apply key_filter_In.
    now rewrite H in Hf.
  - intro H. destruct (filter _ l) as [|x f] eqn:E; [reflexivity|].
    exfalso. apply H.
    assert (In x (filter (fun l => ts_eqb (fst l) k) l)) as Hf by (rewrite E; now left).
    apply key_filter_In in Hf as [Hin <-]. now apply in_map.
Qed.

Lemma merge_key_sides (left : list (Timestamp * A)) (right : list (Timestamp * B))
    (k k' : Timestamp) (a : A) (b : B) :
  In (k', (a, b)) (merge_key nullA nullB left right k) ->
  k' = k /\ from_side nullA left k a /\ from_side nullB right k b.
Proof.
  unfold merge_key, from_side.
  pose proof (key_filter_In k left) as HL.
  pose proof (key_filter_In k right) as HR.
  pose proof (key_filter_nil k left) as NL.
  pose proof (key_filter_nil k right) as NR.
  set (ls := filter (fun l => ts_eqb (fst l) k) left) in *.
  set (rs := filter (fun r => ts_eqb (fst r) k) right) in *.
  assert (In (k', (a, b)) (map (fun l => (k, (snd l, nullB))) ls) -> rs = [] ->
          k' = k /\ (In (k, a) left \/ ~ In k (map fst left) /\ a = nullA) /\
          (In (k, b) right \/ ~ In k (map fst right) /\ b = nullB)) as Hleft.
  { intros H Hrs. apply in_map_iff in H as ([kl al] & [= <- <- <-] & Hin).
    apply HL in Hin as [Hin Hk]. simpl in Hk; subst kl.
    repeat split; auto. right. split; auto. now apply NR. }
  assert (In (k', (a, b)) (map (fun r => (k, (nullA, snd r))) rs) -> ls = [] ->
          k' = k /\ (In (k, a) left \/ ~ In k (map fst left) /\ a = nullA) /\
          (In (k, b) right \/ ~ In k (map fst right) /\ b = nullB)) as Hright.
  { intros H Hls. apply in_map_iff in H as ([kr br] & [= <- <- <-] & Hin).
    apply HR in Hin as [Hin Hk]. simpl in Hk; subst kr.
    repeat split; auto. right. split; auto. now apply NL. }
  clearbody ls rs.
  destruct ls as [|l ls], rs as [|r rs]; intro H; auto.
  apply in_flat_map in H as ([kl al] & Hl & H).
  apply in_map_iff in H as ([kr br] & [= <- <- <-] & Hr).
  apply HL in Hl as [Hl Hk]. simpl in Hk; subst kl.
  apply HR in Hr as [Hr Hk]. simpl in Hk; subst kr.
  repeat split; auto.
Qed.

Lemma merge_outer_sides (left : list (Timestamp * A)) (right : list (Timestamp * B))
    (k : Timestamp) (a : A) (b : B) :
  In (k, (a, b)) (merge_outer nullA nullB left right) ->
  from_side nullA left k a /\ from_side nullB right k b.
Proof.
  unfold merge_outer. intro H. apply in_flat_map in H as (k0 & _ & H).
  apply merge_key_sides in H as (-> & H). exact H.
Qed.

Lemma merge_outer_key (left : list (Timestamp * A)) (right : list (Timestamp * B))
    (k : Timestamp) :
  In k (map fst (merge_outer nullA nullB left right)) ->
  In k (map fst left) \/ In k (map fst right).
Proof.
  intro H. apply in_map_iff in H as ([k' [a b]] & Hk & H). simpl in Hk; subst k'.
  unfold merge_outer in H. apply in_flat_map in H as (k0 & Hk0 & H).
  apply merge_key_sides in H as (-> & _).
  apply (proj1 (unique_In ts_eqb ts_eqb_eq _ _)) in Hk0. now apply in_app_iff in Hk0.
Qed.

Lemma key_filter_cons (C : Type) (k : Timestamp) (l : list (Timestamp * C)) :
  In k (map fst l) -> exists x xs, filter (fun l => ts_eqb (fst l) k) l = x :: xs.
Proof.
  intro H. destruct (filter _ l) as [|x xs] eqn:E; [|eauto].
  now apply key_filter_nil in E.
Qed.

Lemma merge_key_nonempty (left : list (Timestamp * A)) (right : list (Timestamp * B))
    (k : Timestamp) :
  In k (map fst left) \/ In k (map fst right) ->
  exists a b rows, merge_key nullA nullB left right k = (k, (a, b)) :: rows.
Proof.
  unfold merge_key. intros H.
  destruct (filter (fun l => ts_eqb (fst l) k) left) as [|l ls] eqn:EL;
    destruct (filter (fun r => ts_eqb (fst r) k) right) as [|r rs] eqn:ER; simpl; eauto.
  apply key_filter_nil in EL, ER. tauto.
Qed.

Lemma merge_outer_key_iff (left : list (Timestamp * A)) (right : list (Timestamp * B))
    (k : Timestamp) :
  In k (map fst (merge_outer nullA nullB left right)) <->
  In k (map fst left) \/ In k (map fst right).
Proof.
  split; [apply merge_outer_key|].
  intro H. destruct (merge_key_nonempty left right k H) as (a & b & rows & E).
  apply in_map_iff. exists (k, (a, b)). split; [reflexivity|].
  unfold merge_outer. apply in_flat_map. exists k. split.
  - apply (unique_In ts_eqb ts_eqb_eq). now apply in_app_iff.
  - rewrite E. now left.
Qed.

Lemma key_filter_NoDup (C : Type) (k : Timestamp) (c : C) (l : list (Timestamp * C)) :
  NoDup (map fst l) -> In (k, c) l -> filter (fun l => ts_eqb (fst l) k) l = [(k, c)].
Proof.
  induction l as [|[k' c'] l IH]; simpl; intros Hnd Hin; [destruct Hin|].
  inversion Hnd as [|? ? Hnotin Hnd']; subst.
  destruct Hin as [[= -> ->]|Hin].
  - rewrite ts_eqb_refl. f_equal. now apply key_filter_nil.
  - destruct (ts_eqb k' k) eqn:E; [|now apply IH].
    apply ts_eqb_eq in E. subst k'. exfalso. apply Hnotin.
    now apply (in_map fst) in Hin.
Qed.

Lemma merge_key_single (left : list (Timestamp * A)) (right : list (Timestamp * B))
    (k : Timestamp) :
  NoDup (map fst left) -> NoDup (map fst right) ->
  In k (map fst left) \/ In k (map fst right) ->
  map fst (merge_key nullA nullB left right k) = [k].
Proof.
  intros HL HR Hk. unfold merge_key.
  assert (forall C (l : list (Timestamp * C)), NoDup (map fst l) ->
            filter (fun l => ts_eqb (fst l) k) l = [] \/
            exists c, filter (fun l => ts_eqb (fst l) k) l = [(k, c)]) as Hcase.
  { intros C l Hnd. destruct (in_dec ts_eq_dec k (map fst l)) as [Hin|Hin].
    - right. apply in_map_iff in Hin as ([k' c] & Hk' & Hin). simpl in Hk'; subst k'.
      exists c. now apply key_filter_NoDup.
    - left. now apply key_filter_nil. }
  destruct (Hcase A left HL) as [EL|[a EL]], (Hcase B right HR) as [ER|[b ER]];
    rewrite EL, ER; try reflexivity.
  apply key_filter_nil in EL, ER. tauto.
Qed.

Lemma merge_outer_keys (left : list (Timestamp * A)) (right : list (Timestamp * B)) :
  NoDup (map fst left) -> NoDup (map fst right) ->
  map fst (merge_outer nullA nullB left right)
  = unique ts_eqb (map fst left ++ map fst right).
Proof.
  intros HL HR. unfold merge_outer.
  assert (forall k, In k (unique ts_eqb (map fst left ++ map fst right)) ->
            map fst (merge_key nullA nullB left right k) = [k]) as H.
  { intros k Hk. apply merge_key_single; auto.
    apply (proj1 (unique_In ts_eqb ts_eqb_eq _ _)) in Hk. now apply in_app_iff in Hk. }
  induction (unique ts_eqb (map fst left ++ map fst right)) as [|k ks IH]; [reflexivity|].
  simpl. rewrite map_app, H by now left. simpl. f_equal.
  apply IH. intros k' Hk'. apply H. now right.
Qed.

Lemma merge_outer_NoDup (left : list (Timestamp * A)) (right : list (Timestamp * B)) :
  NoDup (map fst left) -> NoDup (map fst right) ->
  NoDup (map fst (merge_outer nullA nullB left right)).
Proof.
  intros HL HR. rewrite merge_outer_keys by assumption.
  apply (unique_NoDup ts_eqb ts_eqb_eq).
Qed.

(** a column of the left frame, seen through the merge *)
Lemma merge_outer_left_column (F : RideFrame) (f : A -> option Z)
    (left : list (Timestamp * A)) (right : list (Timestamp * B)) :
  f nullA = None ->
  (forall k, In k (map fst F) -> In k (map fst left)) ->
  (forall k a, In (k, a) left -> from_side None F k (f a)) ->
  forall k a b, In (k, (a, b)) (merge_outer nullA nullB left right) ->
                from_side None F k (f a).
Proof.
  intros Hnull Hsub Hcol k a b H.
  apply merge_outer_sides in H as [[H|[H ->]] _]; [now apply Hcol|].
  right. split; auto.
Qed.

Lemma merge_outer_right_column (left : list (Timestamp * A)) (right : list (Timestamp * B)) :
  forall k a b, In (k, (a, b)) (merge_outer nullA nullB left right) ->
                from_side nullB right k b.
Proof. intros k a b H. now apply merge_outer_sides in H. Qed.

End Merge.

(* ================================================================== *)
(** * The merged table *)

Lemma clean_present (df : list Csv.Row) (t : Timestamp) (v : option Z) :
  In (t, v) (clean df) -> exists z, v = Some z.
Proof.
  unfold clean. intro H. apply in_map_iff in H as (r & [= <- <-] & H).
  apply filter_In in H as [_ H]. destruct (Csv.SPOSTMIN r); [eauto | discriminate].
Qed.

Lemma clean_In (df : list Csv.Row) (t : Timestamp) (z : Z) :
  In (t, Some z) (clean df) <->
  exists r, In r df /\ Csv.datetime r = t /\ Csv.SPOSTMIN r = Some z.
Proof.
  unfold clean. rewrite in_map_iff. split.
  - intros (r & [= <- E] & H). apply filter_In in H as [H _]. eauto.
  - intros (r & H & <- & E). exists r. rewrite E. split; [reflexivity|].
    apply filter_In. now rewrite E.
Qed.

Lemma from_side_self (C : Type) (null : C) (l : list (Timestamp * C)) (k : Timestamp) (c : C) :
  In (k, c) l -> from_side null l k c.
Proof. now left. Qed.

Lemma merge_chain_cells (d : Datasets) (t : Timestamp) (x1 x2 x3 x4 x5 : option Z) :
  In (t, (x1, x2, x3, x4, x5)) (merge_chain d) ->
  from_side None (clean (dino d)) t x1 /\
  from_side None (clean (everest d)) t x2 /\
  from_side None (clean (passage d)) t x3 /\
  from_side None (clean (safari d)) t x4 /\
  from_side None (clean (navi d)) t x5.
Proof.
  unfold merge_chain.
  set (D := clean (dino d)). set (E := clean (everest d)). set (P := clean (passage d)).
  set (S := clean (safari d)). set (V := clean (navi d)).
  set (m1 := merge_outer None None D E).
  set (m2 := merge_outer wide_null2 None m1 P).
  set (m3 := merge_outer wide_null3 None m2 S).
  intro H.
  assert (forall k, In k (map fst D) -> In k (map fst m1)) as D1
    by (intros k Hk; apply merge_outer_key_iff; now left).
  assert (forall k, In k (map fst E) -> In k (map fst m1)) as E1
    by (intros k Hk; apply merge_outer_key_iff; now right).
  assert (forall k, In k (map fst m1) -> In k (map fst m2)) as M12
    by (intros k Hk; apply merge_outer_key_iff; now left).
  assert (forall k, In k (map fst P) -> In k (map fst m2)) as P2
    by (intros k Hk; apply merge_outer_key_iff; now right).
  assert (forall k, In k (map fst m2) -> In k (map fst m3)) as M23
    by (intros k Hk; apply merge_outer_key_iff; now left).
  assert (forall k, In k (map fst S) -> In k (map fst m3)) as S3
    by (intros k Hk; apply merge_outer_key_iff; now right).
  (* the columns of the first merge *)
  assert (forall k a, In (k, a) m1 -> from_side None D k (fst a)) as C1D.
  { intros k [a b] Hin.
    exact (@merge_outer_left_column _ _ None None D (fun a => a) _ _ eq_refl
             (fun k H => H) (fun k a H => from_side_self None D k a H) k a b Hin). }
  assert (forall k a, In (k, a) m1 -> from_side None E k (snd a)) as C1E.
  { intros k [a b] Hin. exact (merge_outer_right_column _ _ _ _ _ _ _ Hin). }
  (* the second merge *)
  assert (forall k a, In (k, a) m2 -> from_side None D k (fst (fst a))) as C2D.
  { intros k [a b] Hin.
    exact (@merge_outer_left_column _ _ wide_null2 None D (fun a => fst a) _ _ eq_refl
             D1 C1D k a b Hin). }
  assert (forall k a, In (k, a) m2 -> from_side None E k (snd (fst a))) as C2E.
  { intros k [a b] Hin.
    exact (@merge_outer_left_column _ _ wide_null2 None E (fun a => snd a) _ _ eq_refl
             E1 C1E k a b Hin). }
  assert (forall k a, In (k, a) m2 -> from_side None P k (snd a)) as C2P.
  { intros k [a b] Hin. exact (merge_outer_right_column _ _ _ _ _ _ _ Hin). }
  (* the third merge *)
  assert (forall k a, In (k, a) m3 -> from_side None D k (fst (fst (fst a)))) as C3D.
  { intros k [a b] Hin.
    exact (@merge_outer_left_column _ _ wide_null3 None D (fun a => fst (fst a)) _ _ eq_refl
             (fun k H => M12 k (D1 k H)) C2D k a b Hin). }
  assert (forall k a, In (k, a) m3 -> from_side None E k (snd (fst (fst a)))) as C3E.
  { intros k [a b] Hin.
    exact (@merge_outer_left_column _ _ wide_null3 None E (fun a => snd (fst a)) _ _ eq_refl
             (fun k H => M12 k (E1 k H)) C2E k a b Hin). }
  assert (forall k a, In (k, a) m3 -> from_side None P k (snd (fst a))) as C3P.
  { intros k [a b] Hin.
    exact (@merge_outer_left_column _ _ wide_null3 None P (fun a => snd a) _ _ eq_refl
             P2 C2P k a b Hin). }
  assert (forall k a, In (k, a) m3 -> from_side None S k (snd a)) as C3S.
  { intros k [a b] Hin. exact (merge_outer_right_column _ _ _ _ _ _ _ Hin). }
  (* the last merge *)
  repeat split.
  - exact (@merge_outer_left_column _ _ wide_null4 None D
             (fun a => fst (fst (fst a))) _ _ eq_refl
             (fun k H => M23 k (M12 k (D1 k H))) C3D t (x1, x2, x3, x4) x5 H).
  - exact (@merge_outer_left_column _ _ wide_null4 None E
             (fun a => snd (fst (fst a))) _ _ eq_refl
             (fun k H => M23 k (M12 k (E1 k H))) C3E t (x1, x2, x3, x4) x5 H).
  - exact (@merge_outer_left_column _ _ wide_null4 None P
             (fun a => snd (fst a)) _ _ eq_refl
             (fun k H => M23 k (P2 k H)) C3P t (x1, x2, x3, x4) x5 H).
  - exact (@merge_outer_left_column _ _ wide_null4 None S
             (fun a => snd a) _ _ eq_refl S3 C3S t (x1, x2, x3, x4) x5 H).
  - exact (merge_outer_right_column _ _ _ _ _ _ _ H).
Qed.

Lemma merge_chain_keys (d : Datasets) (t : Timestamp) :
  In t (map fst (merge_chain d)) <-> exists c, In t (map fst (clean (file_of c d))).
Proof.
  unfold merge_chain. rewrite !merge_outer_key_iff. split.
  - intros [[[[H|H]|H]|H]|H];
      [exists Dino | exists Everest | exists Passage | exists Safari | exists Navi]; exact H.
  - intros [[] H]; simpl in H; tauto.
Qed.

Lemma merge_chain_NoDup (d : Datasets) :
  (forall c, NoDup (map fst (clean (file_of c d)))) ->
  NoDup (map fst (merge_chain d)).
Proof.
  intro H. unfold merge_chain.
  pose proof (H Dino) as HD. pose proof (H Everest) as HE. pose proof (H Passage) as HP.
  pose proof (H Safari) as HS. pose proof (H Navi) as HV. simpl in *.
  repeat apply merge_outer_NoDup; assumption.
Qed.

Lemma merged_datetime (d : Datasets) : map datetime (merged d) = map fst (merge_chain d).
Proof.
  unfold merged. rewrite map_map. apply map_ext.
  intros [t [[[[x1 x2] x3] x4] x5]]. reflexivity.
Qed.

Lemma merged_cells (d : Datasets) (r : Row) (c : Ride) :
  In r (merged d) -> from_side None (clean (file_of c d)) (datetime r) (get c r).
Proof.
  unfold merged. intro H. apply in_map_iff in H as ([t [[[[x1 x2] x3] x4] x5]] & <- & H).
  apply merge_chain_cells in H as (H1 & H2 & H3 & H4 & H5).
  destruct c; assumption.
Qed.

(** a cell of the merged table is missing exactly when the ride has no
    record at the row's timestamp *)
Lemma merged_null_iff (d : Datasets) (r : Row) (c : Ride) :
  In r (merged d) ->
  (get c r = None <-> ~ In (datetime r) (map fst (clean (file_of c d)))).
Proof.
  intro H. destruct (merged_cells d r c H) as [Hin|[Hnot Hnull]].
  - split.
    + intro E. rewrite E in Hin. apply clean_present in Hin as [z Hz]. discriminate.
    + intro Hn. exfalso. apply Hn. now apply (in_map fst) in Hin.
  - tauto.
Qed.

Lemma merged_calendar (d : Datasets) (r : Row) :
  In r (merged d) ->
  Year r = ts_year (datetime r) /\ Month r = ts_month (datetime r) /\
  Day r = ts_day (datetime r) /\ Hour r = ts_hour (datetime r).
Proof.
  unfold merged. intro H. apply in_map_iff in H as ([t [[[[x1 x2] x3] x4] x5]] & <- & _).
  repeat split.
Qed.

(* ================================================================== *)
(** * The pipeline *)

Lemma sorted_df_In (d : Datasets) (r : Row) : In r (sorted_df d) <-> In r (merged d).
Proof.
  unfold sorted_df. split; apply Permutation_in;
    [apply Permutation_sym|]; apply sort_values_perm.
Qed.

(** rows of one timestamp agree on which cells are missing *)
Lemma sorted_df_null_agree (d : Datasets) (c : Ride) (r r' : Row) :
  In r (sorted_df d) -> In r' (sorted_df d) -> datetime r = datetime r' ->
  get c r = None -> get c r' = None.
Proof.
  rewrite !sorted_df_In. intros H H' E.
  rewrite (merged_null_iff d r c H), (merged_null_iff d r' c H'). now rewrite E.
Qed.

Lemma backfill_nth (df : DataFrame) (i : nat) (r : Row) :
  nth_error df i = Some r ->
  nth_error (backfill df) i = Some (filled_row r (skipn (S i) df)).
Proof. intro H. now rewrite backfill_rows_eq, backfill_rows_nth, H. Qed.

Lemma backfill_length (df : DataFrame) : List.length (backfill df) = List.length df.
Proof.
  rewrite backfill_rows_eq. induction df as [|r df IH]; simpl; [reflexivity | now rewrite IH].
Qed.

Lemma backfill_datetime (df : DataFrame) : map datetime (backfill df) = map datetime df.
Proof.
  rewrite backfill_rows_eq. induction df as [|r df IH]; simpl; [reflexivity | now rewrite IH].
Qed.

Lemma replace_datetime (old : Z) (df : DataFrame) : map datetime (replace old df) = map datetime df.
Proof. unfold replace. rewrite map_map. reflexivity. Qed.

Lemma get_replace_row (old : Z) (c : Ride) (r : Row) :
  get c (replace_row old r) = replace_cell old (get c r).
Proof. destruct c; reflexivity. Qed.

Lemma replace_cell_neq (old : Z) (v : option Z) : replace_cell old v <> Some old.
Proof.
  destruct v as [x|]; simpl; [|discriminate].
  destruct (Z.eqb_spec x old); congruence.
Qed.

Lemma NoDup_by_unique (l : list Timestamp) : unique ts_eqb l = l -> NoDup l.
Proof. intros <-. apply (unique_NoDup ts_eqb ts_eqb_eq). Qed.

Lemma NoDup_key_unique (C : Type) (l : list (Timestamp * C)) (k : Timestamp) (a b : C) :
  NoDup (map fst l) -> In (k, a) l -> In (k, b) l -> a = b.
Proof.
  intros Hnd Ha Hb. pose proof (key_filter_NoDup k a l Hnd Ha) as Ea.
  pose proof (key_filter_NoDup k b l Hnd Hb) as Eb. congruence.
Qed.

(* ================================================================== *)
(** * The claims about the unifier *)

(** C1.  The table is in ascending timestamp order when the gap repair
    runs.  A missing cell of a ride's column then takes the value of the
    nearest later row of the same (year, month, day) that has one in that
    column (a row with a strictly later timestamp), and it stays missing
    exactly when no later row of that day has one. *)
Theorem C1_backfill_nearest_later (d : Datasets) (c : Ride) (i : nat) (r : Row) :
  nth_error (sorted_df d) i = Some r ->
  get c r = None ->
  StronglySorted ts_le (sorted_df d) /\
  exists r', nth_error (backfill (sorted_df d)) i = Some r' /\
    ((exists j rj v,
         i < j /\ nth_error (sorted_df d) j = Some rj /\
         day_key rj = day_key r /\ get c rj = Some v /\
         ts_lt (datetime r) (datetime rj) /\
         (forall j' rj', i < j' < j -> nth_error (sorted_df d) j' = Some rj' ->
                         day_key rj' = day_key r -> get c rj' = None) /\
         get c r' = Some v)
     \/
     ((forall j rj, i < j -> nth_error (sorted_df d) j = Some rj ->
                    day_key rj = day_key r -> get c rj = None) /\
      get c r' = None)).
Proof.
  intros Hi Hnull.
  pose proof (sort_values_sorted (merged d)) as Hsorted. fold (sorted_df d) in Hsorted.
  split; [exact Hsorted|].
  exists (filled_row r (skipn (S i) (sorted_df d))).
  split; [now apply backfill_nth|].
  rewrite get_filled_row. unfold filled. rewrite Hnull.
  destruct (next_valid c (day_key r) (skipn (S i) (sorted_df d))) as [v|] eqn:E.
  - left. apply next_valid_some in E as (j & rj & Hj & Hk & Hv & Hmin).
    rewrite nth_error_skipn in Hj.
    exists (S i + j), rj, v. repeat split; auto.
    + lia.
    + apply (sorted_nth Hsorted (i := i) (j := S i + j)); auto. lia.
    + intro Heq. apply nth_error_In in Hi, Hj.
      pose proof (sorted_df_null_agree d c r rj Hi Hj) as Hagree.
      rewrite Hagree in Hv; [discriminate | | exact Hnull].
      destruct (datetime r), (datetime rj). congruence.
    + intros j' rj' Hrange Hj' Hk'.
      apply (Hmin (j' - S i) rj'); auto; [lia|].
      rewrite nth_error_skipn. now replace (S i + (j' - S i)) with j' by lia.
  - right. split; [|reflexivity].
    intros j rj Hlt Hj Hk.
    eapply next_valid_none with (j := j - S i); [exact E | | exact Hk].
    rewrite nth_error_skipn. now replace (S i + (j - S i)) with j by lia.
Qed.

Lemma C1_backfill_nearest_later_witness :
  nth_error (sorted_df scenario) 0 = Some scenario_row_10 /\
  get Everest scenario_row_10 = None /\
  (StronglySorted ts_le (sorted_df scenario) /\
   exists r', nth_error (backfill (sorted_df scenario)) 0 = Some r' /\
     ((exists j rj v,
          0 < j /\ nth_error (sorted_df scenario) j = Some rj /\
          day_key rj = day_key scenario_row_10 /\ get Everest rj = Some v /\
          ts_lt (datetime scenario_row_10) (datetime rj) /\
          (forall j' rj', 0 < j' < j -> nth_error (sorted_df scenario) j' = Some rj' ->
                          day_key rj' = day_key scenario_row_10 -> get Everest rj' = None) /\
          get Everest r' = Some v)
      \/
      ((forall j rj, 0 < j -> nth_error (sorted_df scenario) j = Some rj ->
                     day_key rj = day_key scenario_row_10 -> get Everest rj = None) /\
       get Everest r' = None))).
Proof.
  split; [reflexivity|]. split; [reflexivity|].
  apply (C1_backfill_nearest_later scenario Everest 0 (r := scenario_row_10)); reflexivity.
Defined.

(** C10.  The gap repair keeps the rows and their order, keeps every
    column other than the wait times, and keeps every wait-time cell that
    held a value before it, the sentinel included. *)
Theorem C10_backfill_keeps_present (df : DataFrame) (i : nat) (r : Row) :
  nth_error df i = Some r ->
  List.length (backfill df) = List.length df /\
  exists r', nth_error (backfill df) i = Some r' /\
             same_frame r r' /\
             forall c v, get c r = Some v -> get c r' = Some v.
Proof.
  intro Hi. split; [apply backfill_length|].
  exists (filled_row r (skipn (S i) df)). split; [now apply backfill_nth|].
  split; [repeat split|].
  intros c v Hv. rewrite get_filled_row. unfold filled. now rewrite Hv.
Qed.

Lemma C10_backfill_keeps_present_witness :
  nth_error (sorted_df closed_morning) 1 = Some closed_row_9 /\
  (List.length (backfill (sorted_df closed_morning)) = List.length (sorted_df closed_morning) /\
   exists r', nth_error (backfill (sorted_df closed_morning)) 1 = Some r' /\
              same_frame closed_row_9 r' /\
              forall c v, get c closed_row_9 = Some v -> get c r' = Some v).
Proof.
  split; [reflexivity|].
  apply (C10_backfill_keeps_present (sorted_df closed_morning) 1 (r := closed_row_9)).
  reflexivity.
Defined.

(** C7.  After the gap repair, the replacement turns every wait-time cell
    that holds -999 into a missing one and leaves every other cell and
    column as it was; no cell of the final table holds -999. *)
Theorem C7_sentinel_erased (d : Datasets) (i : nat) (r : Row) :
  nth_error (backfill (sorted_df d)) i = Some r ->
  List.length (data_df d) = List.length (backfill (sorted_df d)) /\
  (exists r', nth_error (data_df d) i = Some r' /\
              same_frame r r' /\
              forall c, (get c r = Some (-999)%Z -> get c r' = None) /\
                        (get c r <> Some (-999)%Z -> get c r' = get c r)) /\
  (forall r'' c, In r'' (data_df d) -> get c r'' <> Some (-999)%Z).
Proof.
  intro Hi. unfold data_df, replace. split; [apply length_map|]. split.
  - exists (replace_row (-999) r). split; [now rewrite nth_error_map, Hi|].
    split; [repeat split|].
    intro c. rewrite get_replace_row. split.
    + intros ->. reflexivity.
    + intro Hne. destruct (get c r) as [x|]; simpl; [|reflexivity].
      destruct (Z.eqb_spec x (-999)); congruence.
  - intros r'' c Hin. apply in_map_iff in Hin as (r0 & <- & _).
    rewrite get_replace_row. apply replace_cell_neq.
Qed.

Lemma C7_sentinel_erased_witness :
  nth_error (backfill (sorted_df closed_morning)) 0 = Some closed_row_8_filled /\
  (List.length (data_df closed_morning) = List.length (backfill (sorted_df closed_morning)) /\
   (exists r', nth_error (data_df closed_morning) 0 = Some r' /\
               same_frame closed_row_8_filled r' /\
               forall c, (get c closed_row_8_filled = Some (-999)%Z -> get c r' = None) /\
                         (get c closed_row_8_filled <> Some (-999)%Z ->
                          get c r' = get c closed_row_8_filled)) /\
   (forall r'' c, In r'' (data_df closed_morning) -> get c r'' <> Some (-999)%Z)).
Proof.
  split; [reflexivity|].
  apply (C7_sentinel_erased closed_morning 0 (r := closed_row_8_filled)).
  reflexivity.
Defined.

(** C2.  When no ride's cleaned records repeat a timestamp, the table the
    chain of outer joins produces has exactly one row for each timestamp
    of any ride's cleaned records and no other row; in a row, the cell of
    a ride is that ride's posted value at the row's timestamp, and is
    missing when the ride has no record there.  The later passes keep the
    rows: the final table has the same timestamps. *)
Theorem C2_join_completeness (d : Datasets) :
  (forall c, NoDup (map fst (clean (file_of c d)))) ->
  NoDup (map datetime (merged d)) /\
  (forall t, In t (map datetime (merged d)) <->
             exists c, In t (map fst (clean (file_of c d)))) /\
  (forall r c, In r (merged d) ->
     (~ In (datetime r) (map fst (clean (file_of c d))) -> get c r = None) /\
     (forall z, get c r = Some z <-> In (datetime r, Some z) (clean (file_of c d)))) /\
  Permutation (map datetime (data_df d)) (map datetime (merged d)).
Proof.
  intro Hnd. repeat split.
  - rewrite merged_datetime. now apply merge_chain_NoDup.
  - rewrite merged_datetime. apply merge_chain_keys.
  - rewrite merged_datetime. apply merge_chain_keys.
  - now apply merged_null_iff.
  - intro Hz. destruct (merged_cells d r c H) as [Hin|[_ Hnull]]; congruence.
  - intro Hin. destruct (merged_cells d r c H) as [Hin'|[Hnot _]].
    + now rewrite (@NoDup_key_unique _ _ _ _ _ (Hnd c) Hin' Hin).
    + exfalso. apply Hnot. now apply (in_map fst) in Hin.
  - unfold data_df. rewrite replace_datetime, backfill_datetime.
    apply Permutation_map, Permutation_sym, sort_values_perm.
Qed.

Lemma C2_join_completeness_witness :
  (forall c, NoDup (map fst (clean (file_of c scenario)))) /\
  (NoDup (map datetime (merged scenario)) /\
   (forall t, In t (map datetime (merged scenario)) <->
              exists c, In t (map fst (clean (file_of c scenario)))) /\
   (forall r c, In r (merged scenario) ->
      (~ In (datetime r) (map fst (clean (file_of c scenario))) -> get c r = None) /\
      (forall z, get c r = Some z <-> In (datetime r, Some z) (clean (file_of c scenario)))) /\
   Permutation (map datetime (data_df scenario)) (map datetime (merged scenario))).
Proof.
  assert (forall c, NoDup (map fst (clean (file_of c scenario)))) as H
    by (intros []; apply NoDup_by_unique; reflexivity).
  split; [exact H|].
  apply (C2_join_completeness scenario H).
Defined.

(* ================================================================== *)
(** * The callback *)

Lemma index_from_notin (s : string) (l : list string) (i : nat) :
  ~ In s l -> index_from s l i = None.
Proof.
  revert i; induction l as [|a l IH]; intros i H; [reflexivity|].
  simpl. destruct (String.eqb_spec a s) as [->|Hne].
  - exfalso. apply H. now left.
  - apply IH. intro Hin. apply H. now right.
Qed.

Section Outcomes.

Variable set_iter : list N -> list N.
Variable apply_raises_on_empty : bool.

Lemma apply_list_outcome (key : Row -> N) (data st : DataFrame) :
  apply_list apply_raises_on_empty key data st
  = (if apply_raises apply_raises_on_empty data then Raise ValueError else Ok (map key data), st).
Proof. unfold apply_list. destruct data; [destruct apply_raises_on_empty|]; reflexivity. Qed.

(** a known ride *)
Lemma update_charts_single (c : Ride) (date : CalendarDate) (df : DataFrame) :
  outcome (update_charts set_iter apply_raises_on_empty (col_name c) date) df
  = if apply_raises apply_raises_on_empty (loc_day_month df date)
    then Raise ValueError
    else Ok (single_figures set_iter c (loc_day_month df date)).
Proof.
  unfold outcome, update_charts.
  replace (String.eqb (col_name c) "All") with false by now destruct c.
  unfold single_ride, bind, read_data_df.
  replace (groupby_select (col_name c) df) with (@Ok Column (ColWait c), df) by now destruct c.
  rewrite !apply_list_outcome.
  destruct (apply_raises apply_raises_on_empty (loc_day_month df date)) eqn:E; [reflexivity|].
  destruct c; cbn -[apply_list groupby_mean loc_day_month];
    rewrite apply_list_outcome, E; reflexivity.
Qed.

(** all rides *)
Lemma update_charts_all (date : CalendarDate) (df : DataFrame) :
  outcome (update_charts set_iter apply_raises_on_empty "All" date) df
  = if apply_raises apply_raises_on_empty (loc_day_month df date)
    then Raise ValueError
    else Ok (all_figures set_iter (loc_day_month df date)).
Proof.
  unfold outcome, update_charts.
  destruct (apply_raises apply_raises_on_empty (loc_day_month df date)) eqn:E;
    cbn -[apply_list groupby_mean loc_day_month];
    unfold all_rides_body, bind, read_data_df, getitem, groupby_select, ret;
    do 10 (cbn -[apply_list groupby_mean loc_day_month]; rewrite ?apply_list_outcome, ?E);
    reflexivity.
Qed.

(** an unknown ride selector *)
Lemma update_charts_unknown (ride : string) (date : CalendarDate) (df : DataFrame) :
  ride <> "All"%string -> ~ In ride col ->
  outcome (update_charts set_iter apply_raises_on_empty ride date) df = Raise KeyError \/
  outcome (update_charts set_iter apply_raises_on_empty ride date) df = Raise ValueError.
Proof.
  intros Hall Hcol. unfold outcome, update_charts.
  destruct (String.eqb_spec ride "All") as [E|_]; [contradiction|].
  unfold single_ride, bind, read_data_df, groupby_select.
  destruct (assoc ride columns) as [k|]; [|now left].
  right. unfold ret. rewrite apply_list_outcome.
  destruct (apply_raises apply_raises_on_empty (loc_day_month df date)); [reflexivity|].
  unfold index. now rewrite index_from_notin.
Qed.

End Outcomes.

(* ================================================================== *)
(** * Sorted distinct keys *)

Lemma N_leb_total (a b : N) : N.leb a b = false -> N.leb b a = true.
Proof. rewrite N.leb_gt, N.leb_le. lia. Qed.

Lemma N_leb_trans (a b c : N) : N.leb a b = true -> N.leb b c = true -> N.leb a c = true.
Proof. rewrite !N.leb_le. lia. Qed.

Lemma sort_N_sorted (l : list N) : StronglySorted (fun u v => N.leb u v = true) (sort_by N.leb l).
Proof. apply sort_by_sorted; [exact N_leb_total | exact N_leb_trans]. Qed.

Lemma sorted_same_elements (l1 l2 : list N) :
  StronglySorted (fun u v => N.leb u v = true) l1 ->
  StronglySorted (fun u v => N.leb u v = true) l2 ->
  NoDup l1 -> NoDup l2 -> (forall a, In a l1 <-> In a l2) -> l1 = l2.
Proof.
  intros H1; revert l2; induction H1 as [|x l1 Hs1 IH Hx]; intros l2 H2 N1 N2 Hin.
  - destruct l2 as [|y l2]; [reflexivity|]. exfalso. apply (Hin y). now left.
  - destruct H2 as [|y l2 Hs2 Hy].
    + exfalso. apply (Hin x). now left.
    + rewrite Forall_forall in Hx, Hy.
      inversion N1 as [|? ? Nx N1']; inversion N2 as [|? ? Ny N2']; subst.
      assert (x = y) as ->.
      { assert (In x (y :: l2)) as Hx' by (apply Hin; now left).
        assert (In y (x :: l1)) as Hy' by (apply Hin; now left).
        destruct Hx' as [->|Hx']; [reflexivity|].
        destruct Hy' as [->|Hy']; [reflexivity|].
        apply Hx in Hy'. apply Hy in Hx'. apply N.leb_le in Hx', Hy'. lia. }
      f_equal. apply IH; auto.
      intro a. specialize (Hin a). simpl in Hin. split; intro Ha.
      * destruct (proj1 Hin (or_intror Ha)) as [->|]; [contradiction | assumption].
      * destruct (proj2 Hin (or_intror Ha)) as [->|]; [contradiction | assumption].
Qed.

Lemma sorted_distinct_lt (l : list N) :
  StronglySorted (fun u v => N.leb u v = true) l -> NoDup l -> StronglySorted N.lt l.
Proof.
  induction 1 as [|x l Hs IH Hx]; intro Hnd; constructor.
  - apply IH. now inversion Hnd.
  - inversion Hnd as [|? ? Hnotin _]; subst. rewrite Forall_forall in *.
    intros a Ha. specialize (Hx a Ha). apply N.leb_le in Hx.
    assert (a <> x) by (intros ->; contradiction). lia.
Qed.

Lemma group_keys_NoDup (key : Row -> N) (data : DataFrame) : NoDup (group_keys key data).
Proof.
  unfold group_keys. eapply Permutation_NoDup; [apply sort_by_perm|].
  apply (unique_NoDup N.eqb N.eqb_eq).
Qed.

Lemma group_keys_In (key : Row -> N) (data : DataFrame) (k : N) :
  In k (group_keys key data) <-> exists r, In r data /\ key r = k.
Proof.
  unfold group_keys. split.
  - intro H. apply (Permutation_in _ (Permutation_sym (sort_by_perm N.leb _))) in H.
    apply (proj1 (unique_In N.eqb N.eqb_eq _ _)) in H.
    apply in_map_iff in H as (r & Hr & H). eauto.
  - intros (r & Hr & <-). apply (Permutation_in _ (sort_by_perm N.leb _)).
    apply (unique_In N.eqb N.eqb_eq). now apply in_map.
Qed.

Lemma group_keys_sorted (key : Row -> N) (data : DataFrame) :
  StronglySorted N.lt (group_keys key data).
Proof.
  apply sorted_distinct_lt; [apply sort_N_sorted | apply group_keys_NoDup].
Qed.

(** sorting the listed set gives the groups' keys *)
Lemma sorted_set_group_keys (set_iter : list N -> list N) (key : Row -> N) (data : DataFrame) :
  set_semantics set_iter ->
  sort_by N.leb (set_iter (map key data)) = group_keys key data.
Proof.
  intro Hset. destruct (Hset (map key data)) as [Hnd Hin].
  apply sorted_same_elements.
  - apply sort_N_sorted.
  - apply sort_N_sorted.
  - eapply Permutation_NoDup; [apply sort_by_perm | exact Hnd].
  - apply group_keys_NoDup.
  - intro a. rewrite group_keys_In. split.
    + intro H. apply (Permutation_in _ (Permutation_sym (sort_by_perm N.leb _))) in H.
      apply Hin in H. apply in_map_iff in H as (r & Hr & H). eauto.
    + intros (r & Hr & <-). apply (Permutation_in _ (sort_by_perm N.leb _)).
      apply Hin. now apply in_map.
Qed.

Lemma groupby_mean_keys (key : Row -> N) (c : Column) (data : DataFrame) :
  map fst (groupby_mean key c data) = group_keys key data.
Proof. unfold groupby_mean. rewrite map_map. simpl. apply map_id. Qed.

Lemma groupby_mean_combine (key : Row -> N) (c : Column) (data : DataFrame) :
  combine (group_keys key data) (map snd (groupby_mean key c data))
  = map (fun k => (k, mean (map (cell c) (group key k data)))) (group_keys key data).
Proof.
  unfold groupby_mean. rewrite map_map. simpl.
  induction (group_keys key data) as [|k ks IH]; simpl; [reflexivity | now rewrite IH].
Qed.

Lemma update_charts_ok_inv (set_iter : list N -> list N) (b : bool)
    (ride : string) (date : CalendarDate) (df : DataFrame) (figs : go.Figure * go.Figure) :
  outcome (update_charts set_iter b ride date) df = Ok figs ->
  (ride = "All"%string /\ figs = all_figures set_iter (loc_day_month df date)) \/
  (exists c, ride = col_name c /\ figs = single_figures set_iter c (loc_day_month df date)).
Proof.
  intro H. destruct (string_dec ride "All") as [->|Hall].
  - left. split; [reflexivity|]. rewrite update_charts_all in H.
    destruct (apply_raises b (loc_day_month df date)); congruence.
  - right. destruct (in_dec string_dec ride col) as [Hin|Hnot].
    + assert (exists c, ride = col_name c) as [c ->].
      { simpl in Hin.
        destruct Hin as [<-|[<-|[<-|[<-|[<-|[]]]]]];
          [exists Dino | exists Everest | exists Passage | exists Safari | exists Navi];
          reflexivity. }
      exists c. split; [reflexivity|]. rewrite update_charts_single in H.
      destruct (apply_raises b (loc_day_month df date)); congruence.
    + destruct (update_charts_unknown set_iter b date df Hall Hnot) as [E|E];
        rewrite E in H; discriminate.
Qed.

Lemma loc_day_month_year (df : DataFrame) (y y' m d : N) :
  loc_day_month df (mkDate y m d) = loc_day_month df (mkDate y' m d).
Proof. reflexivity. Qed.

Lemma unique_set_semantics : set_semantics (unique N.eqb).
Proof.
  intro l. split; [apply (unique_NoDup N.eqb N.eqb_eq) | intro a; apply (unique_In N.eqb N.eqb_eq)].
Qed.

(** the yearly trace, once the listed set is sorted *)
Lemma yearly_trace_series (set_iter : list N -> list N) (c : Ride) (label : option string)
    (data : DataFrame) :
  set_semantics set_iter ->
  let t := yearly_trace set_iter c label data in
  StronglySorted N.lt (go.x t) /\
  (forall yr, In yr (go.x t) <-> exists r, In r data /\ Year r = yr) /\
  combine (go.x t) (go.y t)
  = map (fun yr => (yr, mean (map (get c) (group Year yr data)))) (go.x t).
Proof.
  intro Hset. simpl. rewrite (sorted_set_group_keys Year data Hset).
  split; [apply group_keys_sorted|]. split; [apply group_keys_In|].
  apply (groupby_mean_combine Year (ColWait c) data).
Qed.

Lemma apply_raises_nonempty (b : bool) (data : DataFrame) :
  data <> [] -> apply_raises b data = false.
Proof. destruct data; [contradiction | reflexivity]. Qed.

Lemma set_iter_perm_keys (set_iter : list N -> list N) (key : Row -> N) (data : DataFrame) :
  set_semantics set_iter -> Permutation (set_iter (map key data)) (group_keys key data).
Proof.
  intro Hset. destruct (Hset (map key data)) as [Hnd Hin].
  apply NoDup_Permutation; [exact Hnd | apply group_keys_NoDup|].
  intro a. rewrite Hin, group_keys_In, in_map_iff. split; intros (r & H1 & H2); eauto.
Qed.

Lemma groupby_mean_length (key : Row -> N) (c : Column) (data : DataFrame) :
  List.length (map snd (groupby_mean key c data)) = List.length (group_keys key data).
Proof. unfold groupby_mean. now rewrite !length_map. Qed.

Lemma assoc_None (A : Type) (s : string) (l : list (string * A)) :
  assoc s l = None <-> ~ In s (map fst l).
Proof.
  induction l as [|[k v] l IH]; simpl; [tauto|].
  destruct (String.eqb_spec k s) as [->|Hne].
  - split; [discriminate | intro H; exfalso; apply H; now left].
  - rewrite IH. split; intro H; [intros [E|E]; [congruence | contradiction] | tauto].
Qed.

(** an unknown ride selector, by the column it names *)
Lemma update_charts_unknown_by_column (set_iter : list N -> list N) (b : bool)
    (ride : string) (date : CalendarDate) (df : DataFrame) :
  ride <> "All"%string -> ~ In ride col ->
  outcome (update_charts set_iter b ride date) df
  = match assoc ride columns with
    | None => Raise KeyError
    | Some _ => Raise ValueError
    end.
Proof.
  intros Hall Hcol. unfold outcome, update_charts.
  destruct (String.eqb_spec ride "All") as [E|_]; [contradiction|].
  unfold single_ride, bind, read_data_df, groupby_select.
  destruct (assoc ride columns) as [k|]; [|reflexivity].
  unfold ret. rewrite apply_list_outcome.
  destruct (apply_raises b (loc_day_month df date)); [reflexivity|].
  unfold index. now rewrite index_from_notin.
Qed.

Lemma col_name_of (ride : string) : In ride col -> exists c, ride = col_name c.
Proof.
  simpl. intros [<-|[<-|[<-|[<-|[<-|[]]]]]];
    [exists Dino | exists Everest | exists Passage | exists Safari | exists Navi]; reflexivity.
Qed.

(** a known selector *)
Lemma update_charts_known (set_iter : list N -> list N) (b : bool) (ride : string)
    (date : CalendarDate) (df : DataFrame) :
  ride = "All"%string \/ In ride col ->
  exists figs,
    outcome (update_charts set_iter b ride date) df
    = if apply_raises b (loc_day_month df date) then Raise ValueError else Ok figs.
Proof.
  intros [->|Hin].
  - rewrite update_charts_all. eauto.
  - destruct (col_name_of Hin) as [c ->]. rewrite update_charts_single. eauto.
Qed.

(** the result of a request is a function of the filtered rows *)
Lemma update_charts_of_filtered (set_iter : list N -> list N) (b : bool) (ride : string)
    (d d' : CalendarDate) (df df' : DataFrame) :
  loc_day_month df' d' = loc_day_month df d ->
  outcome (update_charts set_iter b ride d') df' = outcome (update_charts set_iter b ride d) df.
Proof.
  intro E. destruct (string_dec ride "All") as [->|Hall].
  - now rewrite !update_charts_all, E.
  - destruct (in_dec string_dec ride col) as [Hin|Hnot].
    + destruct (col_name_of Hin) as [c ->]. now rewrite !update_charts_single, E.
    + now rewrite !(update_charts_unknown_by_column set_iter b _ _ Hall Hnot).
Qed.

(** the series of a ride over the filtered rows *)
Lemma hourly_trace_from (set_iter : list N -> list N) (c : Ride) (data : DataFrame) :
  go.x (hourly_trace set_iter c data) = set_iter (map Hour data) /\
  go.y (hourly_trace set_iter c data)
  = map (fun h => mean (map (get c) (group Hour h data))) (group_keys Hour data).
Proof. split; [reflexivity|]. simpl. unfold groupby_mean. now rewrite map_map. Qed.

Lemma yearly_trace_from (set_iter : list N -> list N) (c : Ride) (label : option string)
    (data : DataFrame) :
  go.x (yearly_trace set_iter c label data) = sort_by N.leb (set_iter (map Year data)) /\
  go.y (yearly_trace set_iter c label data)
  = map (fun yr => mean (map (get c) (group Year yr data))) (group_keys Year data).
Proof. split; [reflexivity|]. simpl. unfold groupby_mean. now rewrite map_map. Qed.

(** a series over rows that are there has an hour or a year, and as many
    means *)
Lemma trace_shapes (set_iter : list N -> list N) (c : Ride) (label : option string)
    (data : DataFrame) (t : go.Trace) :
  set_semantics set_iter -> data <> [] ->
  t = hourly_trace set_iter c data \/ t = yearly_trace set_iter c label data ->
  go.x t <> [] /\ List.length (go.y t) = List.length (go.x t).
Proof.
  intros Hset Hne Ht.
  assert (forall key : Row -> N, group_keys key data <> []) as Hkeys.
  { intros key E. destruct data as [|r data]; [contradiction|].
    assert (In (key r) (group_keys key (r :: data))) as Hin
      by (apply group_keys_In; exists r; split; [now left | reflexivity]).
    rewrite E in Hin. destruct Hin. }
  assert (forall (key : Row -> N) (l : list N),
            Permutation l (group_keys key data) ->
            l <> [] /\ List.length (group_keys key data) = List.length l) as Hperm.
  { intros key l P. split.
    - intros ->. apply Permutation_nil in P. now apply (Hkeys key).
    - symmetry. now apply Permutation_length. }
  destruct Ht as [->| ->]; simpl; rewrite groupby_mean_length; apply Hperm.
  - now apply set_iter_perm_keys.
  - rewrite (sorted_set_group_keys Year data Hset). apply Permutation_refl.
Qed.

(* ================================================================== *)
(** * The callback on a store of objects *)

(** addresses past the objects [h] of before the call *)
Lemma update_app (h g : list Objects.Object) (i : nat) (o : Objects.Object) :
  Objects.update (h ++ g) (List.length h + i) o = h ++ Objects.update g i o.
Proof. induction h as [|b h IH]; simpl; [reflexivity | now rewrite IH]. Qed.

Lemma nth_error_fresh (h g : list Objects.Object) (i : nat) :
  nth_error (h ++ g) (List.length h + i) = nth_error g i.
Proof. rewrite nth_error_app2 by lia. f_equal. lia. Qed.

Lemma bind_ok (A B : Type) (m : Objects.H A) (k : A -> Objects.H B) (s s' : Objects.Store)
    (a : A) :
  m s = Some (Ok a, s') -> Objects.bind m k s = k a s'.
Proof. intro E. unfold Objects.bind. now rewrite E. Qed.

Lemma bind_raise (A B : Type) (m : Objects.H A) (k : A -> Objects.H B) (s s' : Objects.Store)
    (e : Exception) :
  m s = Some (Raise e, s') -> Objects.bind m k s = Some (Raise e, s').
Proof. intro E. unfold Objects.bind. now rewrite E. Qed.

Arguments bind_ok {A B m} k {s s' a} _.
Arguments bind_raise {A B m} k {s s' e} _.

(** ** The operations on the objects built since the call began *)

Section Fresh.

Variable gl : nat.
Variable h : list Objects.Object.

Lemma new_since (g : list Objects.Object) (o : Objects.Object) :
  Objects.new o (Objects.since gl h g)
  = Some (Ok (List.length h + List.length g), Objects.since gl h (g ++ [o])).
Proof. unfold Objects.new, Objects.since. simpl. now rewrite length_app, app_assoc. Qed.

Lemma put_since (g : list Objects.Object) (i : nat) (o : Objects.Object) :
  i < List.length g ->
  Objects.put (List.length h + i) o (Objects.since gl h g)
  = Some (Ok tt, Objects.since gl h (Objects.update g i o)).
Proof.
  intro Hi. unfold Objects.put, Objects.since. simpl. rewrite length_app.
  destruct (Nat.ltb_spec (List.length h + i) (List.length h + List.length g)); [|lia].
  now rewrite update_app.
Qed.

Lemma figure_since (g : list Objects.Object) (i : nat) (f : go.Figure) :
  nth_error g i = Some (Objects.Figure f) ->
  Objects.figure (List.length h + i) (Objects.since gl h g) = Some (Ok f, Objects.since gl h g).
Proof. intro E. unfold Objects.figure, Objects.since. simpl. now rewrite nth_error_fresh, E. Qed.

Lemma pylist_since (g : list Objects.Object) (i : nat) (l : list N) :
  nth_error g i = Some (Objects.PyList l) ->
  Objects.pylist (List.length h + i) (Objects.since gl h g) = Some (Ok l, Objects.since gl h g).
Proof. intro E. unfold Objects.pylist, Objects.since. simpl. now rewrite nth_error_fresh, E. Qed.

Lemma read_data_df_since (g : list Objects.Object) (df : DataFrame) :
  nth_error h gl = Some (Objects.Frame df) ->
  Objects.read_data_df (Objects.since gl h g) = Some (Ok df, Objects.since gl h g).
Proof.
  intro E. unfold Objects.read_data_df, Objects.since. simpl.
  rewrite nth_error_app1 by (apply nth_error_Some; congruence). now rewrite E.
Qed.

Lemma nth_error_lt (g : list Objects.Object) (i : nat) (o : Objects.Object) :
  nth_error g i = Some o -> i < List.length g.
Proof. intro E. apply nth_error_Some. congruence. Qed.

Lemma update_layout_since (g : list Objects.Object) (i : nat) (f : go.Figure)
    (t xt yt : string) :
  nth_error g i = Some (Objects.Figure f) ->
  Objects.update_layout (List.length h + i) t xt yt (Objects.since gl h g)
  = Some (Ok tt,
          Objects.since gl h
            (Objects.update g i (Objects.Figure (go.mkFigure t xt yt (go.traces f))))).
Proof.
  intro E. unfold Objects.update_layout.
  rewrite (bind_ok _ (figure_since _ _ E)). apply put_since. eapply nth_error_lt; eauto.
Qed.

Lemma add_trace_since (g : list Objects.Object) (i : nat) (f : go.Figure) (t : go.Trace) :
  nth_error g i = Some (Objects.Figure f) ->
  Objects.add_trace (List.length h + i) t (Objects.since gl h g)
  = Some (Ok tt, Objects.since gl h (Objects.update g i (Objects.Figure (go.add_trace f t)))).
Proof.
  intro E. unfold Objects.add_trace.
  rewrite (bind_ok _ (figure_since _ _ E)). apply put_since. eapply nth_error_lt; eauto.
Qed.

Lemma sort_since (g : list Objects.Object) (i : nat) (l : list N) :
  nth_error g i = Some (Objects.PyList l) ->
  Objects.sort (List.length h + i) (Objects.since gl h g)
  = Some (Ok tt,
          Objects.since gl h (Objects.update g i (Objects.PyList (sort_by N.leb l)))).
Proof.
  intro E. unfold Objects.sort.
  rewrite (bind_ok _ (pylist_since _ _ E)). apply put_since. eapply nth_error_lt; eauto.
Qed.

End Fresh.

Lemma bind_ret (A B : Type) (a : A) (k : A -> Objects.H B) (s : Objects.Store) :
  Objects.bind (Objects.ret a) k s = k a s.
Proof. reflexivity. Qed.

Lemma nth_error_last (ls : list Objects.Object) (o : Objects.Object) :
  nth_error (ls ++ [o]) (List.length ls) = Some o.
Proof. rewrite nth_error_app2 by lia. now rewrite Nat.sub_diag. Qed.

Lemma update_last (ls : list Objects.Object) (o o' : Objects.Object) :
  Objects.update (ls ++ [o]) (List.length ls) o' = ls ++ [o'].
Proof. induction ls as [|b ls IH]; simpl; [reflexivity | now rewrite IH]. Qed.

(** ** The runs of the two branches

    from a store [h] that holds the table [df] *)

Section Runs.

Variable set_iter : list N -> list N.
Variable b : bool.
Variable gl : nat.
Variable h : list Objects.Object.
Variable df : DataFrame.
Hypothesis Hdf : nth_error h gl = Some (Objects.Frame df).

Lemma apply_list_run (key : Row -> N) (data : DataFrame) (s : Objects.Store) :
  Objects.apply_list b key data s
  = Some (if apply_raises b data then Raise ValueError else Ok (map key data), s).
Proof. unfold Objects.apply_list. destruct data; [destruct b|]; reflexivity. Qed.

Lemma all_rides_body_run (date : CalendarDate) (c : Ride) (L B : go.Figure)
    (ls : list Objects.Object) :
  apply_raises b (loc_day_month df date) = false ->
  Objects.all_rides_body set_iter b date (List.length h + 0) (List.length h + 1) (ride_index c)
    (Objects.since gl h (Objects.Figure L :: Objects.Figure B :: ls))
  = Some (Ok tt,
          Objects.since gl h
            (Objects.Figure (go.add_trace L (hourly_trace set_iter c (loc_day_month df date)))
             :: Objects.Figure (go.add_trace B (yearly_trace set_iter c (Some (display_name c))
                                                  (loc_day_month df date)))
             :: ls ++ [Objects.PyList
                         (sort_by N.leb (set_iter (map Year (loc_day_month df date))))])).
Proof.
  intro E. unfold Objects.all_rides_body.
  erewrite bind_ok by (eapply read_data_df_since; exact Hdf). cbv beta zeta.
  destruct c; cbn [ride_index Objects.getitem col name nth_error].
  all: rewrite bind_ret.
  all: cbn [Objects.groupby_select assoc columns String.eqb Ascii.eqb Bool.eqb].
  all: rewrite bind_ret.
  all: erewrite bind_ok by (rewrite apply_list_run, E; reflexivity).
  all: rewrite bind_ret.
  all: erewrite bind_ok by (eapply add_trace_since; reflexivity).
  all: cbn [Objects.update].
  all: erewrite bind_ok by (rewrite apply_list_run, E; reflexivity).
  all: erewrite bind_ok by apply new_since.
  all: cbn [List.length app].
  all: erewrite bind_ok by (eapply sort_since; cbn [nth_error]; apply nth_error_last).
  all: cbn [Objects.update]; rewrite update_last.
  all: erewrite bind_ok by (eapply pylist_since; cbn [nth_error]; apply nth_error_last).
  all: erewrite add_trace_since by reflexivity.
  all: reflexivity.
Qed.

Lemma all_rides_body_raises (date : CalendarDate) (c : Ride) (g : list Objects.Object) :
  apply_raises b (loc_day_month df date) = true ->
  Objects.all_rides_body set_iter b date (List.length h + 0) (List.length h + 1) (ride_index c)
    (Objects.since gl h g)
  = Some (Raise ValueError, Objects.since gl h g).
Proof.
  intro E. unfold Objects.all_rides_body.
  erewrite bind_ok by (eapply read_data_df_since; exact Hdf). cbv beta zeta.
  destruct c; cbn [ride_index Objects.getitem col name nth_error].
  all: rewrite bind_ret.
  all: cbn [Objects.groupby_select assoc columns String.eqb Ascii.eqb Bool.eqb].
  all: rewrite bind_ret.
  all: erewrite bind_raise by (rewrite apply_list_run, E; reflexivity).
  all: reflexivity.
Qed.

Lemma all_rides_run (date : CalendarDate) :
  Objects.all_rides set_iter b date (Objects.since gl h [])
  = if apply_raises b (loc_day_month df date)
    then Some (Raise ValueError,
               Objects.since gl h [Objects.Figure line_layout; Objects.Figure bar_layout])
    else Some (Ok (List.length h + 0, List.length h + 1),
               Objects.since gl h
                 (Objects.Figure (fst (all_figures set_iter (loc_day_month df date)))
                  :: Objects.Figure (snd (all_figures set_iter (loc_day_month df date)))
                  :: repeat (Objects.PyList
                               (sort_by N.leb (set_iter (map Year (loc_day_month df date)))))
                            5)).
Proof.
  unfold Objects.all_rides, Objects.Figure_new.
  erewrite bind_ok by apply new_since. cbn [List.length app].
  erewrite bind_ok by (eapply update_layout_since; reflexivity). cbn [Objects.update go.traces].
  erewrite bind_ok by apply new_since. cbn [List.length app].
  erewrite bind_ok by (eapply update_layout_since; reflexivity). cbn [Objects.update go.traces].
  cbn [List.length col seq Objects.for_each].
  destruct (apply_raises b (loc_day_month df date)) eqn:E.
  - erewrite bind_raise; [reflexivity|].
    erewrite bind_raise; [reflexivity|].
    apply (all_rides_body_raises date Dino _ E).
  - erewrite bind_ok.
    2:{ erewrite bind_ok by apply (all_rides_body_run date Dino _ _ _ E).
        erewrite bind_ok by apply (all_rides_body_run date Everest _ _ _ E).
        erewrite bind_ok by apply (all_rides_body_run date Passage _ _ _ E).
        erewrite bind_ok by apply (all_rides_body_run date Safari _ _ _ E).
        erewrite bind_ok by apply (all_rides_body_run date Navi _ _ _ E).
        reflexivity. }
    reflexivity.
Qed.

Lemma single_ride_run (c : Ride) (date : CalendarDate) :
  Objects.single_ride set_iter b (col_name c) date (Objects.since gl h [])
  = if apply_raises b (loc_day_month df date)
    then Some (Raise ValueError, Objects.since gl h [Objects.Figure line_layout])
    else Some (Ok (List.length h + 0, List.length h + 2),
               Objects.since gl h
                 [Objects.Figure (fst (single_figures set_iter c (loc_day_month df date)));
                  Objects.PyList (sort_by N.leb (set_iter (map Year (loc_day_month df date))));
                  Objects.Figure (snd (single_figures set_iter c (loc_day_month df date)))]).
Proof.
  unfold Objects.single_ride, Objects.Figure_new.
  erewrite bind_ok by (eapply read_data_df_since; exact Hdf). cbv beta zeta.
  replace (Objects.groupby_select (col_name c)) with (Objects.ret (ColWait c))
    by now destruct c.
  rewrite bind_ret.
  erewrite bind_ok by apply new_since. cbn [List.length app].
  erewrite bind_ok by (eapply update_layout_since; reflexivity). cbn [Objects.update go.traces].
  destruct (apply_raises b (loc_day_month df date)) eqn:E.
  - erewrite bind_raise by (rewrite apply_list_run, E; reflexivity). reflexivity.
  - erewrite bind_ok by (rewrite apply_list_run, E; reflexivity).
    replace (Objects.index col (col_name c)) with (Objects.ret (ride_index c))
      by now destruct c.
    rewrite bind_ret.
    replace (Objects.getitem name (ride_index c)) with (Objects.ret (display_name c))
      by now destruct c.
    rewrite bind_ret.
    erewrite bind_ok by (eapply add_trace_since; reflexivity). cbn [Objects.update].
    erewrite bind_ok by (rewrite apply_list_run, E; reflexivity).
    erewrite bind_ok by apply new_since. cbn [List.length app].
    erewrite bind_ok by (eapply sort_since; reflexivity). cbn [Objects.update].
    erewrite bind_ok by apply new_since. cbn [List.length app].
    erewrite bind_ok by (eapply update_layout_since; reflexivity).
    cbn [Objects.update go.traces].
    erewrite bind_ok by (eapply pylist_since; reflexivity).
    erewrite bind_ok by (eapply add_trace_since; reflexivity). cbn [Objects.update].
    reflexivity.
Qed.

Lemma single_ride_unknown (ride : string) (date : CalendarDate) :
  ~ In ride col ->
  Objects.single_ride set_iter b ride date (Objects.since gl h [])
  = match assoc ride columns with
    | None => Some (Raise KeyError, Objects.since gl h [])
    | Some _ => Some (Raise ValueError, Objects.since gl h [Objects.Figure line_layout])
    end.
Proof.
  intro Hcol. unfold Objects.single_ride, Objects.Figure_new.
  erewrite bind_ok by (eapply read_data_df_since; exact Hdf). cbv beta zeta.
  unfold Objects.groupby_select. destruct (assoc ride columns) as [k|]; [|reflexivity].
  rewrite bind_ret.
  erewrite bind_ok by apply new_since. cbn [List.length app].
  erewrite bind_ok by (eapply update_layout_since; reflexivity). cbn [Objects.update go.traces].
  destruct (apply_raises b (loc_day_month df date)) eqn:E.
  - erewrite bind_raise by (rewrite apply_list_run, E; reflexivity). reflexivity.
  - erewrite bind_ok by (rewrite apply_list_run, E; reflexivity).
    unfold Objects.index. rewrite index_from_notin by exact Hcol. reflexivity.
Qed.

End Runs.

(** A call on a store that holds the table [df] runs to its end, adds
    objects after those of the store, and returns what [update_charts]
    gives on [df]. *)
Lemma update_charts_on_store (set_iter : list N -> list N) (b : bool) (ride : string)
    (date : CalendarDate) (s : Objects.Store) (df : DataFrame) :
  Objects.table s = Some df ->
  exists r g,
    Objects.update_charts set_iter b ride date s
    = Some (r, Objects.mkStore (Objects.global_data_df s) (Objects.heap s ++ g)) /\
    Objects.returned (Objects.mkStore (Objects.global_data_df s) (Objects.heap s ++ g)) r
    = Some (outcome (update_charts set_iter b ride date) df).
Proof.
  destruct s as [gl h]. unfold Objects.table. cbn [Objects.heap Objects.global_data_df].
  intro Ht.
  assert (nth_error h gl = Some (Objects.Frame df)) as Hdf.
  { destruct (nth_error h gl) as [[d|f|l]|]; try discriminate. congruence. }
  clear Ht.
  replace (Objects.mkStore gl h) with (Objects.since gl h [])
    by (unfold Objects.since; now rewrite app_nil_r).
  unfold Objects.update_charts.
  destruct (String.eqb_spec ride "All") as [->|Hall].
  - rewrite (@all_rides_run set_iter b gl h df Hdf date), update_charts_all.
    destruct (apply_raises b (loc_day_month df date)); eexists _, _; (split; [reflexivity|]).
    + reflexivity.
    + unfold Objects.returned. cbn [Objects.heap]. rewrite !nth_error_fresh. reflexivity.
  - destruct (in_dec string_dec ride col) as [Hin|Hnot].
    + destruct (col_name_of Hin) as [c ->].
      rewrite (@single_ride_run set_iter b gl h df Hdf c date), update_charts_single.
      destruct (apply_raises b (loc_day_month df date)); eexists _, _; (split; [reflexivity|]).
      * reflexivity.
      * unfold Objects.returned. cbn [Objects.heap]. rewrite !nth_error_fresh. reflexivity.
    + rewrite (@single_ride_unknown set_iter b gl h df Hdf ride date Hnot).
      rewrite (@update_charts_unknown_by_column set_iter b ride date df Hall Hnot).
      destruct (assoc ride columns); eexists _, _; (split; [reflexivity|]); reflexivity.
Qed.

(** objects added after those of a store leave them as they were *)
Lemma kept_app (s : Objects.Store) (g : list Objects.Object) :
  Objects.kept s (Objects.mkStore (Objects.global_data_df s) (Objects.heap s ++ g)).
Proof.
  split; [reflexivity|]. intros a o E. cbn [Objects.heap].
  rewrite nth_error_app1; [exact E|]. apply nth_error_Some. congruence.
Qed.

Lemma kept_table (s s' : Objects.Store) (df : DataFrame) :
  Objects.kept s s' -> Objects.table s = Some df -> Objects.table s' = Some df.
Proof.
  intros [Hg Hk]. unfold Objects.table. rewrite Hg.
  destruct (nth_error (Objects.heap s) (Objects.global_data_df s)) as [o|] eqn:E;
    [|discriminate].
  now rewrite (Hk _ _ E).
Qed.

Lemma kept_returned (s s' : Objects.Store) (r : Result (nat * nat))
    (figs : Result (go.Figure * go.Figure)) :
  Objects.kept s s' -> Objects.returned s r = Some figs -> Objects.returned s' r = Some figs.
Proof.
  intros [_ Hk]. unfold Objects.returned. destruct r as [[la ba]|e]; [|trivial].
  destruct (nth_error (Objects.heap s) la) as [ol|] eqn:El; [|discriminate].
  destruct (nth_error (Objects.heap s) ba) as [ob|] eqn:Eb;
    [|destruct ol; discriminate].
  now rewrite (Hk _ _ El), (Hk _ _ Eb).
Qed.

(** an update in place of an object of before the call does not keep the
    store *)
Lemma update_in_place_not_kept (t : go.Trace) :
  exists s', Objects.add_trace 0 t scenario_store = Some (Ok tt, s') /\
             ~ Objects.kept scenario_store s'.
Proof.
  eexists. split; [reflexivity|]. intros [_ Hk].
  specialize (Hk 0 _ eq_refl). cbn in Hk. injection Hk as Hk.
  apply (f_equal (@List.length go.Trace)) in Hk. discriminate.
Qed.

(* ================================================================== *)
(** * The claims about the aggregation *)

(** C6.  For each ride shown, the yearly series lists the years of the
    filtered rows in ascending order, each once, and pairs each year with
    the mean of the ride's present values in the rows of that year (a
    missing mean when the year has none); the mean of 10, a missing value
    and 20 is 15. *)
Theorem C6_yearly_series (set_iter : list N -> list N) (apply_raises_on_empty : bool)
    (df : DataFrame) (ride : string) (date : CalendarDate) (line bar : go.Figure) :
  set_semantics set_iter ->
  outcome (update_charts set_iter apply_raises_on_empty ride date) df = Ok (line, bar) ->
  (exists shown,
     ((ride = "All"%string /\ shown = rides) \/ (exists c, ride = col_name c /\ shown = [c])) /\
     Forall2 (fun c t =>
                StronglySorted N.lt (go.x t) /\
                (forall yr, In yr (go.x t) <->
                            exists r, In r (loc_day_month df date) /\ Year r = yr) /\
                combine (go.x t) (go.y t)
                = map (fun yr => (yr, mean (map (get c) (group Year yr (loc_day_month df date)))))
                      (go.x t))
             shown (go.traces bar)) /\
  mean [Some 10%Z; None; Some 20%Z] = Some (15 # 1)%Q.
Proof.
  intros Hset H. split; [|reflexivity].
  apply update_charts_ok_inv in H as [[-> E]|(c & -> & E)]; injection E as -> ->.
  - exists rides. split; [now left|]. simpl go.traces.
    unfold rides. repeat apply Forall2_cons; try apply Forall2_nil;
      apply (yearly_trace_series _ _ (loc_day_month df date) Hset).
  - exists [c]. split; [right; eauto|]. simpl go.traces.
    constructor; [|constructor].
    apply (yearly_trace_series c None (loc_day_month df date) Hset).
Qed.

Lemma C6_yearly_series_witness :
  set_semantics (unique N.eqb) /\
  outcome (update_charts (unique N.eqb) true "SPOSTMIN_dino"%string (mkDate 2022 7 4))
          (data_df two_years)
  = Ok (single_figures (unique N.eqb) Dino (loc_day_month (data_df two_years) (mkDate 2022 7 4))) /\
  ((exists shown,
      (("SPOSTMIN_dino"%string = "All"%string /\ shown = rides) \/
       (exists c, "SPOSTMIN_dino"%string = col_name c /\ shown = [c])) /\
      Forall2 (fun c t =>
                 StronglySorted N.lt (go.x t) /\
                 (forall yr, In yr (go.x t) <->
                    exists r, In r (loc_day_month (data_df two_years) (mkDate 2022 7 4)) /\
                              Year r = yr) /\
                 combine (go.x t) (go.y t)
                 = map (fun yr =>
                          (yr, mean (map (get c)
                                         (group Year yr
                                            (loc_day_month (data_df two_years) (mkDate 2022 7 4))))))
                       (go.x t))
              shown
              (go.traces (snd (single_figures (unique N.eqb) Dino
                                 (loc_day_month (data_df two_years) (mkDate 2022 7 4)))))) /\
   mean [Some 10%Z; None; Some 20%Z] = Some (15 # 1)%Q).
Proof.
  assert (outcome (update_charts (unique N.eqb) true "SPOSTMIN_dino"%string (mkDate 2022 7 4))
                  (data_df two_years)
          = Ok (single_figures (unique N.eqb) Dino
                  (loc_day_month (data_df two_years) (mkDate 2022 7 4)))) as H
    by (vm_compute; reflexivity).
  split; [exact unique_set_semantics|]. split; [exact H|].
  exact (@C6_yearly_series (unique N.eqb) true (data_df two_years) "SPOSTMIN_dino"%string
           (mkDate 2022 7 4) _ _ unique_set_semantics H).
Defined.

(** C5.  The rows the aggregation uses are exactly the rows of the table
    whose day of month and month are those of the selected date, and the
    series are computed from these rows alone: the result is the same on
    every table with the same such rows, an hourly series has the hours of
    these rows and the mean of the ride over the rows of each hour, a
    yearly series their years and the mean over the rows of each year.  The
    year of the date is not consulted, so two dates with the same day and
    month give the same rows and the same result. *)
Theorem C5_day_month_filter (set_iter : list N -> list N) (apply_raises_on_empty : bool)
    (df : DataFrame) (ride : string) (d1 d2 : CalendarDate) :
  day d1 = day d2 -> month d1 = month d2 ->
  (forall r, In r (loc_day_month df d1) <-> In r df /\ Day r = day d1 /\ Month r = month d1) /\
  loc_day_month df d1 = loc_day_month df d2 /\
  update_charts set_iter apply_raises_on_empty ride d1 df
  = update_charts set_iter apply_raises_on_empty ride d2 df /\
  (forall df', loc_day_month df' d1 = loc_day_month df d1 ->
     outcome (update_charts set_iter apply_raises_on_empty ride d1) df'
     = outcome (update_charts set_iter apply_raises_on_empty ride d1) df) /\
  (forall line bar,
     outcome (update_charts set_iter apply_raises_on_empty ride d1) df = Ok (line, bar) ->
     exists shown,
       ((ride = "All"%string /\ shown = rides) \/ (exists c, ride = col_name c /\ shown = [c])) /\
       Forall2 (fun c t =>
                  go.x t = set_iter (map Hour (loc_day_month df d1)) /\
                  go.y t = map (fun h => mean (map (get c) (group Hour h (loc_day_month df d1))))
                               (group_keys Hour (loc_day_month df d1)))
               shown (go.traces line) /\
       Forall2 (fun c t =>
                  go.x t = sort_by N.leb (set_iter (map Year (loc_day_month df d1))) /\
                  go.y t = map (fun yr => mean (map (get c) (group Year yr (loc_day_month df d1))))
                               (group_keys Year (loc_day_month df d1)))
               shown (go.traces bar)).
Proof.
  intros Hd Hm. split; [|split; [|split; [|split]]].
  - intro r. unfold loc_day_month. rewrite filter_In, andb_true_iff, !N.eqb_eq. tauto.
  - unfold loc_day_month. now rewrite Hd, Hm.
  - destruct d1 as [y1 m1 a1], d2 as [y2 m2 a2]. simpl in Hd, Hm. subst. reflexivity.
  - intros df' E. now apply update_charts_of_filtered.
  - intros line bar H.
    apply update_charts_ok_inv in H as [[-> E]|(c & -> & E)]; injection E as -> ->.
    + exists rides. split; [now left|]. simpl go.traces. unfold rides.
      split; repeat apply Forall2_cons; try apply Forall2_nil;
        first [apply hourly_trace_from | apply yearly_trace_from].
    + exists [c]. split; [right; eauto|]. simpl go.traces.
      split; (constructor; [|constructor]);
        first [apply hourly_trace_from | apply yearly_trace_from].
Qed.

Lemma C5_day_month_filter_witness :
  day (mkDate 2021 7 4) = day (mkDate 2022 7 4) /\
  month (mkDate 2021 7 4) = month (mkDate 2022 7 4) /\
  loc_day_month (data_df two_years) (mkDate 2021 7 4)
  = loc_day_month (data_df two_years) (mkDate 2022 7 4) /\
  update_charts CPython.list_set true "All" (mkDate 2021 7 4) (data_df two_years)
  = update_charts CPython.list_set true "All" (mkDate 2022 7 4) (data_df two_years) /\
  (forall df', loc_day_month df' (mkDate 2021 7 4)
               = loc_day_month (data_df two_years) (mkDate 2021 7 4) ->
     outcome (update_charts CPython.list_set true "All" (mkDate 2021 7 4)) df'
     = outcome (update_charts CPython.list_set true "All" (mkDate 2021 7 4)) (data_df two_years)).
Proof.
  split; [reflexivity|]. split; [reflexivity|].
  pose proof (@C5_day_month_filter CPython.list_set true (data_df two_years) "All"%string
                (mkDate 2021 7 4) (mkDate 2022 7 4) eq_refl eq_refl) as (_ & H2 & H3 & H4 & _).
  split; [exact H2|]. split; [exact H3 | exact H4].
Defined.

(** C9.  A call of the aggregation on a store that holds the table runs to
    its end.  It leaves the table and every other object of the store as
    they were, and the global name bound as it was: what the call updates
    in place, it has built itself.  What it returns is what [update_charts]
    gives on the table, the selector and the date, whatever else the store
    holds: a call on another store with the same table returns the same
    series, and so does a second call on the store the first call left,
    which also leaves the series of the first call as they were. *)
Theorem C9_aggregation_pure (set_iter : list N -> list N) (apply_raises_on_empty : bool)
    (s : Objects.Store) (df : DataFrame) (ride : string) (date : CalendarDate) :
  Objects.table s = Some df ->
  exists r s',
    Objects.update_charts set_iter apply_raises_on_empty ride date s = Some (r, s') /\
    Objects.kept s s' /\ Objects.table s' = Some df /\
    Objects.returned s' r
    = Some (outcome (update_charts set_iter apply_raises_on_empty ride date) df) /\
    (forall s0, Objects.table s0 = Some df ->
       exists r0 s0',
         Objects.update_charts set_iter apply_raises_on_empty ride date s0 = Some (r0, s0') /\
         Objects.returned s0' r0 = Objects.returned s' r) /\
    (exists r2 s2,
       Objects.update_charts set_iter apply_raises_on_empty ride date s' = Some (r2, s2) /\
       Objects.returned s2 r2 = Objects.returned s' r /\
       Objects.returned s2 r = Objects.returned s' r).
Proof.
  intro Ht.
  destruct (update_charts_on_store set_iter apply_raises_on_empty ride date s Ht)
    as (r & g & Hrun & Hret).
  exists r, (Objects.mkStore (Objects.global_data_df s) (Objects.heap s ++ g)).
  assert (Objects.kept s (Objects.mkStore (Objects.global_data_df s) (Objects.heap s ++ g)))
    as Hkept by (apply kept_app).
  assert (Objects.table (Objects.mkStore (Objects.global_data_df s) (Objects.heap s ++ g))
          = Some df) as Ht' by (now apply (kept_table Hkept)).
  split; [exact Hrun|]. split; [exact Hkept|]. split; [exact Ht'|]. split; [exact Hret|].
  split.
  - intros s0 Ht0.
    destruct (update_charts_on_store set_iter apply_raises_on_empty ride date s0 Ht0)
      as (r0 & g0 & Hrun0 & Hret0).
    eexists _, _. split; [exact Hrun0|]. now rewrite Hret0, Hret.
  - destruct (update_charts_on_store set_iter apply_raises_on_empty ride date _ Ht')
      as (r2 & g2 & Hrun2 & Hret2).
    eexists _, _. split; [exact Hrun2|]. split; [now rewrite Hret2, Hret|].
    rewrite Hret. eapply kept_returned; [apply kept_app | exact Hret].
Qed.

Lemma C9_aggregation_pure_witness :
  Objects.table scenario_store = Some (data_df scenario) /\
  exists r s',
    Objects.update_charts CPython.list_set true "All" (mkDate 2021 6 1) scenario_store
    = Some (r, s') /\
    Objects.kept scenario_store s' /\ Objects.table s' = Some (data_df scenario) /\
    Objects.returned s' r
    = Some (outcome (update_charts CPython.list_set true "All" (mkDate 2021 6 1))
                    (data_df scenario)) /\
    (forall s0, Objects.table s0 = Some (data_df scenario) ->
       exists r0 s0',
         Objects.update_charts CPython.list_set true "All" (mkDate 2021 6 1) s0
         = Some (r0, s0') /\
         Objects.returned s0' r0 = Objects.returned s' r) /\
    (exists r2 s2,
       Objects.update_charts CPython.list_set true "All" (mkDate 2021 6 1) s' = Some (r2, s2) /\
       Objects.returned s2 r2 = Objects.returned s' r /\
       Objects.returned s2 r = Objects.returned s' r).
Proof.
  split; [reflexivity|].
  exact (@C9_aggregation_pure CPython.list_set true scenario_store (data_df scenario)
           "All"%string (mkDate 2021 6 1) eq_refl).
Defined.

(** C3, as the specification states it, fails whatever the order of the
    interpreter's sets and the library's answer on an empty frame: an
    unknown ride selector raises. *)
Lemma C3_counterexample :
  ~ (exists set_iter b, forall df ride date,
       (ride <> "All"%string /\ ~ In ride col) \/ in_window date = false ->
       returns_empty_series set_iter b df ride date).
Proof.
  intros (set_iter & b & H).
  destruct (H (data_df scenario) "Matterhorn"%string (mkDate 2021 6 1))
    as (line & bar & E & _).
  - left. split; [discriminate|]. simpl. intuition discriminate.
  - destruct (@update_charts_unknown set_iter b "Matterhorn"%string (mkDate 2021 6 1)
                (data_df scenario)) as [R|R];
      try discriminate; try (simpl; intuition discriminate);
      rewrite R in E; discriminate.
Qed.

(** the same for a date outside the window alone *)
Lemma out_of_window_date_has_points :
  in_window (mkDate 2023 6 1) = false /\
  ~ returns_empty_series CPython.list_set true (data_df scenario) "SPOSTMIN_dino"
      (mkDate 2023 6 1).
Proof.
  split; [reflexivity|]. intros (line & bar & E & Hempty).
  vm_compute in E. injection E as <- <-.
  specialize (Hempty _ (or_introl eq_refl)). vm_compute in Hempty. discriminate.
Qed.

(** C3, amended.  A ride selector that is neither "All" nor one of the
    five ride columns makes the aggregation raise: KeyError when it names
    no column of the table, ValueError when it names one of the calendar
    columns Year, Month, Day and Hour.  The year of the date is not
    consulted: a date gives the result of any date with the same day and
    month, inside the window or not.  For "All" and for a ride column the
    aggregation raises ValueError when no row of the table has the date's
    day and month, as the library's [apply] raises on a frame without rows,
    and returns series when the table has such rows.  Series are returned
    only then, and each has at least one hour or year and a mean, present
    or missing, for each. *)
Theorem C3_unknown_ride_raises (set_iter : list N -> list N) (df : DataFrame) (ride : string)
    (date : CalendarDate) :
  set_semantics set_iter ->
  (ride <> "All"%string -> ~ In ride col ->
   (exists e, outcome (update_charts set_iter true ride date) df = Raise e) /\
   (~ In ride (map fst columns) ->
    outcome (update_charts set_iter true ride date) df = Raise KeyError) /\
   (In ride ["Year"; "Month"; "Day"; "Hour"]%string ->
    outcome (update_charts set_iter true ride date) df = Raise ValueError)) /\
  (forall date', day date' = day date -> month date' = month date ->
     outcome (update_charts set_iter true ride date') df
     = outcome (update_charts set_iter true ride date) df) /\
  (ride = "All"%string \/ In ride col ->
   (loc_day_month df date = [] ->
    outcome (update_charts set_iter true ride date) df = Raise ValueError) /\
   (loc_day_month df date <> [] ->
    exists line bar, outcome (update_charts set_iter true ride date) df = Ok (line, bar))) /\
  (forall line bar,
     outcome (update_charts set_iter true ride date) df = Ok (line, bar) ->
     loc_day_month df date <> [] /\ go.traces line <> [] /\ go.traces bar <> [] /\
     forall t, In t (go.traces line ++ go.traces bar) ->
               go.x t <> [] /\ List.length (go.y t) = List.length (go.x t)).
Proof.
  intro Hset. split; [|split; [|split]].
  - intros Hall Hcol. rewrite (update_charts_unknown_by_column set_iter true _ _ Hall Hcol).
    split; [destruct (assoc ride columns); eauto|]. split; intro H.
    + apply assoc_None in H. now rewrite H.
    + simpl in H. destruct H as [<-|[<-|[<-|[<-|[]]]]]; reflexivity.
  - intros [y' m' d'] Hd Hm. destruct date as [y m d]. simpl in Hd, Hm. subst. reflexivity.
  - intro Hride.
    destruct (update_charts_known set_iter true date df Hride) as [[line bar] E].
    rewrite E. split.
    + intros ->. reflexivity.
    + intro Hne. rewrite (apply_raises_nonempty true Hne). eauto.
  - intros line bar H.
    assert (loc_day_month df date <> []) as Hne.
    { intro E. pose proof H as H'.
      apply update_charts_ok_inv in H' as [[-> _]|(c & -> & _)].
      - rewrite update_charts_all, E in H. discriminate.
      - rewrite update_charts_single, E in H. discriminate. }
    split; [exact Hne|].
    apply update_charts_ok_inv in H as [[-> E]|(c & -> & E)]; injection E as -> ->;
      (split; [discriminate|]); (split; [discriminate|]);
      intros t Ht; simpl in Ht;
      repeat (destruct Ht as [<-|Ht];
              [first [ eapply trace_shapes with (label := @None string);
                       [exact Hset | exact Hne | left; reflexivity]
                     | eapply trace_shapes; [exact Hset | exact Hne | right; reflexivity] ]|]);
      destruct Ht.
Qed.

Lemma C3_unknown_ride_raises_witness :
  set_semantics (unique N.eqb) /\
  outcome (update_charts (unique N.eqb) true "Matterhorn" (mkDate 2021 6 1)) (data_df scenario)
  = Raise KeyError /\
  outcome (update_charts (unique N.eqb) true "Hour" (mkDate 2021 6 1)) (data_df scenario)
  = Raise ValueError /\
  outcome (update_charts (unique N.eqb) true "SPOSTMIN_dino" (mkDate 2021 12 25))
          (data_df scenario)
  = Raise ValueError /\
  exists line bar,
    outcome (update_charts (unique N.eqb) true "SPOSTMIN_dino" (mkDate 2023 6 1))
            (data_df scenario)
    = Ok (line, bar).
Proof.
  split; [exact unique_set_semantics|]. split; [|split; [|split]].
  - apply (proj1 (@C3_unknown_ride_raises (unique N.eqb) (data_df scenario)
                    "Matterhorn"%string (mkDate 2021 6 1) unique_set_semantics)).
    + discriminate.
    + simpl. intuition discriminate.
    + simpl. intuition discriminate.
  - apply (proj1 (@C3_unknown_ride_raises (unique N.eqb) (data_df scenario)
                    "Hour"%string (mkDate 2021 6 1) unique_set_semantics)).
    + discriminate.
    + simpl. intuition discriminate.
    + simpl. tauto.
  - apply (proj1 (proj2 (proj2 (@C3_unknown_ride_raises (unique N.eqb) (data_df scenario)
                    "SPOSTMIN_dino"%string (mkDate 2021 12 25) unique_set_semantics)))).
    + right. simpl. tauto.
    + vm_compute. reflexivity.
  - apply (proj1 (proj2 (proj2 (@C3_unknown_ride_raises (unique N.eqb) (data_df scenario)
                    "SPOSTMIN_dino"%string (mkDate 2023 6 1) unique_set_semantics)))).
    + right. simpl. tauto.
    + vm_compute. discriminate.
Defined.

(** the hourly trace: the means stand in ascending order of the hour, the
    hours in the order the set lists them *)
Lemma hourly_trace_series (set_iter : list N -> list N) (c : Ride) (data : DataFrame) :
  go.x (hourly_trace set_iter c data) = set_iter (map Hour data) /\
  combine (group_keys Hour data) (go.y (hourly_trace set_iter c data))
  = map (fun h => (h, mean (map (get c) (group Hour h data)))) (group_keys Hour data).
Proof. split; [reflexivity|]. apply (groupby_mean_combine Hour (ColWait c) data). Qed.

(** the pairing is right whenever the set lists the hours in ascending
    order *)
Lemma hourly_trace_paired_when_ascending (set_iter : list N -> list N) (c : Ride)
    (data : DataFrame) :
  set_iter (map Hour data) = group_keys Hour data ->
  combine (go.x (hourly_trace set_iter c data)) (go.y (hourly_trace set_iter c data))
  = map (fun h => (h, mean (map (get c) (group Hour h data)))) (group_keys Hour data).
Proof.
  intro H. destruct (hourly_trace_series set_iter c data) as [Hx Hy].
  now rewrite Hx, H.
Qed.

(** C4, on the code.  With records at 7:00 and 8:00 only, the means of
    ride A are 10 at 7:00 and 20 at 8:00, and the hourly series drawn for
    it pairs 8:00 with 10 and 7:00 with 20: the hours are listed in the
    order of the interpreter's set, the means in ascending order of the
    hour. *)
Theorem C4_hourly_mispaired (apply_raises_on_empty : bool) :
  groupby_mean Hour (ColWait Dino) (loc_day_month (data_df early_hours) (mkDate 2021 6 1))
  = [(7%N, Some (10 # 1)%Q); (8%N, Some (20 # 1)%Q)] /\
  exists line bar,
    outcome (update_charts CPython.list_set apply_raises_on_empty "SPOSTMIN_dino"
               (mkDate 2021 6 1)) (data_df early_hours) = Ok (line, bar) /\
    map (fun t => points (go.x t) (go.y t)) (go.traces line)
    = [[(8%N, (10 # 1)%Q); (7%N, (20 # 1)%Q)]].
Proof.
  split; [vm_compute; reflexivity|].
  rewrite (update_charts_single CPython.list_set apply_raises_on_empty Dino).
  assert (apply_raises apply_raises_on_empty
            (loc_day_month (data_df early_hours) (mkDate 2021 6 1)) = false) as ->
    by (vm_compute; reflexivity).
  eexists _, _. split; [reflexivity|]. vm_compute. reflexivity.
Qed.

(** C8, on the code.  For a single ride the result has one hourly and one
    yearly series; the hourly one carries the ride's display name, the
    yearly one carries no name. *)
Theorem C8_single_ride_bar_unlabeled (set_iter : list N -> list N)
    (apply_raises_on_empty : bool) (df : DataFrame) (c : Ride) (date : CalendarDate)
    (line bar : go.Figure) :
  outcome (update_charts set_iter apply_raises_on_empty (col_name c) date) df = Ok (line, bar) ->
  map go.name (go.traces line) = [Some (display_name c)] /\
  map go.name (go.traces bar) = [None].
Proof.
  intro H. rewrite update_charts_single in H.
  destruct (apply_raises apply_raises_on_empty (loc_day_month df date)); [discriminate|].
  injection H as <- <-. split; reflexivity.
Qed.

Lemma C8_single_ride_bar_unlabeled_witness :
  outcome (update_charts CPython.list_set true (col_name Dino) (mkDate 2021 6 1))
          (data_df scenario)
  = Ok (single_figures CPython.list_set Dino (loc_day_month (data_df scenario) (mkDate 2021 6 1)))
  /\
  (map go.name (go.traces (fst (single_figures CPython.list_set Dino
                                  (loc_day_month (data_df scenario) (mkDate 2021 6 1)))))
   = [Some (display_name Dino)] /\
   map go.name (go.traces (snd (single_figures CPython.list_set Dino
                                  (loc_day_month (data_df scenario) (mkDate 2021 6 1)))))
   = [None]).
Proof.
  assert (outcome (update_charts CPython.list_set true (col_name Dino) (mkDate 2021 6 1))
                  (data_df scenario)
          = Ok (single_figures CPython.list_set Dino
                  (loc_day_month (data_df scenario) (mkDate 2021 6 1)))) as H
    by (vm_compute; reflexivity).
  split; [exact H|].
  exact (@C8_single_ride_bar_unlabeled CPython.list_set true (data_df scenario) Dino
           (mkDate 2021 6 1) _ _ H).
Defined.

(** with all rides selected every series carries its ride's name: five
    hourly and five yearly series *)
Lemma all_rides_labeled (set_iter : list N -> list N) (apply_raises_on_empty : bool)
    (df : DataFrame) (date : CalendarDate) (line bar : go.Figure) :
  outcome (update_charts set_iter apply_raises_on_empty "All" date) df = Ok (line, bar) ->
  map go.name (go.traces line) = map (fun c => Some (display_name c)) rides /\
  map go.name (go.traces bar) = map (fun c => Some (display_name c)) rides.
Proof.
  intro H. rewrite update_charts_all in H.
  destruct (apply_raises apply_raises_on_empty (loc_day_month df date)); [discriminate|].
  injection H as <- <-. split; reflexivity.
Qed.

(* ================================================================== *)
(** * The scenarios of the specification *)

(** Ride A with 20 minutes at 10:00 and nothing at 11:00: its cell at
    11:00 stays missing, and its hourly series on that day is the point
    (10, 20). *)
Example scenario_ride_a (apply_raises_on_empty : bool) :
  map (get Dino) (data_df scenario) = [Some 20%Z; None] /\
  exists line bar,
    outcome (update_charts CPython.list_set apply_raises_on_empty "SPOSTMIN_dino"
               (mkDate 2021 6 1)) (data_df scenario) = Ok (line, bar) /\
    map (fun t => points (go.x t) (go.y t)) (go.traces line) = [[(10%N, (20 # 1)%Q)]].
Proof.
  split; [vm_compute; reflexivity|].
  rewrite (update_charts_single CPython.list_set apply_raises_on_empty Dino).
  assert (apply_raises apply_raises_on_empty
            (loc_day_month (data_df scenario) (mkDate 2021 6 1)) = false) as ->
    by (vm_compute; reflexivity).
  eexists _, _. split; [reflexivity|]. vm_compute. reflexivity.
Qed.

(** The 4th of July of two years: the yearly series of ride A has the
    points of 2021 and of 2022, whichever of the two years is selected. *)
Example two_years_yearly (apply_raises_on_empty : bool) (y : N) :
  exists line bar,
    outcome (update_charts CPython.list_set apply_raises_on_empty "SPOSTMIN_dino"
               (mkDate y 7 4)) (data_df two_years) = Ok (line, bar) /\
    map (fun t => points (go.x t) (go.y t)) (go.traces bar)
    = [[(2021%N, (15 # 1)%Q); (2022%N, (40 # 1)%Q)]].
Proof.
  rewrite (update_charts_single CPython.list_set apply_raises_on_empty Dino).
  rewrite (loc_day_month_year (data_df two_years) y 2021 7 4).
  assert (apply_raises apply_raises_on_empty
            (loc_day_month (data_df two_years) (mkDate 2021 7 4)) = false) as ->
    by (vm_compute; reflexivity).
  eexists _, _. split; [reflexivity|]. vm_compute. reflexivity.
Qed.

(** Its hourly series averages the observations of an hour over the two
    years: 10 minutes at 10:00 in 2021 and 40 in 2022 give 25. *)
Example two_years_hourly (apply_raises_on_empty : bool) (y : N) :
  exists line bar,
    outcome (update_charts CPython.list_set apply_raises_on_empty "SPOSTMIN_dino"
               (mkDate y 7 4)) (data_df two_years) = Ok (line, bar) /\
    map (fun t => points (go.x t) (go.y t)) (go.traces line)
    = [[(10%N, (25 # 1)%Q); (11%N, (20 # 1)%Q)]].
Proof.
  rewrite (update_charts_single CPython.list_set apply_raises_on_empty Dino).
  rewrite (loc_day_month_year (data_df two_years) y 2021 7 4).
  assert (apply_raises apply_raises_on_empty
            (loc_day_month (data_df two_years) (mkDate 2021 7 4)) = false) as ->
    by (vm_compute; reflexivity).
  eexists _, _. split; [reflexivity|]. vm_compute. reflexivity.
Qed.

(* ================================================================== *)
(** * Further properties of the unifier *)

(** the frames stay folded in the proofs below *)
Opaque merge_outer sort_values backfill.

Lemma data_df_nth (d : Datasets) (i : nat) (r : Row) :
  nth_error (sorted_df d) i = Some r ->
  nth_error (data_df d) i
  = Some (replace_row (-999) (filled_row r (skipn (S i) (sorted_df d)))).
Proof.
  intro H. unfold data_df, replace. now rewrite nth_error_map, (backfill_nth _ _ H).
Qed.

Lemma data_df_In (d : Datasets) (r' : Row) :
  In r' (data_df d) ->
  exists i r, nth_error (sorted_df d) i = Some r /\
              r' = replace_row (-999) (filled_row r (skipn (S i) (sorted_df d))).
Proof.
  intro H. apply In_nth_error in H as [i H]. exists i.
  unfold data_df, replace in H. rewrite nth_error_map, backfill_rows_eq, backfill_rows_nth in H.
  destruct (nth_error (sorted_df d) i) as [r|]; [|discriminate].
  exists r. split; [reflexivity|]. cbn [option_map] in H. now injection H as <-.
Qed.

Lemma data_df_datetime (d : Datasets) :
  Permutation (map datetime (data_df d)) (map datetime (merged d)).
Proof.
  unfold data_df. rewrite replace_datetime, backfill_datetime.
  apply Permutation_map, Permutation_sym, sort_values_perm.
Qed.

Lemma clean_key_In (df : list Csv.Row) (t : Timestamp) :
  In t (map fst (clean df)) <->
  exists row, In row df /\ Csv.datetime row = t /\ Csv.SPOSTMIN row <> None.
Proof.
  rewrite in_map_iff. split.
  - intros ([t' v] & Ht & H). simpl in Ht; subst t'.
    destruct (clean_present _ _ _ H) as [z ->].
    apply clean_In in H as (row & Hin & Hd & Hp). exists row. repeat split; auto. congruence.
  - intros (row & Hin & Hd & Hp). destruct (Csv.SPOSTMIN row) as [z|] eqn:E; [|contradiction].
    exists (t, Some z). split; [reflexivity|]. apply clean_In. eauto.
Qed.

(** The timestamps of the final table are the timestamps at which some
    ride's file has a record with a posted time, whether or not the files
    repeat timestamps. *)
Theorem data_df_timestamps (d : Datasets) (t : Timestamp) :
  In t (map datetime (data_df d)) <->
  exists c row, In row (file_of c d) /\ Csv.datetime row = t /\ Csv.SPOSTMIN row <> None.
Proof.
  assert (In t (map datetime (data_df d)) <-> In t (map fst (merge_chain d))) as ->.
  { rewrite <- merged_datetime. split; apply Permutation_in;
      [|apply Permutation_sym]; apply data_df_datetime. }
  rewrite merge_chain_keys. split.
  - intros (c & H). exists c. now apply clean_key_In.
  - intros (c & H). exists c. now apply clean_key_In.
Qed.

(** The calendar columns of every row of the final table are the fields
    of the row's timestamp: the sort, the gap repair and the replacement
    keep what lines 40-43 derived. *)
Theorem data_df_calendar (d : Datasets) (r : Row) :
  In r (data_df d) ->
  Year r = ts_year (datetime r) /\ Month r = ts_month (datetime r) /\
  Day r = ts_day (datetime r) /\ Hour r = ts_hour (datetime r).
Proof.
  intro H. apply data_df_In in H as (i & r0 & Hi & ->).
  apply nth_error_In, sorted_df_In, merged_calendar in Hi. exact Hi.
Qed.

Lemma data_df_calendar_witness :
  In (replace_row (-999) closed_row_8_filled) (data_df closed_morning) /\
  (Year (replace_row (-999) closed_row_8_filled)
   = ts_year (datetime (replace_row (-999) closed_row_8_filled)) /\
   Month (replace_row (-999) closed_row_8_filled)
   = ts_month (datetime (replace_row (-999) closed_row_8_filled)) /\
   Day (replace_row (-999) closed_row_8_filled)
   = ts_day (datetime (replace_row (-999) closed_row_8_filled)) /\
   Hour (replace_row (-999) closed_row_8_filled)
   = ts_hour (datetime (replace_row (-999) closed_row_8_filled))).
Proof.
  assert (In (replace_row (-999) closed_row_8_filled) (data_df closed_morning)) as H
    by (vm_compute; left; reflexivity).
  split; [exact H|].
  exact (data_df_calendar closed_morning _ H).
Defined.

Lemma next_valid_In (c : Ride) (k : DayKey) (rest : DataFrame) (v : Z) :
  next_valid c k rest = Some v ->
  exists j rj, nth_error rest j = Some rj /\ day_key rj = k /\ get c rj = Some v.
Proof.
  intro H. apply next_valid_some in H as (j & rj & H1 & H2 & H3 & _). eauto.
Qed.

Lemma merged_cell_source (d : Datasets) (r : Row) (c : Ride) (v : Z) :
  In r (merged d) -> get c r = Some v ->
  exists row, In row (file_of c d) /\ Csv.datetime row = datetime r /\
              Csv.SPOSTMIN row = Some v.
Proof.
  intros H Hv. destruct (merged_cells d r c H) as [Hin|[_ Hnull]]; [|congruence].
  rewrite Hv in Hin. now apply clean_In in Hin.
Qed.

(** Every value of the final table is a posted time of that ride's file:
    it is not the sentinel, and it comes from a record of the same ride on
    the row's calendar day, at the row's timestamp or later. *)
Theorem data_df_cell_source (d : Datasets) (r : Row) (c : Ride) (v : Z) :
  In r (data_df d) -> get c r = Some v ->
  v <> (-999)%Z /\
  exists row, In row (file_of c d) /\ Csv.SPOSTMIN row = Some v /\
              ts_leb (datetime r) (Csv.datetime row) = true /\
              ts_year (Csv.datetime row) = Year r /\
              ts_month (Csv.datetime row) = Month r /\
              ts_day (Csv.datetime row) = Day r.
Proof.
  intros H Hv. apply data_df_In in H as (i & r0 & Hi & ->).
  rewrite get_replace_row, get_filled_row in Hv.
  split.
  { intros ->. exact (@replace_cell_neq _ _ Hv). }
  assert (filled c r0 (skipn (S i) (sorted_df d)) = Some v) as Hf.
  { destruct (filled c r0 (skipn (S i) (sorted_df d))) as [x|]; [|discriminate].
    simpl in Hv. destruct (Z.eqb x (-999)); congruence. }
  clear Hv. simpl.
  pose proof (sort_values_sorted (merged d)) as Hsorted. fold (sorted_df d) in Hsorted.
  assert (forall rj, In rj (sorted_df d) -> get c rj = Some v -> day_key rj = day_key r0 ->
                     ts_leb (datetime r0) (datetime rj) = true ->
                     exists row, In row (file_of c d) /\ Csv.SPOSTMIN row = Some v /\
                       ts_leb (datetime r0) (Csv.datetime row) = true /\
                       ts_year (Csv.datetime row) = Year r0 /\
                       ts_month (Csv.datetime row) = Month r0 /\
                       ts_day (Csv.datetime row) = Day r0) as Hsource.
  { intros rj Hj Hvj Hk Hle. apply sorted_df_In in Hj.
    destruct (merged_cell_source d rj c Hj Hvj) as (row & Hrow & Hd & Hp).
    destruct (merged_calendar d rj Hj) as (Hy & Hm & Hday & _).
    exists row. rewrite Hd. unfold day_key in Hk. injection Hk as <- <- <-.
    repeat split; auto. }
  unfold filled in Hf. destruct (get c r0) as [x|] eqn:G.
  - injection Hf as ->. apply (Hsource r0); auto.
    + now apply nth_error_In in Hi.
    + destruct (ts_leb (datetime r0) (datetime r0)) eqn:E; [reflexivity|].
      pose proof (ts_leb_total _ _ E). congruence.
  - apply next_valid_In in Hf as (j & rj & Hj & Hk & Hvj).
    rewrite nth_error_skipn in Hj. apply (Hsource rj); auto.
    + now apply nth_error_In in Hj.
    + apply (sorted_nth Hsorted (i := i) (j := S i + j)); auto. lia.
Qed.

Lemma data_df_cell_source_witness :
  In (replace_row (-999) (filled_row scenario_row_10 (skipn 1 (sorted_df scenario))))
     (data_df scenario) /\
  get Everest (replace_row (-999) (filled_row scenario_row_10 (skipn 1 (sorted_df scenario))))
  = Some 5%Z /\
  (5%Z <> (-999)%Z /\
   exists row, In row (file_of Everest scenario) /\ Csv.SPOSTMIN row = Some 5%Z /\
     ts_leb (datetime (replace_row (-999)
                         (filled_row scenario_row_10 (skipn 1 (sorted_df scenario)))))
            (Csv.datetime row) = true /\
     ts_year (Csv.datetime row)
     = Year (replace_row (-999) (filled_row scenario_row_10 (skipn 1 (sorted_df scenario)))) /\
     ts_month (Csv.datetime row)
     = Month (replace_row (-999) (filled_row scenario_row_10 (skipn 1 (sorted_df scenario)))) /\
     ts_day (Csv.datetime row)
     = Day (replace_row (-999) (filled_row scenario_row_10 (skipn 1 (sorted_df scenario))))).
Proof.
  assert (In (replace_row (-999) (filled_row scenario_row_10 (skipn 1 (sorted_df scenario))))
             (data_df scenario)) as H by (vm_compute; left; reflexivity).
  assert (get Everest (replace_row (-999)
                         (filled_row scenario_row_10 (skipn 1 (sorted_df scenario))))
          = Some 5%Z) as Hv by (vm_compute; reflexivity).
  split; [exact H|]. split; [exact Hv|].
  exact (@data_df_cell_source scenario _ Everest 5%Z H Hv).
Defined.

(** A ride whose file has no record with a posted time has a missing cell
    in every row of the final table. *)
Theorem data_df_empty_ride (d : Datasets) (c : Ride) (r : Row) :
  (forall row, In row (file_of c d) -> Csv.SPOSTMIN row = None) ->
  In r (data_df d) -> get c r = None.
Proof.
  intros Hfile H. destruct (get c r) as [v|] eqn:E; [|reflexivity].
  destruct (data_df_cell_source d r c H E) as (_ & row & Hrow & Hp & _).
  rewrite (Hfile row Hrow) in Hp. discriminate.
Qed.

Lemma data_df_empty_ride_witness :
  (forall row, In row (file_of Navi scenario) -> Csv.SPOSTMIN row = None) /\
  In (replace_row (-999) (filled_row scenario_row_10 (skipn 1 (sorted_df scenario))))
     (data_df scenario) /\
  get Navi (replace_row (-999) (filled_row scenario_row_10 (skipn 1 (sorted_df scenario))))
  = None.
Proof.
  assert (forall row, In row (file_of Navi scenario) -> Csv.SPOSTMIN row = None) as Hfile
    by (intros row []).
  assert (In (replace_row (-999) (filled_row scenario_row_10 (skipn 1 (sorted_df scenario))))
             (data_df scenario)) as H by (vm_compute; left; reflexivity).
  split; [exact Hfile|]. split; [exact H|].
  exact (data_df_empty_ride scenario Navi _ Hfile H).
Defined.

(* ------------------------------------------------------------------ *)
(** ** Repeated timestamps in the outer join *)

Transparent merge_outer.

Lemma product_length (A B C : Type) (f : A -> B -> C) (ls : list A) (rs : list B) :
  List.length (flat_map (fun l => map (f l) rs) ls) = List.length ls * List.length rs.
Proof.
  induction ls as [|l ls IH]; simpl; [reflexivity|].
  now rewrite length_app, length_map, IH.
Qed.

Section MergeCount.

Variables A B : Type.
Variable nullA : A.
Variable nullB : B.
Variable left : list (Timestamp * A).
Variable right : list (Timestamp * B).

Lemma merge_key_keys (k : Timestamp) (x : Timestamp * (A * B)) :
  In x (merge_key nullA nullB left right k) -> fst x = k.
Proof.
  destruct x as [k' [a b]]. intro H. now apply merge_key_sides in H as [-> _].
Qed.

Lemma merge_key_other (k k' : Timestamp) :
  k' <> k ->
  filter (fun x => ts_eqb (fst x) k) (merge_key nullA nullB left right k') = [].
Proof.
  intro Hne. destruct (filter _ _) as [|x xs] eqn:E; [reflexivity|]. exfalso.
  assert (In x (filter (fun x => ts_eqb (fst x) k) (merge_key nullA nullB left right k')))
    as H by (rewrite E; now left).
  apply filter_In in H as [H Hk]. apply merge_key_keys in H. apply ts_eqb_eq in Hk. congruence.
Qed.

Lemma merge_key_own (k : Timestamp) :
  filter (fun x => ts_eqb (fst x) k) (merge_key nullA nullB left right k)
  = merge_key nullA nullB left right k.
Proof.
  apply forallb_filter_id. apply forallb_forall. intros x Hx.
  apply ts_eqb_eq. now apply merge_key_keys in Hx.
Qed.

Lemma merge_key_length (k : Timestamp) :
  In k (map fst left) \/ In k (map fst right) ->
  List.length (merge_key nullA nullB left right k)
  = side_factor (count_key k left) * side_factor (count_key k right).
Proof.
  intro Hk. unfold merge_key, count_key, side_factor.
  pose proof (key_filter_nil k left) as NL. pose proof (key_filter_nil k right) as NR.
  destruct (filter (fun l => ts_eqb (fst l) k) left) as [|l ls];
    destruct (filter (fun r => ts_eqb (fst r) k) right) as [|r rs].
  - exfalso. destruct Hk as [Hk|Hk]; [now apply NL | now apply NR].
  - rewrite length_map. simpl. lia.
  - rewrite length_map. simpl. lia.
  - rewrite (product_length (fun l r => (k, (snd l, snd r)))). simpl. lia.
Qed.

Lemma merge_outer_count_keys (ks : list Timestamp) (k : Timestamp) :
  NoDup ks -> (forall k', In k' ks -> In k' (map fst left) \/ In k' (map fst right)) ->
  List.length (filter (fun x => ts_eqb (fst x) k)
                      (flat_map (merge_key nullA nullB left right) ks))
  = if in_dec ts_eq_dec k ks
    then side_factor (count_key k left) * side_factor (count_key k right)
    else 0.
Proof.
  induction ks as [|k' ks IH]; intros Hnd Hks; [reflexivity|].
  inversion Hnd as [|? ? Hnotin Hnd']; subst.
  simpl flat_map. rewrite filter_app, length_app, IH by (auto; intros; apply Hks; now right).
  destruct (ts_eq_dec k' k) as [->|Hne].
  - rewrite merge_key_own, merge_key_length by (apply Hks; now left).
    destruct (in_dec ts_eq_dec k ks) as [Hin|_]; [contradiction|].
    destruct (in_dec ts_eq_dec k (k :: ks)) as [_|Hn]; [lia | exfalso; apply Hn; now left].
  - rewrite merge_key_other by exact Hne. simpl List.length.
    destruct (in_dec ts_eq_dec k ks) as [Hin|Hnin];
      destruct (in_dec ts_eq_dec k (k' :: ks)) as [Hin'|Hnin']; try reflexivity.
    + exfalso. apply Hnin'. now right.
    + exfalso. destruct Hin' as [E|Hin']; [congruence | contradiction].
Qed.

(** One outer join: a timestamp of either frame gets the product of the
    numbers of rows the two frames have for it, a frame without the
    timestamp counting for one; another timestamp gets no row. *)
Lemma merge_outer_count (k : Timestamp) :
  count_key k (merge_outer nullA nullB left right)
  = match count_key k left, count_key k right with
    | O, O => 0
    | n, m => side_factor n * side_factor m
    end.
Proof.
  unfold count_key at 1. unfold merge_outer.
  rewrite merge_outer_count_keys.
  - pose proof (key_filter_nil k left) as NL. pose proof (key_filter_nil k right) as NR.
    unfold count_key.
    destruct (in_dec ts_eq_dec k (unique ts_eqb (map fst left ++ map fst right))) as [Hin|Hnin].
    + apply (proj1 (unique_In ts_eqb ts_eqb_eq _ _)) in Hin. apply in_app_iff in Hin.
      destruct (filter (fun l => ts_eqb (fst l) k) left) as [|l ls];
        destruct (filter (fun r => ts_eqb (fst r) k) right) as [|r rs]; try reflexivity.
      exfalso. destruct Hin as [Hin|Hin]; [now apply NL | now apply NR].
    + destruct (filter (fun l => ts_eqb (fst l) k) left) as [|l ls] eqn:EL;
        destruct (filter (fun r => ts_eqb (fst r) k) right) as [|r rs] eqn:ER;
        try reflexivity; exfalso; apply Hnin; apply (unique_In ts_eqb ts_eqb_eq);
        apply in_app_iff.
      * right. destruct (in_dec ts_eq_dec k (map fst right)) as [H|H]; [exact H|].
        apply NR in H. discriminate.
      * left. destruct (in_dec ts_eq_dec k (map fst left)) as [H|H]; [exact H|].
        apply NL in H. discriminate.
      * left. destruct (in_dec ts_eq_dec k (map fst left)) as [H|H]; [exact H|].
        apply NL in H. discriminate.
  - apply (unique_NoDup ts_eqb ts_eqb_eq).
  - intros k' Hk'. apply (proj1 (unique_In ts_eqb ts_eqb_eq _ _)) in Hk'.
    now apply in_app_iff in Hk'.
Qed.

Lemma merge_outer_factor (k : Timestamp) :
  side_factor (count_key k (merge_outer nullA nullB left right))
  = side_factor (count_key k left) * side_factor (count_key k right).
Proof.
  rewrite merge_outer_count. unfold side_factor.
  destruct (count_key k left), (count_key k right); simpl; lia.
Qed.

End MergeCount.

Opaque merge_outer.

Lemma rows_at_merged (d : Datasets) (t : Timestamp) :
  List.length (rows_at t (merged d)) = count_key t (merge_chain d).
Proof.
  unfold rows_at, merged, count_key.
  induction (merge_chain d) as [|[k [[[[x1 x2] x3] x4] x5]] l IH]; [reflexivity|].
  simpl. destruct (ts_eqb k t); simpl; now rewrite IH.
Qed.

Lemma rows_at_perm (t : Timestamp) (l1 l2 : DataFrame) :
  Permutation l1 l2 -> List.length (rows_at t l1) = List.length (rows_at t l2).
Proof.
  intro H. unfold rows_at. induction H; simpl.
  - reflexivity.
  - destruct (ts_eqb (datetime x) t); simpl; now rewrite IHPermutation.
  - destruct (ts_eqb (datetime x) t), (ts_eqb (datetime y) t); reflexivity.
  - congruence.
Qed.

Lemma rows_at_datetime (t : Timestamp) (l1 l2 : DataFrame) :
  map datetime l1 = map datetime l2 ->
  List.length (rows_at t l1) = List.length (rows_at t l2).
Proof.
  revert l2; induction l1 as [|r l1 IH]; intros [|r' l2] H; try discriminate; [reflexivity|].
  injection H as Hr H. unfold rows_at. simpl. rewrite Hr.
  destruct (ts_eqb (datetime r') t); simpl; [f_equal|]; apply (IH l2 H).
Qed.

(** The number of rows the final table has for a timestamp is the product
    of the numbers of posted records the five files have for it, a file
    without the timestamp counting for one; a timestamp of no file has no
    row.  Two records of one ride at one time double that time's rows. *)
Theorem data_df_rows_per_timestamp (d : Datasets) (t : Timestamp) :
  (exists c, In t (map fst (clean (file_of c d)))) ->
  List.length (rows_at t (data_df d))
  = side_factor (count_key t (clean (dino d))) * side_factor (count_key t (clean (everest d)))
    * side_factor (count_key t (clean (passage d))) * side_factor (count_key t (clean (safari d)))
    * side_factor (count_key t (clean (navi d))).
Proof.
  intro Hin.
  assert (List.length (rows_at t (data_df d)) = count_key t (merge_chain d)) as ->.
  { rewrite <- rows_at_merged. unfold data_df.
    rewrite (rows_at_datetime t (replace (-999) (backfill (sorted_df d))) (sorted_df d))
      by (now rewrite replace_datetime, backfill_datetime).
    apply rows_at_perm, Permutation_sym, sort_values_perm. }
  apply merge_chain_keys in Hin.
  assert (count_key t (merge_chain d) = side_factor (count_key t (merge_chain d))) as ->.
  { unfold side_factor. destruct (count_key t (merge_chain d)) eqn:E; [|lia].
    exfalso. unfold count_key in E. apply length_zero_iff_nil, key_filter_nil in E.
    contradiction. }
  unfold merge_chain. now rewrite !merge_outer_factor.
Qed.

Lemma data_df_rows_per_timestamp_witness :
  (exists c, In (at_hour 2021 6 1 10) (map fst (clean (file_of c repeated_records)))) /\
  List.length (rows_at (at_hour 2021 6 1 10) (data_df repeated_records))
  = side_factor (count_key (at_hour 2021 6 1 10) (clean (dino repeated_records)))
    * side_factor (count_key (at_hour 2021 6 1 10) (clean (everest repeated_records)))
    * side_factor (count_key (at_hour 2021 6 1 10) (clean (passage repeated_records)))
    * side_factor (count_key (at_hour 2021 6 1 10) (clean (safari repeated_records)))
    * side_factor (count_key (at_hour 2021 6 1 10) (clean (navi repeated_records))).
Proof.
  assert (exists c, In (at_hour 2021 6 1 10) (map fst (clean (file_of c repeated_records))))
    as H by (exists Dino; left; reflexivity).
  split; [exact H|].
  exact (data_df_rows_per_timestamp repeated_records (at_hour 2021 6 1 10) H).
Defined.

Example repeated_records_rows :
  List.length (rows_at (at_hour 2021 6 1 10) (data_df repeated_records)) = 6.
Proof. vm_compute. reflexivity. Qed.

(* ------------------------------------------------------------------ *)
(** ** How the gap repair composes *)

Lemma next_valid_backfill_rows (c : Ride) (k : DayKey) (df : DataFrame) :
  next_valid c k (backfill_rows df) = next_valid c k df.
Proof.
  induction df as [|r df IH]; [reflexivity|].
  cbn [backfill_rows next_valid].
  assert (day_key (filled_row r df) = day_key r) as -> by reflexivity.
  rewrite get_filled_row, IH.
  destruct (day_eqb (day_key r) k) eqn:E; [|reflexivity].
  apply day_eqb_eq in E. subst k. unfold filled.
  destruct (get c r); [reflexivity|].
  now destruct (next_valid c (day_key r) df).
Qed.

Lemma filled_backfill_rows (c : Ride) (r : Row) (df : DataFrame) :
  filled c (filled_row r df) (backfill_rows df) = filled c r df.
Proof.
  unfold filled at 1. rewrite get_filled_row.
  destruct (filled c r df) as [v|] eqn:E; [reflexivity|].
  assert (day_key (filled_row r df) = day_key r) as -> by reflexivity.
  rewrite next_valid_backfill_rows. unfold filled in E.
  destruct (get c r); [discriminate | exact E].
Qed.

(** Running the gap repair a second time changes nothing. *)
Theorem backfill_idempotent (df : DataFrame) : backfill (backfill df) = backfill df.
Proof.
  rewrite !backfill_rows_eq.
  induction df as [|r df IH]; [reflexivity|].
  cbn [backfill_rows]. rewrite IH. f_equal.
  unfold filled_row at 1. rewrite !filled_backfill_rows. reflexivity.
Qed.

Lemma next_valid_app (c : Ride) (k : DayKey) (a b : DataFrame) :
  next_valid c k (a ++ b)
  = match next_valid c k a with
    | Some v => Some v
    | None => next_valid c k b
    end.
Proof.
  induction a as [|r a IH]; [reflexivity|].
  simpl. destruct (day_eqb (day_key r) k); [destruct (get c r)|]; auto.
Qed.

Lemma next_valid_other_days (c : Ride) (k : DayKey) (b : DataFrame) :
  (forall r, In r b -> day_key r <> k) -> next_valid c k b = None.
Proof.
  induction b as [|r b IH]; intro H; [reflexivity|].
  simpl. destruct (day_eqb (day_key r) k) eqn:E.
  - apply day_eqb_eq in E. exfalso. apply (H r); [now left | exact E].
  - apply IH. intros r' Hr'. apply H. now right.
Qed.

(** The gap repair never fills forward: the repaired rows of the end of a
    table are those of that end taken alone, whatever stands before it. *)
Theorem backfill_suffix (a b : DataFrame) :
  skipn (List.length a) (backfill (a ++ b)) = backfill b.
Proof.
  rewrite !backfill_rows_eq.
  induction a as [|r a IH]; [reflexivity|]. exact IH.
Qed.

(** Days are repaired apart: when no day of the first part of a table
    occurs in the rest, the repaired table is the repaired first part
    followed by the repaired rest. *)
Theorem backfill_days_apart (a b : DataFrame) :
  (forall ra rb, In ra a -> In rb b -> day_key rb <> day_key ra) ->
  backfill (a ++ b) = backfill a ++ backfill b.
Proof.
  rewrite !backfill_rows_eq.
  induction a as [|r a IH]; intro H; [reflexivity|].
  cbn [app backfill_rows]. rewrite IH by (intros; apply H; [now right | assumption]).
  f_equal.
  assert (forall c, filled c r (a ++ b) = filled c r a) as E.
  { intro c. unfold filled. rewrite next_valid_app.
    rewrite (@next_valid_other_days c (day_key r) b) by (intros rb Hb; apply H; [now left | exact Hb]).
    now destruct (next_valid c (day_key r) a). }
  unfold filled_row. now rewrite !E.
Qed.

Lemma backfill_days_apart_witness :
  (forall ra rb, In ra first_day -> In rb second_day -> day_key rb <> day_key ra) /\
  backfill (first_day ++ second_day) = backfill first_day ++ backfill second_day.
Proof.
  assert (forall ra rb, In ra first_day -> In rb second_day -> day_key rb <> day_key ra) as H.
  { intros ra rb Ha Hb. simpl in Ha, Hb.
    destruct Ha as [<-|[<-|[]]]; destruct Hb as [<-|[<-|[]]]; discriminate. }
  split; [exact H|].
  exact (backfill_days_apart first_day second_day H).
Defined.

Lemma next_valid_first (c : Ride) (k : DayKey) (rest : DataFrame) (j : nat) (rj : Row) (v : Z) :
  nth_error rest j = Some rj -> day_key rj = k -> get c rj = Some v ->
  (forall j' rj', j' < j -> nth_error rest j' = Some rj' -> day_key rj' = k ->
                  get c rj' = None) ->
  next_valid c k rest = Some v.
Proof.
  revert j; induction rest as [|r rest IH]; intros j Hj Hk Hv Hmin; [now destruct j|].
  simpl. destruct j as [|j]; simpl in Hj.
  - injection Hj as ->. rewrite <- Hk, day_eqb_refl, Hv. reflexivity.
  - assert (next_valid c k rest = Some v) as E.
    { apply (IH j); auto. intros j' rj' Hlt. apply (Hmin (S j') rj'). lia. }
    destruct (day_eqb (day_key r) k) eqn:D; [|exact E].
    apply day_eqb_eq in D. rewrite (Hmin 0 r); auto. lia.
Qed.

(** A closed ride hides what follows: when the nearest later row of the
    day that has a value in a ride's column holds the sentinel, a missing
    cell ends missing in the final table, even if a posted time stands
    later that day. *)
Theorem sentinel_hides_later_values (d : Datasets) (c : Ride) (i j : nat) (r rj : Row) :
  nth_error (sorted_df d) i = Some r -> get c r = None ->
  i < j -> nth_error (sorted_df d) j = Some rj ->
  day_key rj = day_key r -> get c rj = Some (-999)%Z ->
  (forall j' rj', i < j' < j -> nth_error (sorted_df d) j' = Some rj' ->
                  day_key rj' = day_key r -> get c rj' = None) ->
  exists r', nth_error (data_df d) i = Some r' /\ get c r' = None.
Proof.
  intros Hi Hnull Hlt Hj Hk Hv Hmin.
  eexists. split; [apply (data_df_nth _ _ Hi)|].
  rewrite get_replace_row, get_filled_row. unfold filled. rewrite Hnull.
  rewrite (@next_valid_first c (day_key r) (skipn (S i) (sorted_df d)) (j - S i) rj (-999)%Z).
  - reflexivity.
  - rewrite nth_error_skipn. now replace (S i + (j - S i)) with j by lia.
  - exact Hk.
  - exact Hv.
  - intros j' rj' Hlt' Hj' Hk'. rewrite nth_error_skipn in Hj'.
    apply (Hmin (S i + j') rj'); auto. lia.
Qed.

Lemma sentinel_hides_later_values_witness :
  nth_error (sorted_df closed_morning) 0 = Some closed_row_8 /\
  get Dino closed_row_8 = None /\
  0 < 1 /\
  nth_error (sorted_df closed_morning) 1 = Some closed_row_9 /\
  day_key closed_row_9 = day_key closed_row_8 /\
  get Dino closed_row_9 = Some (-999)%Z /\
  (forall j' rj', 0 < j' < 1 -> nth_error (sorted_df closed_morning) j' = Some rj' ->
                  day_key rj' = day_key closed_row_8 -> get Dino rj' = None) /\
  exists r', nth_error (data_df closed_morning) 0 = Some r' /\ get Dino r' = None.
Proof.
  assert (nth_error (sorted_df closed_morning) 0 = Some closed_row_8) as H0
    by (vm_compute; reflexivity).
  assert (nth_error (sorted_df closed_morning) 1 = Some closed_row_9) as H1
    by (vm_compute; reflexivity).
  assert (forall j' rj', 0 < j' < 1 -> nth_error (sorted_df closed_morning) j' = Some rj' ->
                         day_key rj' = day_key closed_row_8 -> get Dino rj' = None) as Hmin
    by (intros j' rj' Hj'; lia).
  repeat (split; [first [exact H0 | exact H1 | exact Hmin | reflexivity | lia]|]).
  exact (@sentinel_hides_later_values closed_morning Dino 0 1 closed_row_8 closed_row_9
           H0 eq_refl (Nat.lt_0_succ 0) H1 eq_refl eq_refl Hmin).
Defined.

(* ================================================================== *)
(** * Further properties of the aggregation *)

(** The aggregation returns figures exactly when the selector is "All" or
    one of the five ride columns and the library's [apply] does not raise
    on the filtered rows; it does so for every such selector when the
    table has a row on the date's day and month. *)
Theorem update_charts_returns_iff (set_iter : list N -> list N) (apply_raises_on_empty : bool)
    (df : DataFrame) (ride : string) (date : CalendarDate) :
  ((exists figs, outcome (update_charts set_iter apply_raises_on_empty ride date) df = Ok figs)
   <-> (ride = "All"%string \/ In ride col) /\
       apply_raises apply_raises_on_empty (loc_day_month df date) = false) /\
  (ride = "All"%string \/ In ride col -> loc_day_month df date <> [] ->
   exists figs, outcome (update_charts set_iter apply_raises_on_empty ride date) df = Ok figs).
Proof.
  assert ((ride = "All"%string \/ In ride col) ->
          apply_raises apply_raises_on_empty (loc_day_month df date) = false ->
          exists figs,
            outcome (update_charts set_iter apply_raises_on_empty ride date) df = Ok figs) as Hok.
  { intros [->|Hin] E.
    - rewrite update_charts_all, E. eauto.
    - assert (exists c, ride = col_name c) as [c ->].
      { simpl in Hin.
        destruct Hin as [<-|[<-|[<-|[<-|[<-|[]]]]]];
          [exists Dino | exists Everest | exists Passage | exists Safari | exists Navi];
          reflexivity. }
      rewrite update_charts_single, E. eauto. }
  split; [split|].
  - intros [figs H]. pose proof H as H'.
    apply update_charts_ok_inv in H' as [[-> _]|(c & -> & _)].
    + split; [now left|]. rewrite update_charts_all in H.
      destruct (apply_raises apply_raises_on_empty (loc_day_month df date));
        [discriminate | reflexivity].
    + split; [right; destruct c; simpl; tauto|]. rewrite update_charts_single in H.
      destruct (apply_raises apply_raises_on_empty (loc_day_month df date));
        [discriminate | reflexivity].
  - intros [Hr E]. now apply Hok.
  - intros Hr Hne. apply Hok; [exact Hr | now apply apply_raises_nonempty].
Qed.

Lemma update_charts_returns_iff_witness :
  exists figs,
    outcome (update_charts CPython.list_set true "SPOSTMIN_navi" (mkDate 2021 6 1))
            (data_df scenario) = Ok figs.
Proof.
  apply (proj2 (update_charts_returns_iff CPython.list_set true (data_df scenario)
                  "SPOSTMIN_navi"%string (mkDate 2021 6 1))).
  - right. simpl. tauto.
  - vm_compute. discriminate.
Defined.

(** Every series returned has as many values as abscissas.  The hours of
    an hourly series are the distinct hours of the filtered rows, each
    once; the years of a yearly series are the distinct years in ascending
    order. *)
Theorem series_shapes (set_iter : list N -> list N) (apply_raises_on_empty : bool)
    (df : DataFrame) (ride : string) (date : CalendarDate) (line bar : go.Figure) :
  set_semantics set_iter ->
  outcome (update_charts set_iter apply_raises_on_empty ride date) df = Ok (line, bar) ->
  (forall t, In t (go.traces line) ->
     Permutation (go.x t) (group_keys Hour (loc_day_month df date)) /\
     List.length (go.y t) = List.length (go.x t)) /\
  (forall t, In t (go.traces bar) ->
     go.x t = group_keys Year (loc_day_month df date) /\
     List.length (go.y t) = List.length (go.x t)).
Proof.
  intros Hset H.
  assert (forall c, Permutation (go.x (hourly_trace set_iter c (loc_day_month df date)))
                                (group_keys Hour (loc_day_month df date)) /\
                    List.length (go.y (hourly_trace set_iter c (loc_day_month df date)))
                    = List.length (go.x (hourly_trace set_iter c (loc_day_month df date)))) as HL.
  { intro c. simpl. split; [now apply set_iter_perm_keys|].
    rewrite groupby_mean_length.
    apply Permutation_length, Permutation_sym. now apply set_iter_perm_keys. }
  assert (forall c l, go.x (yearly_trace set_iter c l (loc_day_month df date))
                      = group_keys Year (loc_day_month df date) /\
                      List.length (go.y (yearly_trace set_iter c l (loc_day_month df date)))
                      = List.length (go.x (yearly_trace set_iter c l (loc_day_month df date))))
    as HB.
  { intros c l. simpl. rewrite (sorted_set_group_keys Year _ Hset).
    split; [reflexivity | apply groupby_mean_length]. }
  apply update_charts_ok_inv in H as [[_ E]|(c & _ & E)]; injection E as -> ->;
    split; intros t Ht; simpl in Ht;
    repeat (destruct Ht as [<-|Ht]; [first [apply HL | apply HB]|]); destruct Ht.
Qed.

Lemma series_shapes_witness :
  set_semantics (unique N.eqb) /\
  outcome (update_charts (unique N.eqb) true "All" (mkDate 2021 7 4)) (data_df two_years)
  = Ok (all_figures (unique N.eqb) (loc_day_month (data_df two_years) (mkDate 2021 7 4))) /\
  ((forall t, In t (go.traces (fst (all_figures (unique N.eqb)
                                      (loc_day_month (data_df two_years) (mkDate 2021 7 4))))) ->
      Permutation (go.x t) (group_keys Hour (loc_day_month (data_df two_years) (mkDate 2021 7 4)))
      /\ List.length (go.y t) = List.length (go.x t)) /\
   (forall t, In t (go.traces (snd (all_figures (unique N.eqb)
                                      (loc_day_month (data_df two_years) (mkDate 2021 7 4))))) ->
      go.x t = group_keys Year (loc_day_month (data_df two_years) (mkDate 2021 7 4)) /\
      List.length (go.y t) = List.length (go.x t))).
Proof.
  assert (outcome (update_charts (unique N.eqb) true "All" (mkDate 2021 7 4)) (data_df two_years)
          = Ok (all_figures (unique N.eqb)
                  (loc_day_month (data_df two_years) (mkDate 2021 7 4)))) as H
    by (vm_compute; reflexivity).
  split; [exact unique_set_semantics|]. split; [exact H|].
  exact (@series_shapes (unique N.eqb) true (data_df two_years) "All"%string (mkDate 2021 7 4)
           _ _ unique_set_semantics H).
Defined.

(** Selecting all rides shows each ride as selecting it alone does: the
    ride's hourly series is the same trace, and its yearly series has the
    same years and means, with the ride's name on it. *)
Theorem all_rides_agree_with_single (set_iter : list N -> list N)
    (apply_raises_on_empty : bool) (df : DataFrame) (c : Ride) (date : CalendarDate)
    (line bar line1 bar1 : go.Figure) :
  outcome (update_charts set_iter apply_raises_on_empty "All" date) df = Ok (line, bar) ->
  outcome (update_charts set_iter apply_raises_on_empty (col_name c) date) df
  = Ok (line1, bar1) ->
  List.length (go.traces line) = 5 /\ List.length (go.traces bar) = 5 /\
  exists lt bt bt1,
    go.traces line1 = [lt] /\ nth_error (go.traces line) (ride_index c) = Some lt /\
    go.traces bar1 = [bt1] /\ nth_error (go.traces bar) (ride_index c) = Some bt /\
    go.x bt = go.x bt1 /\ go.y bt = go.y bt1 /\
    go.name bt = Some (display_name c) /\ go.name lt = Some (display_name c).
Proof.
  intros Hall Hone. rewrite update_charts_all in Hall. rewrite update_charts_single in Hone.
  destruct (apply_raises apply_raises_on_empty (loc_day_month df date)); [discriminate|].
  injection Hall as <- <-. injection Hone as <- <-.
  split; [reflexivity|]. split; [reflexivity|].
  exists (hourly_trace set_iter c (loc_day_month df date)),
         (yearly_trace set_iter c (Some (display_name c)) (loc_day_month df date)),
         (yearly_trace set_iter c None (loc_day_month df date)).
  destruct c; repeat split.
Qed.

Lemma all_rides_agree_with_single_witness :
  outcome (update_charts CPython.list_set true "All" (mkDate 2021 6 1)) (data_df early_hours)
  = Ok (all_figures CPython.list_set (loc_day_month (data_df early_hours) (mkDate 2021 6 1))) /\
  outcome (update_charts CPython.list_set true (col_name Everest) (mkDate 2021 6 1))
          (data_df early_hours)
  = Ok (single_figures CPython.list_set Everest
          (loc_day_month (data_df early_hours) (mkDate 2021 6 1))) /\
  (List.length (go.traces (fst (all_figures CPython.list_set
                                  (loc_day_month (data_df early_hours) (mkDate 2021 6 1))))) = 5 /\
   List.length (go.traces (snd (all_figures CPython.list_set
                                  (loc_day_month (data_df early_hours) (mkDate 2021 6 1))))) = 5 /\
   exists lt bt bt1,
     go.traces (fst (single_figures CPython.list_set Everest
                       (loc_day_month (data_df early_hours) (mkDate 2021 6 1)))) = [lt] /\
     nth_error (go.traces (fst (all_figures CPython.list_set
                                  (loc_day_month (data_df early_hours) (mkDate 2021 6 1)))))
               (ride_index Everest) = Some lt /\
     go.traces (snd (single_figures CPython.list_set Everest
                       (loc_day_month (data_df early_hours) (mkDate 2021 6 1)))) = [bt1] /\
     nth_error (go.traces (snd (all_figures CPython.list_set
                                  (loc_day_month (data_df early_hours) (mkDate 2021 6 1)))))
               (ride_index Everest) = Some bt /\
     go.x bt = go.x bt1 /\ go.y bt = go.y bt1 /\
     go.name bt = Some (display_name Everest) /\ go.name lt = Some (display_name Everest)).
Proof.
  assert (outcome (update_charts CPython.list_set true "All" (mkDate 2021 6 1))
                  (data_df early_hours)
          = Ok (all_figures CPython.list_set
                  (loc_day_month (data_df early_hours) (mkDate 2021 6 1)))) as H1
    by (vm_compute; reflexivity).
  assert (outcome (update_charts CPython.list_set true (col_name Everest) (mkDate 2021 6 1))
                  (data_df early_hours)
          = Ok (single_figures CPython.list_set Everest
                  (loc_day_month (data_df early_hours) (mkDate 2021 6 1)))) as H2
    by (vm_compute; reflexivity).
  split; [exact H1|]. split; [exact H2|].
  exact (@all_rides_agree_with_single CPython.list_set true (data_df early_hours) Everest
           (mkDate 2021 6 1) _ _ _ _ H1 H2).
Defined.

(* ------------------------------------------------------------------ *)
(** ** The means *)

Lemma present_In (vs : list (option Z)) (z : Z) : In z (present vs) <-> In (Some z) vs.
Proof.
  induction vs as [|[v|] vs IH]; simpl; [tauto| |].
  - rewrite IH. split; intros [H|H]; auto; left; congruence.
  - rewrite IH. split; [auto|]. intros [H|H]; [discriminate | exact H].
Qed.

Lemma mean_missing_iff (vs : list (option Z)) :
  mean vs = None <-> forall v, In v vs -> v = None.
Proof.
  unfold mean. split.
  - destruct (present vs) as [|z zs] eqn:E; [|discriminate]. intros _ [z|] Hv; [|reflexivity].
    apply present_In in Hv. rewrite E in Hv. destruct Hv.
  - intro H. destruct (present vs) as [|z zs] eqn:E; [reflexivity|]. exfalso.
    assert (In z (present vs)) as Hz by (rewrite E; now left).
    apply present_In in Hz. apply H in Hz. discriminate.
Qed.

Lemma sum_bounds (lo hi : Z) (zs : list Z) :
  (forall z, In z zs -> (lo <= z <= hi)%Z) ->
  (lo * Z.of_nat (List.length zs) <= sum zs <= hi * Z.of_nat (List.length zs))%Z.
Proof.
  induction zs as [|z zs IH]; intro H; [simpl; lia|].
  assert (lo <= z <= hi)%Z as Hz by (apply H; now left).
  assert (lo * Z.of_nat (List.length zs) <= sum zs <= hi * Z.of_nat (List.length zs))%Z as Hs
    by (apply IH; intros; apply H; now right).
  change (sum (z :: zs)) with (z + sum zs)%Z.
  change (List.length (z :: zs)) with (S (List.length zs)). lia.
Qed.

Lemma Qred_between (lo hi s : Z) (n : positive) :
  (lo * Z.pos n <= s <= hi * Z.pos n)%Z ->
  (inject_Z lo <= Qred (s # n) <= inject_Z hi)%Q.
Proof.
  intro H. split; rewrite Qred_correct; unfold Qle, inject_Z; cbn [Qnum Qden]; lia.
Qed.

(** A mean lies between the smallest and the largest value it averages. *)
Lemma mean_bounds (lo hi : Z) (vs : list (option Z)) (q : Q) :
  (forall z, In (Some z) vs -> (lo <= z <= hi)%Z) ->
  mean vs = Some q -> (inject_Z lo <= q <= inject_Z hi)%Q.
Proof.
  intros H Hq. unfold mean in Hq.
  destruct (present vs) as [|z zs] eqn:E; [discriminate|]. injection Hq as <-.
  assert (forall x, In x (z :: zs) -> (lo <= x <= hi)%Z) as Hb
    by (intros x Hx; apply H, present_In; now rewrite E).
  apply sum_bounds in Hb. apply Qred_between.
  assert (Z.pos (Pos.of_nat (S (List.length zs))) = Z.of_nat (S (List.length zs))) as Hp
    by (rewrite <- Pos.of_nat_succ, Znat.Zpos_P_of_succ_nat; lia).
  cbn [List.length] in Hb. rewrite <- Hp in Hb. exact Hb.
Qed.

Lemma groupby_mean_In (key : Row -> N) (c : Column) (data : DataFrame) (k : N) (m : option Q) :
  In (k, m) (groupby_mean key c data) <->
  In k (group_keys key data) /\ m = mean (map (cell c) (group key k data)).
Proof.
  unfold groupby_mean. rewrite in_map_iff. split.
  - intros (k' & [= <- <-] & H). auto.
  - intros [H ->]. eauto.
Qed.

(** A group draws no point exactly when the ride has no value in any row
    of the group: for a key of the filtered rows, the mean of a ride is
    missing if and only if every row with that key has a missing cell. *)
Theorem groupby_mean_missing_iff (key : Row -> N) (c : Ride) (data : DataFrame) (k : N) :
  In k (group_keys key data) ->
  (In (k, None) (groupby_mean key (ColWait c) data) <->
   forall r, In r data -> key r = k -> get c r = None).
Proof.
  intro Hk. rewrite groupby_mean_In. split.
  - intros [_ Hm] r Hr Hkey. symmetry in Hm. rewrite mean_missing_iff in Hm.
    apply Hm. apply in_map_iff. exists r. split; [reflexivity|].
    apply filter_In. split; [exact Hr | now apply N.eqb_eq].
  - intro H. split; [exact Hk|]. symmetry. apply mean_missing_iff.
    intros v Hv. apply in_map_iff in Hv as (r & <- & Hr).
    apply filter_In in Hr as [Hr Hkey]. apply N.eqb_eq in Hkey. now apply H.
Qed.

Lemma groupby_mean_missing_iff_witness :
  In 12%N (group_keys Hour (loc_day_month (data_df two_years) (mkDate 2021 7 4))) /\
  (In (12%N, None)
      (groupby_mean Hour (ColWait Dino) (loc_day_month (data_df two_years) (mkDate 2021 7 4)))
   <-> forall r, In r (loc_day_month (data_df two_years) (mkDate 2021 7 4)) ->
                 Hour r = 12%N -> get Dino r = None).
Proof.
  assert (In 12%N (group_keys Hour (loc_day_month (data_df two_years) (mkDate 2021 7 4)))) as H
    by (vm_compute; tauto).
  split; [exact H|].
  exact (@groupby_mean_missing_iff Hour Dino _ 12%N H).
Defined.

(** The sentinel never enters a mean: when every posted time of the files
    other than -999 lies between two bounds, so does every mean of every
    series the aggregation returns from the final table. *)
Theorem means_within_posted_bounds (set_iter : list N -> list N)
    (apply_raises_on_empty : bool) (d : Datasets) (lo hi : Z)
    (ride : string) (date : CalendarDate) (line bar : go.Figure) :
  (forall c row z, In row (file_of c d) -> Csv.SPOSTMIN row = Some z ->
                   z = (-999)%Z \/ (lo <= z <= hi)%Z) ->
  outcome (update_charts set_iter apply_raises_on_empty ride date) (data_df d) = Ok (line, bar) ->
  forall t q, In t (go.traces line ++ go.traces bar) -> In (Some q) (go.y t) ->
              (inject_Z lo <= q <= inject_Z hi)%Q.
Proof.
  intros Hfiles H t q Ht Hq.
  assert (forall key c, In (Some q)
                          (map snd (groupby_mean key (ColWait c)
                                      (loc_day_month (data_df d) date))) ->
                        (inject_Z lo <= q <= inject_Z hi)%Q) as Hmean.
  { intros key c Hin. apply in_map_iff in Hin as ([k m] & Hm & Hin). simpl in Hm; subst m.
    apply groupby_mean_In in Hin as [_ Hm]. symmetry in Hm.
    eapply mean_bounds; [|exact Hm].
    intros z Hz. apply in_map_iff in Hz as (r & Hz & Hr). simpl in Hz.
    apply filter_In in Hr as [Hr _]. apply filter_In in Hr as [Hr _].
    destruct (data_df_cell_source d r c Hr Hz) as (Hne & row & Hrow & Hp & _).
    destruct (Hfiles c row z Hrow Hp) as [->|Hb]; [contradiction | exact Hb]. }
  apply update_charts_ok_inv in H as [[_ E]|(c & _ & E)]; injection E as -> ->;
    simpl in Ht;
    repeat (destruct Ht as [<-|Ht]; [apply (Hmean _ _ Hq)|]); destruct Ht.
Qed.

Lemma means_within_posted_bounds_witness :
  (forall c row z, In row (file_of c closed_morning) -> Csv.SPOSTMIN row = Some z ->
                   z = (-999)%Z \/ (0 <= z <= 30)%Z) /\
  outcome (update_charts CPython.list_set true "All" (mkDate 2021 6 1)) (data_df closed_morning)
  = Ok (all_figures CPython.list_set (loc_day_month (data_df closed_morning) (mkDate 2021 6 1)))
  /\
  forall t q,
    In t (go.traces (fst (all_figures CPython.list_set
                            (loc_day_month (data_df closed_morning) (mkDate 2021 6 1))))
          ++ go.traces (snd (all_figures CPython.list_set
                               (loc_day_month (data_df closed_morning) (mkDate 2021 6 1))))) ->
    In (Some q) (go.y t) -> (inject_Z 0 <= q <= inject_Z 30)%Q.
Proof.
  assert (forall c row z, In row (file_of c closed_morning) -> Csv.SPOSTMIN row = Some z ->
                          z = (-999)%Z \/ (0 <= z <= 30)%Z) as Hfiles.
  { intros c row z Hin Hp. destruct c; simpl in Hin;
      repeat (destruct Hin as [<-|Hin]; [simpl in Hp; injection Hp as <-; lia|]);
      destruct Hin. }
  assert (outcome (update_charts CPython.list_set true "All" (mkDate 2021 6 1))
                  (data_df closed_morning)
          = Ok (all_figures CPython.list_set
                  (loc_day_month (data_df closed_morning) (mkDate 2021 6 1)))) as H
    by (vm_compute; reflexivity).
  split; [exact Hfiles|]. split; [exact H|].
  exact (@means_within_posted_bounds CPython.list_set true closed_morning 0 30 "All"%string
           (mkDate 2021 6 1) _ _ Hfiles H).
Defined.

(* ------------------------------------------------------------------ *)
(** ** The ride filter of the layout *)

(** Every option of the ride filter is a selector the aggregation accepts:
    for a date with rows it returns figures, and for a ride option the
    hourly series carries the option's label.  The selector raised for in
    [C3_unknown_ride_raises] cannot come from the filter. *)
Theorem ride_filter_options_accepted (set_iter : list N -> list N)
    (apply_raises_on_empty : bool) (df : DataFrame) (date : CalendarDate)
    (label value : string) :
  In (label, value) ride_filter_options ->
  loc_day_month df date <> [] ->
  (value = "All"%string \/ In value col) /\
  exists line bar,
    outcome (update_charts set_iter apply_raises_on_empty value date) df = Ok (line, bar) /\
    (value <> "All"%string -> map go.name (go.traces line) = [Some label]).
Proof.
  intros Hopt Hrows.
  pose proof (apply_raises_nonempty apply_raises_on_empty Hrows) as E.
  simpl in Hopt.
  destruct Hopt as [[= <- <-]|[[= <- <-]|[[= <- <-]|[[= <- <-]|[[= <- <-]|[[= <- <-]|[]]]]]]].
  - split; [now left|]. rewrite update_charts_all, E.
    eexists _, _. split; [reflexivity|]. intro H. now contradiction H.
  - split; [right; simpl; tauto|].
    rewrite (update_charts_single set_iter apply_raises_on_empty Everest), E.
    eexists _, _. split; [reflexivity|]. reflexivity.
  - split; [right; simpl; tauto|].
    rewrite (update_charts_single set_iter apply_raises_on_empty Dino), E.
    eexists _, _. split; [reflexivity|]. reflexivity.
  - split; [right; simpl; tauto|].
    rewrite (update_charts_single set_iter apply_raises_on_empty Passage), E.
    eexists _, _. split; [reflexivity|]. reflexivity.
  - split; [right; simpl; tauto|].
    rewrite (update_charts_single set_iter apply_raises_on_empty Safari), E.
    eexists _, _. split; [reflexivity|]. reflexivity.
  - split; [right; simpl; tauto|].
    rewrite (update_charts_single set_iter apply_raises_on_empty Navi), E.
    eexists _, _. split; [reflexivity|]. reflexivity.
Qed.

Lemma ride_filter_options_accepted_witness :
  In ("Dinosaur"%string, "SPOSTMIN_dino"%string) ride_filter_options /\
  loc_day_month (data_df scenario) (mkDate 2021 6 1) <> [] /\
  (("SPOSTMIN_dino"%string = "All"%string \/ In "SPOSTMIN_dino"%string col) /\
   exists line bar,
     outcome (update_charts CPython.list_set true "SPOSTMIN_dino" (mkDate 2021 6 1))
             (data_df scenario) = Ok (line, bar) /\
     ("SPOSTMIN_dino"%string <> "All"%string ->
      map go.name (go.traces line) = [Some "Dinosaur"%string])).
Proof.
  assert (In ("Dinosaur"%string, "SPOSTMIN_dino"%string) ride_filter_options) as Hopt
    by (simpl; tauto).
  assert (loc_day_month (data_df scenario) (mkDate 2021 6 1) <> []) as Hrows
    by (vm_compute; discriminate).
  split; [exact Hopt|]. split; [exact Hrows|].
  exact (@ride_filter_options_accepted CPython.list_set true (data_df scenario) (mkDate 2021 6 1)
           "Dinosaur"%string "SPOSTMIN_dino"%string Hopt Hrows).
Defined.
(* ================================================================== *)
(** * The interpreter's set on clock hours *)

Lemma store_length (A : Type) (l : list A) (i : nat) (a : A) :
  List.length (CPython.store l i a) = List.length l.
Proof.
  revert i; induction l as [|b l IH]; intros [|i]; simpl; auto.
Qed.

Lemma store_nth_same (A : Type) (l : list A) (i : nat) (a : A) :
  i < List.length l -> nth_error (CPython.store l i a) i = Some a.
Proof.
  revert i; induction l as [|b l IH]; intros [|i] H; simpl in *; try lia; auto.
  apply IH. lia.
Qed.

Lemma store_nth_other (A : Type) (l : list A) (i j : nat) (a : A) :
  i <> j -> nth_error (CPython.store l i a) j = nth_error l j.
Proof.
  revert i j; induction l as [|b l IH]; intros [|i] [|j] H; simpl; auto; try lia.
Qed.

Lemma keys_of_In (tbl : list (option N)) (k : N) :
  In k (CPython.keys_of tbl) <-> exists j, nth_error tbl j = Some (Some k).
Proof.
  induction tbl as [|[x|] tbl IH]; simpl.
  - split; [tauto|]. intros [[|j] H]; discriminate.
  - rewrite IH. split.
    + intros [->|[j H]]; [now exists 0 | now exists (S j)].
    + intros [[|j] H]; simpl in H; [left; congruence | right; eauto].
  - rewrite IH. split.
    + intros [j H]. now exists (S j).
    + intros [[|j] H]; simpl in H; [discriminate | eauto].
Qed.

Lemma keys_of_store (tbl : list (option N)) (i : nat) (x k : N) :
  nth_error tbl i = Some None ->
  (In k (CPython.keys_of (CPython.store tbl i (Some x))) <-> k = x \/ In k (CPython.keys_of tbl)).
Proof.
  intro Hi. rewrite !keys_of_In.
  assert (i < List.length tbl) as Hlt by (apply nth_error_Some; congruence).
  split.
  - intros [j H]. destruct (Nat.eq_dec i j) as [<-|Hne].
    + rewrite store_nth_same in H by exact Hlt. left. congruence.
    + rewrite store_nth_other in H by exact Hne. right. eauto.
  - intros [->|[j H]].
    + exists i. now apply store_nth_same.
    + exists j. rewrite store_nth_other; [exact H|]. intros ->. congruence.
Qed.

Lemma keys_of_store_length (tbl : list (option N)) (i : nat) (x : N) :
  nth_error tbl i = Some None ->
  List.length (CPython.keys_of (CPython.store tbl i (Some x)))
  = S (List.length (CPython.keys_of tbl)).
Proof.
  revert i; induction tbl as [|[y|] tbl IH]; intros [|i] H; simpl in *; try discriminate.
  - now rewrite IH.
  - reflexivity.
  - now apply IH.
Qed.

(** the scan of a probe *)
Lemma scan_active (tbl : list (option N)) (key i : N) (probes : nat) :
  CPython.scan tbl key i probes = Some CPython.Active -> In key (CPython.keys_of tbl).
Proof.
  revert i; induction probes as [|p IH]; intro i; simpl;
    destruct (nth_error tbl (N.to_nat i)) as [[k|]|] eqn:E; try discriminate;
    destruct (N.eqb_spec k key) as [->|Hne]; try discriminate; intro H;
    try (apply keys_of_In; eauto; fail).
  now apply IH in H.
Qed.

Lemma scan_unused (tbl : list (option N)) (key i j : N) (probes : nat) :
  CPython.scan tbl key i probes = Some (CPython.Unused j) ->
  nth_error tbl (N.to_nat j) = Some None.
Proof.
  revert i; induction probes as [|p IH]; intro i; simpl;
    destruct (nth_error tbl (N.to_nat i)) as [[k|]|] eqn:E; try discriminate;
    try (intros [= <-]; exact E);
    destruct (N.eqb k key); try discriminate.
  apply IH.
Qed.

Lemma find_slot_active (fuel : nat) (tbl : list (option N)) (msk key i perturb : N) :
  CPython.find_slot fuel tbl msk key i perturb = Some CPython.Active ->
  In key (CPython.keys_of tbl).
Proof.
  revert i perturb; induction fuel as [|f IH]; intros i perturb; simpl; [discriminate|].
  destruct (CPython.scan tbl key i _) as [s|] eqn:E.
  - intros [= ->]. now apply scan_active in E.
  - apply IH.
Qed.

Lemma find_slot_unused (fuel : nat) (tbl : list (option N)) (msk key i perturb j : N) :
  CPython.find_slot fuel tbl msk key i perturb = Some (CPython.Unused j) ->
  nth_error tbl (N.to_nat j) = Some None.
Proof.
  revert i perturb; induction fuel as [|f IH]; intros i perturb; simpl; [discriminate|].
  destruct (CPython.scan tbl key i _) as [s|] eqn:E.
  - intros [= ->]. now apply scan_unused in E.
  - apply IH.
Qed.

(** storing a key in an unused entry *)
Section Store.

Variable tbl : list (option N).
Variable j : N.
Variable x : N.
Hypothesis unused : nth_error tbl (N.to_nat j) = Some None.

Lemma scan_store_kept (y i : N) (probes : nat) :
  y <> x ->
  (forall u, CPython.scan tbl y i probes <> Some (CPython.Unused u)) ->
  CPython.scan (CPython.store tbl (N.to_nat j) (Some x)) y i probes = CPython.scan tbl y i probes.
Proof.
  intro Hne. revert i; induction probes as [|p IH]; intros i H; simpl in *.
  - destruct (Nat.eq_dec (N.to_nat j) (N.to_nat i)) as [E|E].
    + rewrite <- E, unused in H. exfalso. now apply (H i).
    + now rewrite store_nth_other.
  - destruct (Nat.eq_dec (N.to_nat j) (N.to_nat i)) as [E|E].
    + rewrite <- E, unused in H. exfalso. now apply (H i).
    + rewrite store_nth_other by exact E.
      destruct (nth_error tbl (N.to_nat i)) as [[k|]|]; try reflexivity.
      destruct (N.eqb k y); [reflexivity|]. now apply IH.
Qed.

Lemma find_slot_store_kept (fuel : nat) (msk y i perturb : N) :
  y <> x ->
  CPython.find_slot fuel tbl msk y i perturb = Some CPython.Active ->
  CPython.find_slot fuel (CPython.store tbl (N.to_nat j) (Some x)) msk y i perturb
  = Some CPython.Active.
Proof.
  intro Hne. revert i perturb; induction fuel as [|f IH]; intros i perturb; simpl; [discriminate|].
  intro H. rewrite scan_store_kept; auto.
  - destruct (CPython.scan tbl y i _) as [s|]; [exact H | now apply IH].
  - intros u E. rewrite E in H. discriminate.
Qed.

Lemma scan_store_found (i : N) (probes : nat) :
  CPython.scan tbl x i probes = Some (CPython.Unused j) ->
  CPython.scan (CPython.store tbl (N.to_nat j) (Some x)) x i probes = Some CPython.Active.
Proof.
  assert (N.to_nat j < List.length tbl) as Hlt by (apply nth_error_Some; congruence).
  revert i; induction probes as [|p IH]; intros i; simpl.
  - destruct (nth_error tbl (N.to_nat i)) as [[k|]|] eqn:E; try discriminate.
    + destruct (N.eqb k x); discriminate.
    + intros [= <-]. rewrite store_nth_same by exact Hlt. now rewrite N.eqb_refl.
  - destruct (nth_error tbl (N.to_nat i)) as [[k|]|] eqn:E; try discriminate.
    + destruct (N.eqb k x) eqn:K; [discriminate|]. intro H.
      rewrite store_nth_other, E, K; [now apply IH|]. intro Heq. congruence.
    + intros [= <-]. rewrite store_nth_same by exact Hlt. now rewrite N.eqb_refl.
Qed.

Lemma scan_store_missed (i : N) (probes : nat) :
  CPython.scan tbl x i probes = None ->
  CPython.scan (CPython.store tbl (N.to_nat j) (Some x)) x i probes = None.
Proof.
  revert i; induction probes as [|p IH]; intros i; simpl.
  - destruct (nth_error tbl (N.to_nat i)) as [[k|]|] eqn:E; try discriminate.
    + destruct (N.eqb k x) eqn:K; [discriminate|]. intros _.
      rewrite store_nth_other, E, K; [reflexivity|]. intro Heq. congruence.
    + intros _. rewrite store_nth_other, E; [reflexivity|]. intro Heq. congruence.
  - destruct (nth_error tbl (N.to_nat i)) as [[k|]|] eqn:E; try discriminate.
    + destruct (N.eqb k x) eqn:K; [discriminate|]. intro H.
      rewrite store_nth_other, E, K; [now apply IH|]. intro Heq. congruence.
    + intros _. rewrite store_nth_other, E; [reflexivity|]. intro Heq. congruence.
Qed.

Lemma find_slot_store_found (fuel : nat) (msk i perturb : N) :
  CPython.find_slot fuel tbl msk x i perturb = Some (CPython.Unused j) ->
  CPython.find_slot fuel (CPython.store tbl (N.to_nat j) (Some x)) msk x i perturb
  = Some CPython.Active.
Proof.
  revert i perturb; induction fuel as [|f IH]; intros i perturb; simpl; [discriminate|].
  destruct (CPython.scan tbl x i _) as [s|] eqn:E.
  - intros [= ->]. now rewrite (scan_store_found _ _ E).
  - intro H. rewrite (scan_store_missed _ _ E). now apply IH.
Qed.

End Store.

Lemma small_walk_covers (i j : N) :
  (i < 8)%N -> (j < 8)%N -> exists n, n < 8 /\ small_walk n i = j.
Proof.
  intros Hi Hj.
  assert (i = 0 \/ i = 1 \/ i = 2 \/ i = 3 \/ i = 4 \/ i = 5 \/ i = 6 \/ i = 7)%N as Ci by lia.
  assert (j = 0 \/ j = 1 \/ j = 2 \/ j = 3 \/ j = 4 \/ j = 5 \/ j = 6 \/ j = 7)%N as Cj by lia.
  repeat (destruct Ci as [->|Ci]); try subst i;
    repeat (destruct Cj as [->|Cj]); try subst j;
    first [ exists 0; split; [lia | reflexivity] | exists 1; split; [lia | reflexivity]
          | exists 2; split; [lia | reflexivity] | exists 3; split; [lia | reflexivity]
          | exists 4; split; [lia | reflexivity] | exists 5; split; [lia | reflexivity]
          | exists 6; split; [lia | reflexivity] | exists 7; split; [lia | reflexivity] ].
Qed.

Lemma find_slot_small_step (f : nat) (tbl : list (option N)) (x i : N) :
  CPython.find_slot (S f) tbl 7 x i 0
  = match CPython.scan tbl x i 0 with
    | Some s => Some s
    | None => CPython.find_slot f tbl 7 x (small_step i) 0
    end.
Proof.
  simpl. unfold CPython.LINEAR_PROBES.
  destruct (N.leb_spec (i + 9) 7) as [H|H]; [lia|]. reflexivity.
Qed.

Lemma find_slot_small_reaches (tbl : list (option N)) (x : N) (n f : nat) (i : N) :
  n < f -> nth_error tbl (N.to_nat (small_walk n i)) = Some None ->
  CPython.find_slot f tbl 7 x i 0 <> None.
Proof.
  revert f i; induction n as [|n IH]; intros [|f] i Hlt Hn; try lia;
    rewrite find_slot_small_step; simpl in Hn.
  - simpl. rewrite Hn. discriminate.
  - simpl. destruct (nth_error tbl (N.to_nat i)) as [[k|]|]; try discriminate.
    + destruct (N.eqb k x); [discriminate|]. apply IH; [lia | exact Hn].
    + apply IH; [lia | exact Hn].
Qed.

Lemma find_slot_small_first (f : nat) (tbl : list (option N)) (x i p : N) :
  (p < 32)%N ->
  CPython.find_slot (S f) tbl 7 x i p
  = match CPython.scan tbl x i 0 with
    | Some s => Some s
    | None => CPython.find_slot f tbl 7 x (small_step i) 0
    end.
Proof.
  intro Hp. cbn [CPython.find_slot]. unfold CPython.LINEAR_PROBES, CPython.PERTURB_SHIFT.
  destruct (N.leb_spec (i + 9) 7) as [H|H]; [lia|].
  assert (N.shiftr p 5 = 0)%N as ->; [|reflexivity].
  rewrite N.shiftr_div_pow2. apply N.div_small. exact Hp.
Qed.

(** in the table of 8 entries a probe ends, as long as an entry is unused *)
Lemma find_slot_small_total (tbl : list (option N)) (x : N) :
  List.length tbl = 8 -> (exists j, nth_error tbl j = Some None) -> (x < 32)%N ->
  CPython.find_slot (CPython.probe_fuel 7) tbl 7 x (N.land x 7) x <> None.
Proof.
  intros Hlen [j Hj] Hx.
  change (CPython.probe_fuel 7) with (S 95).
  rewrite find_slot_small_first by exact Hx.
  destruct (CPython.scan tbl x (N.land x 7) 0) as [s|]; [discriminate|].
  assert (j < 8) as Hj8 by (rewrite <- Hlen; apply nth_error_Some; congruence).
  assert (N.land x 7 < 8)%N as Hi.
  { change 7%N with (N.ones 3). rewrite N.land_ones. apply N.mod_lt. discriminate. }
  assert (small_step (N.land x 7) < 8)%N as Hs.
  { unfold small_step. change 7%N with (N.ones 3) at 2. rewrite N.land_ones.
    apply N.mod_lt. discriminate. }
  destruct (@small_walk_covers (small_step (N.land x 7)) (N.of_nat j) Hs) as (n & Hn & E); [lia|].
  apply (@find_slot_small_reaches tbl x n); [lia|].
  now rewrite E, Nat2N.id.
Qed.

Lemma land_ones_small (x k : N) : (5 <= k)%N -> (x < 32)%N -> N.land x (N.ones k) = x.
Proof.
  intros Hk Hx. rewrite N.land_ones. apply N.mod_small.
  apply N.lt_le_trans with (2 ^ 5)%N; [exact Hx|]. apply N.pow_le_mono_r; [discriminate | exact Hk].
Qed.

Lemma pow_gt_small (x k : N) : (5 <= k)%N -> (x < 32)%N -> N.to_nat x < N.to_nat (2 ^ k).
Proof.
  intros Hk Hx.
  assert (2 ^ 5 <= 2 ^ k)%N by (apply N.pow_le_mono_r; [discriminate | exact Hk]).
  change (2 ^ 5)%N with 32%N in H. lia.
Qed.

Lemma scan_own_place (tbl : list (option N)) (x : N) (probes : nat) :
  own_place tbl -> N.to_nat x < List.length tbl ->
  CPython.scan tbl x x probes
  = match nth_error tbl (N.to_nat x) with
    | Some (Some _) => Some CPython.Active
    | _ => Some (CPython.Unused x)
    end.
Proof.
  intros Hown Hlt.
  destruct (nth_error tbl (N.to_nat x)) as [[y|]|] eqn:E.
  - pose proof (Hown _ _ E) as Hy. rewrite N2Nat.id in Hy. subst y.
    destruct probes; simpl; now rewrite E, N.eqb_refl.
  - destruct probes; simpl; now rewrite E.
  - apply nth_error_None in E. lia.
Qed.

Lemma find_slot_own_place (tbl : list (option N)) (x k : N) :
  own_place tbl -> List.length tbl = N.to_nat (2 ^ k) -> (5 <= k)%N -> (x < 32)%N ->
  CPython.find_slot (CPython.probe_fuel (N.ones k)) tbl (N.ones k) x (N.land x (N.ones k)) x
  = match nth_error tbl (N.to_nat x) with
    | Some (Some _) => Some CPython.Active
    | _ => Some (CPython.Unused x)
    end.
Proof.
  intros Hown Hlen Hk Hx. rewrite land_ones_small by assumption.
  assert (exists f, CPython.probe_fuel (N.ones k) = S f) as [f ->].
  { unfold CPython.probe_fuel.
    destruct (N.to_nat (4 * (N.ones k + 1) + 64)) eqn:E; [exfalso; lia | eauto]. }
  simpl. rewrite scan_own_place; [|exact Hown | rewrite Hlen; now apply pow_gt_small].
  now destruct (nth_error tbl (N.to_nat x)) as [[y|]|].
Qed.

Lemma store_own_place (tbl : list (option N)) (x : N) :
  own_place tbl -> own_place (CPython.store tbl (N.to_nat x) (Some x)).
Proof.
  intros Hown j y H. destruct (Nat.eq_dec (N.to_nat x) j) as [<-|Hne].
  - destruct (Nat.lt_ge_cases (N.to_nat x) (List.length tbl)) as [Hlt|Hge].
    + rewrite store_nth_same in H by exact Hlt. injection H as <-. now rewrite N2Nat.id.
    + assert (nth_error (CPython.store tbl (N.to_nat x) (Some x)) (N.to_nat x) = None) as E
        by (apply nth_error_None; now rewrite store_length).
      congruence.
  - rewrite store_nth_other in H by exact Hne. now apply Hown.
Qed.

Lemma place_own_place (k : N) (ks : list N) (tbl : list (option N)) :
  (5 <= k)%N -> (forall x, In x ks -> (x < 32)%N) ->
  own_place tbl -> List.length tbl = N.to_nat (2 ^ k) ->
  own_place (fold_left (place_or_keep (N.ones k)) ks tbl) /\
  List.length (fold_left (place_or_keep (N.ones k)) ks tbl) = N.to_nat (2 ^ k) /\
  forall y, In y (CPython.keys_of (fold_left (place_or_keep (N.ones k)) ks tbl))
            <-> In y ks \/ In y (CPython.keys_of tbl).
Proof.
  intro Hk. revert tbl; induction ks as [|x ks IH]; intros tbl Hks Hown Hlen; simpl.
  - repeat split; auto. tauto.
  - assert (x < 32)%N as Hx by (apply Hks; now left).
    unfold place_or_keep at 2 4 6. unfold CPython.place.
    rewrite find_slot_own_place by assumption.
    assert (forall z, In z ks -> (z < 32)%N) as Hks' by (intros z Hz; apply Hks; now right).
    destruct (nth_error tbl (N.to_nat x)) as [[y|]|] eqn:E; cbv beta iota.
    + destruct (IH tbl Hks' Hown Hlen) as (H1 & H2 & H3).
      split; [exact H1|]. split; [exact H2|].
      intro z. rewrite H3. pose proof (Hown _ _ E) as Hy. rewrite N2Nat.id in Hy. subst y.
      assert (In x (CPython.keys_of tbl)) by (apply keys_of_In; eauto).
      split; [tauto|]. intros [[<-|H']|H']; auto.
    + assert (own_place (CPython.store tbl (N.to_nat x) (Some x))) as Hown'
        by now apply store_own_place.
      assert (List.length (CPython.store tbl (N.to_nat x) (Some x)) = N.to_nat (2 ^ k)) as Hlen'
        by now rewrite store_length.
      destruct (IH _ Hks' Hown' Hlen') as (H1 & H2 & H3).
      split; [exact H1|]. split; [exact H2|].
      intro z. rewrite H3, (@keys_of_store tbl (N.to_nat x) x z E). intuition.
    + apply nth_error_None in E. pose proof (pow_gt_small Hk Hx). lia.
Qed.

Lemma empty_table_own_place (n : N) : own_place (CPython.empty_table n).
Proof.
  unfold own_place, CPython.empty_table. intros j y H.
  apply nth_error_In, repeat_spec in H. discriminate.
Qed.

Lemma empty_table_keys (n : N) : CPython.keys_of (CPython.empty_table n) = [].
Proof.
  unfold CPython.empty_table. induction (N.to_nat n); simpl; auto.
Qed.

Lemma empty_table_length (n : N) : List.length (CPython.empty_table n) = N.to_nat n.
Proof. apply repeat_length. Qed.

Lemma table_size_pow (fuel : nat) (j m : N) :
  exists k, (j <= k)%N /\ CPython.table_size_from fuel (2 ^ j) m = (2 ^ k)%N.
Proof.
  revert j; induction fuel as [|f IH]; intro j; simpl.
  - exists j. split; [lia | reflexivity].
  - destruct (N.leb (2 ^ j) m); [|exists j; split; [lia | reflexivity]].
    rewrite N.shiftl_mul_pow2, N.pow_1_r, N.mul_comm, <- N.pow_succ_r'.
    destruct (IH (N.succ j)) as (k & Hk & E). exists k. split; [lia | exact E].
Qed.

Lemma table_size_step (f : nat) (s m : N) :
  CPython.table_size_from (S f) s m
  = if (s <=? m)%N then CPython.table_size_from f (N.shiftl s 1) m else s.
Proof. reflexivity. Qed.

Lemma table_size_large (m : N) :
  (16 <= m)%N ->
  exists k, (5 <= k)%N /\ CPython.table_size_from 64 CPython.PySet_MINSIZE m = (2 ^ k)%N.
Proof.
  intro Hm. unfold CPython.PySet_MINSIZE.
  rewrite (table_size_step 63 8 m).
  destruct (N.leb_spec 8 m) as [_|H]; [|lia].
  change (N.shiftl 8 1) with 16%N. rewrite (table_size_step 62 16 m).
  destruct (N.leb_spec 16 m) as [_|H]; [|lia].
  change (N.shiftl 16 1) with (2 ^ 5)%N. apply table_size_pow.
Qed.

(** the keys of such a table are listed in ascending order *)
Lemma keys_of_own_place_sorted (tbl : list (option N)) (o : nat) :
  (forall j y, nth_error tbl j = Some (Some y) -> y = N.of_nat (o + j)) ->
  StronglySorted N.lt (CPython.keys_of tbl) /\
  forall y, In y (CPython.keys_of tbl) -> (N.of_nat o <= y)%N.
Proof.
  revert o; induction tbl as [|[x|] tbl IH]; intros o H; simpl.
  - split; [constructor | tauto].
  - destruct (IH (S o)) as [Hs Hb].
    { intros j y Hj. rewrite (H (S j) y Hj). f_equal. lia. }
    pose proof (H 0 x eq_refl) as Hx. rewrite Nat.add_0_r in Hx.
    split.
    + constructor; [exact Hs|]. apply Forall_forall. intros y Hy. apply Hb in Hy. lia.
    + intros y [<-|Hy]; [lia | apply Hb in Hy; lia].
  - destruct (IH (S o)) as [Hs Hb].
    { intros j y Hj. rewrite (H (S j) y Hj). f_equal. lia. }
    split; [exact Hs|]. intros y Hy. apply Hb in Hy. lia.
Qed.

Lemma keys_of_full (tbl : list (option N)) :
  (forall j, nth_error tbl j <> Some None) ->
  List.length (CPython.keys_of tbl) = List.length tbl.
Proof.
  induction tbl as [|[x|] tbl IH]; intro H; simpl.
  - reflexivity.
  - f_equal. apply IH. intros j. apply (H (S j)).
  - exfalso. now apply (H 0).
Qed.

Lemma small_has_unused (tbl : list (option N)) :
  List.length tbl = 8 -> List.length (CPython.keys_of tbl) <= 4 ->
  exists j, nth_error tbl j = Some None.
Proof.
  intros Hlen Hk.
  destruct tbl as [|t0 [|t1 [|t2 [|t3 [|t4 [|t5 [|t6 [|t7 [|t8 tbl]]]]]]]]]; try discriminate.
  destruct t0; [|now exists 0]. destruct t1; [|now exists 1]. destruct t2; [|now exists 2].
  destruct t3; [|now exists 3]. destruct t4; [|now exists 4]. simpl in Hk. lia.
Qed.

Lemma resize_direct (so : CPython.PySetObject) (minused : N) :
  (16 <= minused)%N -> (5 <= CPython.fill so)%N ->
  (forall y, In y (CPython.keys_of (CPython.table so)) -> (y < 32)%N) ->
  direct_phase (CPython.set_table_resize so minused) /\
  forall y, In y (CPython.keys_of (CPython.table (CPython.set_table_resize so minused)))
            <-> In y (CPython.keys_of (CPython.table so)).
Proof.
  intros Hm Hfill Hkeys. unfold CPython.set_table_resize.
  destruct (table_size_large Hm) as (k & Hk & ->).
  assert ((2 ^ k - 1)%N = N.ones k) as -> by (rewrite N.ones_equiv; lia).
  change (fold_left _ (CPython.keys_of (CPython.table so)) (CPython.empty_table (2 ^ k)))
    with (fold_left (place_or_keep (N.ones k)) (CPython.keys_of (CPython.table so))
                    (CPython.empty_table (2 ^ k))).
  destruct (@place_own_place k (CPython.keys_of (CPython.table so)) (CPython.empty_table (2 ^ k))
              Hk Hkeys (empty_table_own_place _) (empty_table_length _)) as (H1 & H2 & H3).
  split.
  - exists k. simpl. auto.
  - intro y. simpl. rewrite H3, empty_table_keys. simpl. tauto.
Qed.

Lemma add_small (seen : list N) (so : CPython.PySetObject) (x : N) :
  (x < 32)%N -> (forall y, In y seen -> (y < 32)%N) ->
  (forall y, In y (CPython.keys_of (CPython.table so)) <-> In y seen) ->
  small_phase so -> hours_inv (x :: seen) (CPython.set_add_entry so x).
Proof.
  intros Hx Hseen Hkeys (Hmask & Hlen & Hfill & Hcount & Hreach).
  unfold CPython.set_add_entry. rewrite Hmask.
  destruct (CPython.find_slot (CPython.probe_fuel 7) (CPython.table so) 7 x (N.land x 7) x)
    as [[j|]|] eqn:E.
  - (* a new key *)
    pose proof (find_slot_unused _ _ _ _ _ _ E) as Hj.
    assert (~ In x (CPython.keys_of (CPython.table so))) as Hnew
      by (intro Hin; apply Hreach in Hin; congruence).
    assert (forall y, In y (CPython.keys_of (CPython.store (CPython.table so) (N.to_nat j) (Some x)))
                      <-> In y (x :: seen)) as Hkeys'.
    { intro y. rewrite (@keys_of_store _ _ x y Hj), Hkeys. simpl. intuition. }
    pose proof (@keys_of_store_length _ _ x Hj) as Hlen'.
    cbn [CPython.fill CPython.mask CPython.table].
    destruct (N.ltb_spec ((CPython.fill so + 1) * 5) (7 * 3)) as [Hlt|Hge].
    + split; [exact Hkeys'|]. left. unfold small_phase. cbn [CPython.fill CPython.mask CPython.table].
      rewrite store_length, Hlen'. repeat split; auto; try lia.
      intros k Hk. apply Hkeys' in Hk. destruct Hk as [<-|Hk].
      * now apply find_slot_store_found.
      * apply find_slot_store_kept; [exact Hj | | apply Hreach; now apply Hkeys].
        intros ->. apply Hnew. now apply Hkeys.
    + assert (CPython.fill so + 1 = 5)%N as E5 by lia. rewrite E5.
      change (if (50000 <? 5)%N then (5 * 2)%N else (5 * 4)%N) with 20%N.
      destruct (@resize_direct
                  (CPython.mkSet 5 7 (CPython.store (CPython.table so) (N.to_nat j) (Some x))) 20)
        as [Hd Hk]; cbn [CPython.fill CPython.table]; try lia.
      * intros y Hy. apply Hkeys' in Hy. destruct Hy as [<-|Hy]; auto.
      * split; [|now right]. intro y. rewrite Hk. cbn [CPython.table]. apply Hkeys'.
  - (* a key of the set *)
    split; [|left; repeat split; auto].
    apply find_slot_active in E. intro y. rewrite Hkeys. simpl. split; [tauto|].
    intros [<-|H]; [now apply Hkeys | exact H].
  - (* the probe ends *)
    exfalso. revert E. apply find_slot_small_total; auto. now apply small_has_unused.
Qed.

Lemma add_direct (seen : list N) (so : CPython.PySetObject) (x : N) :
  (x < 32)%N -> (forall y, In y seen -> (y < 32)%N) ->
  (forall y, In y (CPython.keys_of (CPython.table so)) <-> In y seen) ->
  direct_phase so -> hours_inv (x :: seen) (CPython.set_add_entry so x).
Proof.
  intros Hx Hseen Hkeys (k & Hk & Hmask & Hlen & Hown & Hfill).
  unfold CPython.set_add_entry. rewrite Hmask, find_slot_own_place by assumption.
  destruct (nth_error (CPython.table so) (N.to_nat x)) as [[y|]|] eqn:E.
  - pose proof (Hown _ _ E) as Hy. rewrite N2Nat.id in Hy. subst y.
    assert (In x (CPython.keys_of (CPython.table so))) as Hin by (apply keys_of_In; eauto).
    split; [|right; exists k; auto].
    intro y. rewrite Hkeys. simpl. split; [tauto|].
    intros [<-|H]; [now apply Hkeys | exact H].
  - assert (forall y, In y (CPython.keys_of (CPython.store (CPython.table so) (N.to_nat x) (Some x)))
                      <-> In y (x :: seen)) as Hkeys'.
    { intro y. rewrite (@keys_of_store _ _ x y E), Hkeys. simpl. intuition. }
    cbn [CPython.fill CPython.mask CPython.table].
    destruct (N.ltb ((CPython.fill so + 1) * 5) (N.ones k * 3)).
    + split; [exact Hkeys'|]. right. exists k. cbn [CPython.fill CPython.mask CPython.table].
      rewrite store_length. repeat split; auto; try lia. now apply store_own_place.
    + destruct (@resize_direct
                  (CPython.mkSet (CPython.fill so + 1) (N.ones k)
                     (CPython.store (CPython.table so) (N.to_nat x) (Some x)))
                  (if (50000 <? CPython.fill so + 1)%N
                   then ((CPython.fill so + 1) * 2)%N else ((CPython.fill so + 1) * 4)%N))
        as [Hd Hk']; cbn [CPython.fill CPython.table]; try lia.
      * destruct (N.ltb_spec 50000 (CPython.fill so + 1)); lia.
      * intros y Hy. apply Hkeys' in Hy. destruct Hy as [<-|Hy]; auto.
      * split; [|now right]. intro y. rewrite Hk'. cbn [CPython.table]. apply Hkeys'.
  - apply nth_error_None in E. pose proof (pow_gt_small Hk Hx). lia.
Qed.

Lemma add_hours (seen : list N) (so : CPython.PySetObject) (x : N) :
  (x < 32)%N -> (forall y, In y seen -> (y < 32)%N) ->
  hours_inv seen so -> hours_inv (x :: seen) (CPython.set_add_entry so x).
Proof.
  intros Hx Hseen [Hkeys [Hs|Hd]]; [now apply add_small | now apply add_direct].
Qed.

Lemma fold_hours (l seen : list N) (so : CPython.PySetObject) :
  (forall y, In y l -> (y < 32)%N) -> (forall y, In y seen -> (y < 32)%N) ->
  hours_inv seen so -> hours_inv (rev l ++ seen) (fold_left CPython.set_add_entry l so).
Proof.
  revert seen so; induction l as [|x l IH]; intros seen so Hl Hseen Hinv; [exact Hinv|].
  simpl. rewrite <- app_assoc. apply IH.
  - intros y Hy. apply Hl. now right.
  - intros y [<-|Hy]; [apply Hl; now left | now apply Hseen].
  - apply add_hours; auto. apply Hl. now left.
Qed.

Lemma new_set_inv : hours_inv [] CPython.new_set.
Proof.
  unfold hours_inv, small_phase, CPython.new_set.
  cbn [CPython.mask CPython.table CPython.fill].
  rewrite empty_table_keys, empty_table_length.
  split; [simpl; tauto|]. left. repeat split; try reflexivity.
  - simpl. lia.
  - intros k [].
Qed.

Lemma sorted_lt_leb (l : list N) :
  StronglySorted N.lt l -> StronglySorted (fun u v => N.leb u v = true) l /\ NoDup l.
Proof.
  induction 1 as [|a t _ [IH1 IH2] Ha]; split; constructor; auto.
  - rewrite Forall_forall in *. intros y Hy. apply N.leb_le. specialize (Ha y Hy). lia.
  - intro Hin. rewrite Forall_forall in Ha. specialize (Ha a Hin). lia.
Qed.

(** Five or more distinct values below 32 are listed by the interpreter's
    set in ascending order. *)
Theorem list_set_ascending (l : list N) :
  (forall h, In h l -> (h < 32)%N) -> 5 <= List.length (unique N.eqb l) ->
  CPython.list_set l = sort_by N.leb (unique N.eqb l).
Proof.
  intros Hl Hfive.
  pose proof (@fold_hours l [] CPython.new_set Hl (fun y (H : In y []) => match H with end)
                new_set_inv) as [Hkeys Hphase].
  rewrite app_nil_r in Hkeys. unfold CPython.list_set.
  set (so := fold_left CPython.set_add_entry l CPython.new_set) in *.
  destruct Hphase as [(_ & _ & _ & Hcount & _)|(k & _ & _ & _ & Hown & _)].
  - exfalso.
    assert (List.length (unique N.eqb l) <= List.length (CPython.keys_of (CPython.table so))).
    { apply NoDup_incl_length; [apply (unique_NoDup N.eqb N.eqb_eq)|].
      intros y Hy. apply Hkeys. rewrite <- in_rev.
      now apply (proj1 (unique_In N.eqb N.eqb_eq _ _)) in Hy. }
    lia.
  - destruct (@keys_of_own_place_sorted (CPython.table so) 0) as [Hs _].
    { intros j y Hj. now apply Hown. }
    destruct (sorted_lt_leb Hs) as [Hleb Hnd].
    apply sorted_same_elements.
    + exact Hleb.
    + apply sort_N_sorted.
    + exact Hnd.
    + eapply Permutation_NoDup; [apply sort_by_perm|]. apply (unique_NoDup N.eqb N.eqb_eq).
    + intro y. rewrite Hkeys, <- in_rev. split; intro H.
      * apply (Permutation_in _ (sort_by_perm N.leb _)). now apply (unique_In N.eqb N.eqb_eq).
      * apply (Permutation_in _ (Permutation_sym (sort_by_perm N.leb _))) in H.
        now apply (proj1 (unique_In N.eqb N.eqb_eq _ _)) in H.
Qed.

(** With five or more distinct clock hours in the filtered rows, the
    interpreter lists the hours in ascending order, and every hourly
    series pairs each hour with the mean of its own group. *)
Theorem hourly_paired_from_five_hours (apply_raises_on_empty : bool) (df : DataFrame)
    (ride : string) (date : CalendarDate) (line bar : go.Figure) :
  (forall r, In r (loc_day_month df date) -> (Hour r < 24)%N) ->
  5 <= List.length (group_keys Hour (loc_day_month df date)) ->
  outcome (update_charts CPython.list_set apply_raises_on_empty ride date) df = Ok (line, bar) ->
  exists shown,
    ((ride = "All"%string /\ shown = rides) \/ (exists c, ride = col_name c /\ shown = [c])) /\
    Forall2 (fun c t =>
               go.x t = group_keys Hour (loc_day_month df date) /\
               combine (go.x t) (go.y t)
               = map (fun h => (h, mean (map (get c) (group Hour h (loc_day_month df date)))))
                     (group_keys Hour (loc_day_month df date)))
            shown (go.traces line).
Proof.
  intros Hhours Hfive H.
  assert (CPython.list_set (map Hour (loc_day_month df date))
          = group_keys Hour (loc_day_month df date)) as Hasc.
  { unfold group_keys. apply list_set_ascending.
    - intros h Hh. apply in_map_iff in Hh as (r & <- & Hr). specialize (Hhours r Hr). lia.
    - unfold group_keys in Hfive.
      now rewrite (Permutation_length (sort_by_perm N.leb _)). }
  assert (forall c, go.x (hourly_trace CPython.list_set c (loc_day_month df date))
                    = group_keys Hour (loc_day_month df date) /\
                    combine (go.x (hourly_trace CPython.list_set c (loc_day_month df date)))
                            (go.y (hourly_trace CPython.list_set c (loc_day_month df date)))
                    = map (fun h => (h, mean (map (get c)
                                                  (group Hour h (loc_day_month df date)))))
                          (group_keys Hour (loc_day_month df date))) as Htrace.
  { intro c. split; [exact Hasc|]. now apply hourly_trace_paired_when_ascending. }
  apply update_charts_ok_inv in H as [[-> E]|(c & -> & E)]; injection E as -> ->.
  - exists rides. split; [now left|]. simpl go.traces. unfold rides.
    repeat apply Forall2_cons; try apply Forall2_nil; apply Htrace.
  - exists [c]. split; [right; eauto|]. simpl go.traces.
    constructor; [apply Htrace | constructor].
Qed.

Lemma hourly_paired_from_five_hours_witness :
  (forall r, In r (loc_day_month (data_df five_hours) (mkDate 2021 6 1)) -> (Hour r < 24)%N) /\
  5 <= List.length (group_keys Hour (loc_day_month (data_df five_hours) (mkDate 2021 6 1))) /\
  outcome (update_charts CPython.list_set true "SPOSTMIN_dino" (mkDate 2021 6 1))
          (data_df five_hours)
  = Ok (single_figures CPython.list_set Dino
          (loc_day_month (data_df five_hours) (mkDate 2021 6 1))) /\
  exists shown,
    (("SPOSTMIN_dino"%string = "All"%string /\ shown = rides) \/
     (exists c, "SPOSTMIN_dino"%string = col_name c /\ shown = [c])) /\
    Forall2 (fun c t =>
               go.x t = group_keys Hour (loc_day_month (data_df five_hours) (mkDate 2021 6 1)) /\
               combine (go.x t) (go.y t)
               = map (fun h =>
                        (h, mean (map (get c)
                                      (group Hour h
                                         (loc_day_month (data_df five_hours) (mkDate 2021 6 1))))))
                     (group_keys Hour (loc_day_month (data_df five_hours) (mkDate 2021 6 1))))
            shown
            (go.traces (fst (single_figures CPython.list_set Dino
                               (loc_day_month (data_df five_hours) (mkDate 2021 6 1))))).
Proof.
  assert (forall r, In r (loc_day_month (data_df five_hours) (mkDate 2021 6 1)) ->
                    (Hour r < 24)%N) as Hhours.
  { intros r Hr. vm_compute in Hr.
    repeat (destruct Hr as [<-|Hr]; [reflexivity|]). destruct Hr. }
  assert (5 <= List.length (group_keys Hour
                              (loc_day_month (data_df five_hours) (mkDate 2021 6 1)))) as Hfive
    by (vm_compute; lia).
  assert (outcome (update_charts CPython.list_set true "SPOSTMIN_dino" (mkDate 2021 6 1))
                  (data_df five_hours)
          = Ok (single_figures CPython.list_set Dino
                  (loc_day_month (data_df five_hours) (mkDate 2021 6 1)))) as H
    by (vm_compute; reflexivity).
  split; [exact Hhours|]. split; [exact Hfive|]. split; [exact H|].
  exact (@hourly_paired_from_five_hours true (data_df five_hours) "SPOSTMIN_dino"%string
           (mkDate 2021 6 1) _ _ Hhours Hfive H).
Defined.

